(** * Debate simulator: the resilient completion call [callGroq]

    A shallow embedding of the Groq server variant of the debate simulator:
    the model tables, the timeout wrapper around [fetch], and [callGroq]
    with its retry loop and its recursive model fallback.  The remote
    endpoint is a parameter: the outcome of the n-th outbound call, given
    the request that was sent.  Console output is not modelled; outbound
    calls, backoff waits and invocations of [callGroq] are recorded in a
    log, in the order in which they happen.  The debate endpoint that
    calls [callGroq], with its rate limiter, and the OpenRouter server
    with [callOpenRouter] follow. *)

From Stdlib Require Import List String Ascii ZArith QArith Bool Lia DecimalString.
Import ListNotations.
Local Open Scope string_scope.
Local Open Scope list_scope.
Local Open Scope Z_scope.

(** ** JavaScript values the code relies on *)

Module Js.

(** Members every object literal inherits from [Object.prototype].
    [obj[key]] and [key in obj] both follow the prototype chain. *)
Definition Object_prototype : list string :=
  [ "constructor"; "__defineGetter__"; "__defineSetter__"; "hasOwnProperty";
    "__lookupGetter__"; "__lookupSetter__"; "isPrototypeOf";
    "propertyIsEnumerable"; "toString"; "valueOf"; "__proto__";
    "toLocaleString" ].

Definition mem (x : string) (l : list string) : bool :=
  existsb (String.eqb x) l.

(** Result of the property read [obj[key]] on an object literal whose own
    properties all hold values of type [A]. *)
Inductive Property (A : Type) : Type :=
| Own (a : A)
| Inherited (member : string)
| Undefined.
Arguments Own {A} a.
Arguments Inherited {A} member.
Arguments Undefined {A}.

Fixpoint own {A : Type} (obj : list (string * A)) (key : string) : option A :=
  match obj with
  | [] => None
  | (k, v) :: rest => if String.eqb key k then Some v else own rest key
  end.

(** [obj[key]] *)
Definition get {A : Type} (obj : list (string * A)) (key : string) : Property A :=
  match own obj key with
  | Some v => Own v
  | None => if mem key Object_prototype then Inherited key else Undefined
  end.

(** [key in obj] *)
Definition has_property {A : Type} (key : string) (obj : list (string * A)) : bool :=
  match get obj key with
  | Undefined => false
  | _ => true
  end.

(** [Object.keys(obj)] *)
Definition keys {A : Type} (obj : list (string * A)) : list string :=
  map fst obj.

(** A string is truthy unless it is empty. *)
Definition truthy (s : string) : bool :=
  negb (String.eqb s "").

(** An error object, as far as the code inspects it.  A [code] that is
    not a string (a DOMException carries a number) never equals one of the
    string constants it is compared with, and is recorded as [None]. *)
Record Error : Type := mkError {
  name : string;
  code : option string;
  message : string
}.

(** [new Error(msg)] *)
Definition new_Error (msg : string) : Error :=
  {| name := "Error"; code := None; message := msg |}.

(** What an aborted [fetch] rejects with. *)
Definition AbortError : Error :=
  {| name := "AbortError"; code := None;
     message := "This operation was aborted" |}.

(** A [Set] of strings: insertion ordered, without duplicates. *)
Definition StringSet : Type := list string.

Definition Set_has (s : StringSet) (x : string) : bool := mem x s.

Definition Set_add (s : StringSet) (x : string) : StringSet :=
  if Set_has s x then s else s ++ [x].

(** [new Set(array)] *)
Definition new_Set (array : list string) : StringSet :=
  fold_left Set_add array [].

(** [Array.from(set)] *)
Definition Array_from (s : StringSet) : list string := s.

(** Template-literal rendering of an integer. *)
Definition number_to_string (z : Z) : string :=
  NilZero.string_of_int (Z.to_int z).

End Js.

(** ** Configuration tables *)

Definition FETCH_TIMEOUT_MS : Z := 60000.
Definition MAX_RETRIES : Z := 3.
Definition INITIAL_RETRY_DELAY_MS : Z := 1000.

Definition FREE_MODELS : list (string * string) :=
  [ ("llama33", "llama-3.3-70b-versatile");
    ("llama31", "llama-3.1-8b-instant");
    ("llama3",  "llama3-70b-8192");
    ("mixtral", "mixtral-8x7b-32768");
    ("gemma2",  "gemma2-9b-it");
    ("llama32", "llama-3.2-90b-text-preview") ].

Definition MODEL_FALLBACK_ORDER : list string :=
  [ "llama33"; "llama32"; "llama3"; "mixtral"; "llama31"; "gemma2" ].

Record Personality : Type := mkPersonality {
  agent_name : string;
  role : string;
  style : string
}.

Record ResponseLength : Type := mkResponseLength {
  tokens : Z;
  description : string
}.

Definition RESPONSE_LENGTHS : list (string * ResponseLength) :=
  [ ("short",  {| tokens := 150; description := "1-2 paragraphs" |});
    ("medium", {| tokens := 300; description := "3-4 paragraphs" |});
    ("long",   {| tokens := 500; description := "5-6 paragraphs" |}) ].

(** ** Requests and responses *)

(** The value sent as [model]: an identifier string, or (when the alias
    names an inherited member) whatever [Object.prototype] holds there. *)
Inductive ModelId : Type :=
| Identifier (id : string)
| PrototypeMember (member : string).

Record ChatMessage : Type := mkChatMessage {
  msg_role : string;
  content : string
}.

(** The JSON body of the POST request. *)
Record Request : Type := mkRequest {
  model : ModelId;
  messages : list ChatMessage;
  max_tokens : Z;
  temperature : Q
}.

(** Reading a response body either yields a value or throws. *)
Inductive Read (A : Type) : Type :=
| Got (a : A)
| Failed (e : Js.Error).
Arguments Got {A} a.
Arguments Failed {A} e.

(** A response of the endpoint.  [json] is the outcome of
    [response.json()] followed by [data?.choices?.[0]?.message?.content]:
    [Got None] when some link of that path is missing, [Got (Some s)] when
    the path leads to the string [s].  Responses whose content is of
    another kind (a number, an object) are not described. *)
Record Response : Type := mkResponse {
  status : Z;
  text : Read string;
  json : Read (option string)
}.

(** [response.ok] *)
Definition ok (r : Response) : bool :=
  (200 <=? status r) && (status r <=? 299).

(** What the underlying [fetch] does with one request: it resolves, it
    rejects, or it is still pending when the timeout fires. *)
Inductive FetchOutcome : Type :=
| Resolves (r : Response)
| Rejects (e : Js.Error)
| Pending.

(** ** Observable behaviour *)

Inductive Event : Type :=
| Invoke (alias : string) (triedModels : list string)
| Fetch (req : Request)
| Delay (ms : Z).

Record World : Type := mkWorld {
  calls : nat;
  log : list Event
}.

Definition start : World := {| calls := 0; log := [] |}.

Definition emit (e : Event) (w : World) : World :=
  {| calls := calls w; log := log w ++ [e] |}.

(** How an invocation ends.  [Returns None] is the [undefined] of a
    function body that runs to its end; [OutOfFuel] belongs to the model
    only. *)
Inductive Completion : Type :=
| Returns (v : option string)
| Throws (e : Js.Error)
| OutOfFuel.

(** ** The registry lookups of [callGroq] *)

(** [FREE_MODELS[model] || FREE_MODELS.llama33] *)
Definition resolve (alias : string) : ModelId :=
  let default :=
    match Js.own FREE_MODELS "llama33" with
    | Some id => Identifier id
    | None => Identifier ""
    end in
  match Js.get FREE_MODELS alias with
  | Js.Own id => if Js.truthy id then Identifier id else default
  | Js.Inherited member => PrototypeMember member
  | Js.Undefined => default
  end.

(** [RESPONSE_LENGTHS[length]?.tokens || 300] *)
Definition maxTokens (length : string) : Z :=
  match Js.get RESPONSE_LENGTHS length with
  | Js.Own cfg => if tokens cfg =? 0 then 300 else tokens cfg
  | Js.Inherited _ => 300
  | Js.Undefined => 300
  end.

(** [MODEL_FALLBACK_ORDER.find(m => !triedModelsSet.has(m))] *)
Definition fallbackCandidate (triedModelsSet : Js.StringSet) : option string :=
  find (fun m => negb (Js.Set_has triedModelsSet m)) MODEL_FALLBACK_ORDER.

(** The body handed to [JSON.stringify]. *)
Definition buildRequest (prompt : string) (personality : Personality)
    (length : string) (alias : string) : Request :=
  {| model := resolve alias;
     messages := [ {| msg_role := "system"; content := style personality |};
                   {| msg_role := "user"; content := prompt |} ];
     max_tokens := maxTokens length;
     temperature := 7 # 10 |}.

Definition isNetworkError (error : Js.Error) : bool :=
  String.eqb (Js.name error) "AbortError"
  || String.eqb (Js.name error) "TypeError"
  || match Js.code error with
     | Some c => String.eqb c "UND_ERR_CONNECT_TIMEOUT"
                 || String.eqb c "ECONNREFUSED"
                 || String.eqb c "ETIMEDOUT"
     | None => false
     end.

Definition apiError (response : Response) (errorData : string) : Js.Error :=
  Js.new_Error ("Groq API error: " ++ Js.number_to_string (status response)
                ++ " - " ++ errorData)%string.

Definition missingContent : Js.Error :=
  Js.new_Error "Invalid response from Groq API: missing content".

Definition fallbackStatus (response : Response) : bool :=
  let is404 := status response =? 404 in
  let is429 := status response =? 429 in
  let is503 := status response =? 503 in
  is404 || is429 || is503.

(** The default of the parameter [model = 'llama33']. *)
Definition startAlias (model : option string) : string :=
  match model with
  | Some m => m
  | None => "llama33"
  end.

(** ** The orchestrator *)

Section Orchestrator.

(** The remote endpoint: what [fetch] does on the n-th outbound call of
    the run (counting from 0) when handed the given request. *)
Variable endpoint : nat -> Request -> FetchOutcome.

(** [fetchWithTimeout]: one outbound call; a fetch still pending after
    [FETCH_TIMEOUT_MS] is aborted and rejects with an [AbortError]. *)
Definition fetchWithTimeout (req : Request) (w : World)
    : (Response + Js.Error) * World :=
  let w' := {| calls := S (calls w); log := log w ++ [Fetch req] |} in
  match endpoint (calls w) req with
  | Resolves response => (inl response, w')
  | Rejects e => (inr e, w')
  | Pending => (inr Js.AbortError, w')
  end.

(** [delay] *)
Definition delay (ms : Z) (w : World) : World := emit (Delay ms) w.

Section Frame.

(** One invocation of [callGroq]: its arguments, and the function it
    calls for the fallback model. *)
Variable self : string -> list string -> World -> Completion * World.
Variables (prompt : string) (personality : Personality) (length : string).
Variable model : string.

(** The [try] block of one loop iteration.  [triedModelsSet] is
    mutated in place, so the set is returned whichever way the block
    is left. *)
Definition tryBlock (triedModelsSet : Js.StringSet) (w : World)
    : Completion * Js.StringSet * World :=
  match fetchWithTimeout (buildRequest prompt personality length model) w with
  | (inr e, w1) => (Throws e, triedModelsSet, w1)
  | (inl response, w1) =>
    if negb (ok response) then
      match text response with
      | Failed e => (Throws e, triedModelsSet, w1)
      | Got errorData =>
        if fallbackStatus response
           && Js.has_property model FREE_MODELS
           && negb (Js.Set_has triedModelsSet model)
        then
          let triedModelsSet' := Js.Set_add triedModelsSet model in
          match fallbackCandidate triedModelsSet' with
          | Some fallbackModel =>
            let (r, w2) := self fallbackModel (Js.Array_from triedModelsSet') w1 in
            (r, triedModelsSet', w2)
          | None => (Throws (apiError response errorData), triedModelsSet', w1)
          end
        else (Throws (apiError response errorData), triedModelsSet, w1)
      end
    else
      match json response with
      | Failed e => (Throws e, triedModelsSet, w1)
      | Got data =>
        match data with
        | Some generated =>
          if Js.truthy generated then (Returns (Some generated), triedModelsSet, w1)
          else (Throws missingContent, triedModelsSet, w1)
        | None => (Throws missingContent, triedModelsSet, w1)
        end
      end
  end.

(** [while (attempt <= MAX_RETRIES) { try { ... } catch (error) { ... } }] *)
Fixpoint retryLoop (fuel : nat) (attempt : Z) (triedModelsSet : Js.StringSet)
    (w : World) : Completion * World :=
  match fuel with
  | O => (OutOfFuel, w)
  | S fuel' =>
    if attempt <=? MAX_RETRIES then
      match tryBlock triedModelsSet w with
      | (Throws error, triedModelsSet', w1) =>
        let isLastAttempt := attempt =? MAX_RETRIES in
        if isNetworkError error && negb isLastAttempt then
          let delayMs := INITIAL_RETRY_DELAY_MS * 2 ^ attempt in
          retryLoop fuel' (attempt + 1) triedModelsSet' (delay delayMs w1)
        else (Throws error, w1)
      | (r, _, w1) => (r, w1)
      end
    else (Returns None, w)
  end.

End Frame.

(** Iterations the loop can ever start, plus the final test. *)
Definition loopFuel : nat := S (S (Z.to_nat MAX_RETRIES)).

(** [callGroq], with a bound on the depth of the recursion. *)
Fixpoint callGroqAt (depth : nat) (prompt : string) (personality : Personality)
    (length : string) (model : string) (triedModels : list string) (w : World)
    : Completion * World :=
  match depth with
  | O => (OutOfFuel, w)
  | S depth' =>
    let triedModelsSet := Js.new_Set triedModels in
    retryLoop (callGroqAt depth' prompt personality length)
              prompt personality length model
              loopFuel 0 triedModelsSet (emit (Invoke model triedModels) w)
  end.

(** Every fallback adds the current alias to the tried set and moves on to
    an alias of the fallback order that is not in it, so the recursion is
    never deeper than this. *)
Definition maxDepth : nat := S (List.length MODEL_FALLBACK_ORDER).

Definition callGroq (prompt : string) (personality : Personality)
    (length : string) (model : string) (triedModels : list string) (w : World)
    : Completion * World :=
  callGroqAt maxDepth prompt personality length model triedModels w.

(** The call the debate endpoint makes: [triedModels] takes its default
    [[]], and so does [model] when the request body has none. *)
Definition complete (prompt : string) (personality : Personality)
    (length : string) (model : option string) : Completion * World :=
  callGroq prompt personality length (startAlias model) [] start.

End Orchestrator.

Arguments callGroqAt : simpl never.
Arguments callGroq : simpl never.
Arguments complete : simpl never.

(** Requests sent and waits made, read off a log. *)
Definition requests (l : list Event) : list Request :=
  flat_map (fun e => match e with Fetch r => [r] | _ => [] end) l.

Definition waits (l : list Event) : list Z :=
  flat_map (fun e => match e with Delay ms => [ms] | _ => [] end) l.

Definition invocations (l : list Event) : list string :=
  flat_map (fun e => match e with Invoke a _ => [a] | _ => [] end) l.

(** ** Vocabulary for endpoint behaviour *)

(** The state right after one more request has gone out. *)
Definition sent (req : Request) (w : World) : World :=
  {| calls := S (calls w); log := log w ++ [Fetch req] |}.

(** The error a failed fetch surfaces in the [catch] block, if the outcome
    is a failure of the fetch itself. *)
Definition fetchError (o : FetchOutcome) : option Js.Error :=
  match o with
  | Resolves _ => None
  | Rejects e => Some e
  | Pending => Some Js.AbortError
  end.

(** A transport-level failure: the fetch fails, with an error the [catch]
    block classifies as a network error. *)
Definition transportFailure (o : FetchOutcome) : bool :=
  match fetchError o with
  | Some e => isNetworkError e
  | None => false
  end.

(** A server rejection: a response that is not [ok], whose body can be
    read. *)
Definition rejection (o : FetchOutcome) : option (Response * string) :=
  match o with
  | Resolves response =>
      if ok response then None
      else match text response with
           | Got errorData => Some (response, errorData)
           | Failed _ => None
           end
  | _ => None
  end.

(** A success carrying generated text. *)
Definition generatedText (o : FetchOutcome) : option string :=
  match o with
  | Resolves response =>
      if ok response then
        match json response with
        | Got (Some generated) => if Js.truthy generated then Some generated else None
        | _ => None
        end
      else None
  | _ => None
  end.

(** A success whose parsed body has no usable [choices[0].message.content]. *)
Definition malformed (o : FetchOutcome) : bool :=
  match o with
  | Resolves response =>
      ok response
      && match json response with
         | Got (Some generated) => negb (Js.truthy generated)
         | Got None => true
         | Failed _ => false
         end
  | _ => false
  end.

(** The [catch] block applied to what the [try] block produced at the
    given attempt: either the loop goes round again after a wait, or the
    invocation ends. *)
Definition retries (attempt : Z) (r : Completion) : bool :=
  match r with
  | Throws error => isNetworkError error && negb (attempt =? MAX_RETRIES)
  | _ => false
  end.

(** What the loop leaves in the log when [k] attempts in a row fail at
    transport level and the next one is answered. *)
Fixpoint backoffLog (r : Request) (attempt : Z) (k : nat) : list Event :=
  match k with
  | O => [Fetch r]
  | S k' =>
      Fetch r :: Delay (INITIAL_RETRY_DELAY_MS * 2 ^ attempt)
        :: backoffLog r (attempt + 1) k'
  end.

(** What one iteration of the [try] block ends with when it does not hand
    over to a fallback model. *)
Definition settle (o : FetchOutcome) : Completion :=
  match o with
  | Rejects e => Throws e
  | Pending => Throws Js.AbortError
  | Resolves response =>
      if ok response then
        match json response with
        | Failed e => Throws e
        | Got (Some generated) =>
            if Js.truthy generated then Returns (Some generated)
            else Throws missingContent
        | Got None => Throws missingContent
        end
      else
        match text response with
        | Failed e => Throws e
        | Got errorData => Throws (apiError response errorData)
        end
  end.

(** Aliases of the fallback order that a tried set does not hold. *)
Definition untried (set : Js.StringSet) : list string :=
  filter (fun m => negb (Js.Set_has set m)) MODEL_FALLBACK_ORDER.

(** The shape every request of a call has. *)
Definition wellFormed (prompt : string) (personality : Personality)
    (length : string) (r : Request) : Prop :=
  messages r = [ {| msg_role := "system"; content := style personality |};
                 {| msg_role := "user"; content := prompt |} ]
  /\ temperature r = 7 # 10
  /\ max_tokens r = match Js.own RESPONSE_LENGTHS length with
                    | Some cfg => tokens cfg
                    | None => 300
                    end.

(** An invocation that ends the way a JavaScript call can: with generated
    text or with a thrown error. *)
Definition settled (r : Completion) : Prop :=
  match r with
  | Returns (Some _) => True
  | Throws _ => True
  | Returns None => False
  | OutOfFuel => False
  end.

(** Can an invocation for [model] whose tried set is [set] still hand
    over to a fallback model? *)
Definition canFallBack (model : string) (set : Js.StringSet) : bool :=
  Js.has_property model FREE_MODELS && negb (Js.Set_has set model).

(** Requests an invocation for [model] can cause, itself and the
    invocations it hands over to taken together. *)
Definition requestBudget (model : string) (set : Js.StringSet) : nat :=
  if canFallBack model set
  then (4 * List.length (untried (Js.Set_add set model)))%nat
  else 0%nat.

(** Iterations the retry loop has left at a given attempt. *)
Definition attemptsLeft (attempt : Z) : nat :=
  Z.to_nat (MAX_RETRIES + 1 - attempt).

(** Aliases of the fallback order, none of them in the given set and no
    two of them equal. *)
Definition freshAliases (set : Js.StringSet) (l : list string) : Prop :=
  NoDup l
  /\ forall a, In a l -> In a MODEL_FALLBACK_ORDER /\ Js.Set_has set a = false.

(** ** Sample data *)

Definition AGENT_PERSONALITIES_pro : Personality :=
  {| agent_name := "Pro Agent";
     role := "advocate";
     style := "You are a skilled debater arguing in FAVOR of the topic. Be persuasive, use logical arguments, provide examples, and maintain a professional but passionate tone. Always support the affirmative position." |}.

(** What [fetch] rejects with when the connection cannot be used. *)
Definition fetchFailed : Js.Error :=
  {| Js.name := "TypeError"; Js.code := None; Js.message := "fetch failed" |}.

Definition respond (code : Z) (body : string) : FetchOutcome :=
  Resolves {| status := code; text := Got body; json := Got None |}.

Definition answer (generated : string) : FetchOutcome :=
  Resolves {| status := 200; text := Got generated; json := Got (Some generated) |}.

(** Does the request name the identifier of the given alias? *)
Definition asksFor (alias : string) (r : Request) : bool :=
  match model r, Js.own FREE_MODELS alias with
  | Identifier id, Some id' => String.eqb id id'
  | _, _ => false
  end.

(** An endpoint that is overloaded for llama33 and llama32 and serves
    llama3. *)
Definition twoOverloaded (n : nat) (r : Request) : FetchOutcome :=
  if asksFor "llama33" r then respond 503 "llama33 over capacity"
  else if asksFor "llama32" r then respond 503 "llama32 over capacity"
  else if asksFor "llama3" r then answer "I argue in favour."
  else respond 400 "bad request".

(** An endpoint that is unreachable for the first two calls. *)
Definition unreachableTwice (n : nat) (r : Request) : FetchOutcome :=
  match n with
  | 0%nat => Pending
  | 1%nat => Rejects fetchFailed
  | _ => answer "I argue in favour."
  end.

(** A 200 response whose body has no [choices]. *)
Definition emptyBody : FetchOutcome :=
  Resolves {| status := 200; text := Got "{}"; json := Got None |}.

(** An endpoint that rate-limits every request. *)
Definition rateLimited (n : nat) (r : Request) : FetchOutcome :=
  respond 429 "Rate limit reached".

(** An endpoint that rate-limits the first call and cannot be reached
    afterwards. *)
Definition limitedThenUnreachable (n : nat) (r : Request) : FetchOutcome :=
  match n with
  | 0%nat => respond 429 "Rate limit reached"
  | _ => Rejects fetchFailed
  end.

(** An endpoint that is overloaded on the first call, cannot be reached
    for the next four, and answers from then on. *)
Definition overloadedThenUnreachable (n : nat) (r : Request) : FetchOutcome :=
  match n with
  | 0%nat => respond 503 "Service unavailable"
  | 1%nat | 2%nat | 3%nat | 4%nat => Rejects fetchFailed
  | _ => answer "I argue in favour."
  end.

(** An endpoint that is overloaded for the first six calls and cannot be
    reached afterwards. *)
Definition sixOverloaded (n : nat) (r : Request) : FetchOutcome :=
  if (n <? 6)%nat then respond 503 "Service unavailable"
  else Rejects fetchFailed.

(** An endpoint that is overloaded on the first call and answers from
    then on. *)
Definition overloadedOnce (n : nat) (r : Request) : FetchOutcome :=
  match n with
  | 0%nat => respond 503 "Service unavailable"
  | _ => answer "I argue in favour."
  end.

(** An endpoint that can never be reached. *)
Definition unreachable (n : nat) (r : Request) : FetchOutcome :=
  Rejects fetchFailed.

(** An endpoint that refuses every request as unauthorized. *)
Definition unauthorized (n : nat) (r : Request) : FetchOutcome :=
  respond 401 "Invalid API Key".

(** Time spent in [delay], read off a log. *)
Definition waited (l : list Event) : Z :=
  fold_right Z.add 0 (waits l).

(** ** The debate endpoint: [POST /api/debate] *)

Definition RATE_LIMIT_WINDOW_MS : Z := 60000.
Definition MAX_DEBATES_PER_WINDOW : Z := 20.

Definition AGENT_PERSONALITIES_con : Personality :=
  {| agent_name := "Con Agent";
     role := "opponent";
     style := "You are a skilled debater arguing AGAINST the topic. Be critical, challenge assumptions, present counterarguments, and maintain a professional but firm tone. Always support the negative position." |}.

(** What the limiter remembers of a client. *)
Record ClientData : Type := mkClientData {
  count : Z;
  timestamp : Z
}.

(** [debateRateLimiter]: a [Map] from client address to its record, in
    insertion order. *)
Definition RateLimiter : Type := list (string * ClientData).

(** [map.set(key, value)]: an existing key keeps its place, a new one goes
    to the end. *)
Fixpoint Map_set (m : RateLimiter) (key : string) (value : ClientData)
    : RateLimiter :=
  match m with
  | [] => [(key, value)]
  | (k, v) :: rest =>
      if String.eqb key k then (k, value) :: rest
      else (k, v) :: Map_set rest key value
  end.

(** The loop that deletes the entries older than the window. *)
Definition cleanUp (now : Z) (limiter : RateLimiter) : RateLimiter :=
  filter (fun entry => negb (now - timestamp (snd entry) >? RATE_LIMIT_WINDOW_MS))
         limiter.

(** The rate-limit check and the update of the counter.  The flag tells
    whether the request goes on; a request turned away leaves the cleaned
    map as it is. *)
Definition rateLimit (limit : Z) (clientIp : string) (now : Z) (limiter : RateLimiter)
    : bool * RateLimiter :=
  let limiter := cleanUp now limiter in
  let clientData :=
    match Js.own limiter clientIp with
    | Some data => data
    | None => {| count := 0; timestamp := now |}
    end in
  if (count clientData >=? limit)
     && (now - timestamp clientData <? RATE_LIMIT_WINDOW_MS)
  then (false, limiter)
  else
    let clientData :=
      if now - timestamp clientData >? RATE_LIMIT_WINDOW_MS
      then {| count := 1; timestamp := now |}
      else {| count := count clientData + 1; timestamp := timestamp clientData |} in
    (true, Map_set limiter clientIp clientData).

(** The fields the handler reads off [req.body], for the bodies described
    here, which are those the page sends: [topic], [responseLength] and
    [model] are strings and [rounds] is an integer; [None] is a field that
    is missing.  A body with a field of another kind (a string, a fraction
    or an object for [rounds], a number for [topic]) is not described, and
    what is proved of the endpoint is proved of the bodies of this shape
    only. *)
Module Body.
Record t : Type := mk {
  topic : option string;
  rounds : option Z;
  responseLength : option string;
  model : option string
}.
End Body.

(** One entry of [debateRounds]: the number of the round and what the two
    completion calls returned, as they returned it.  [None] is
    [undefined], a member that [res.json] leaves out of the reply. *)
Record Round : Type := mkRound {
  round : Z;
  pro : option string;
  con : option string
}.

(** What the handler passes to [res.json]. *)
Inductive Payload : Type :=
| ErrorPayload (error : string) (details : option string)
| Transcript (topic : string) (rounds : list Round) (totalRounds : Z)
             (responseLength : string) (model : option string).

(** How a request to the endpoint ends: with a reply, or with the model
    running out of fuel. *)
Inductive Handled : Type :=
| Replied (statusCode : Z) (payload : Payload)
| Unfinished.

(** How the loop over the rounds ends. *)
Inductive Generated : Type :=
| Finished (debateRounds : list Round)
| Aborted (error : Js.Error)
| Starved.

Definition newline : string := String (ascii_of_nat 10) EmptyString.
Definition quote : string := String (ascii_of_nat 34) EmptyString.

(** What a template literal makes of a value that is a string or
    [undefined]. *)
Definition rendered (v : option string) : string :=
  match v with
  | Some s => s
  | None => "undefined"
  end.

(** [`Debate Topic: ${topic}\n\n`] *)
Definition initialContext (topic : string) : string :=
  ("Debate Topic: " ++ topic ++ newline ++ newline)%string.

Definition proPrompt (context : string) (i : Z) (topic : string) : string :=
  (context ++ "Round " ++ Js.number_to_string i
   ++ ": Present your argument in favor of: " ++ quote ++ topic ++ quote)%string.

Definition conPrompt (context : string) (i : Z) (proResponse topic : string)
    : string :=
  (context ++ "Round " ++ Js.number_to_string i
   ++ ": The Pro side just argued:" ++ newline ++ quote ++ proResponse ++ quote
   ++ newline ++ newline ++ "Now present your counter-argument against: "
   ++ quote ++ topic ++ quote)%string.

Definition nextContext (context : string) (i : Z) (proResponse conResponse : string)
    : string :=
  (context ++ "Round " ++ Js.number_to_string i ++ ":" ++ newline
   ++ "Pro: " ++ proResponse ++ newline
   ++ "Con: " ++ conResponse ++ newline ++ newline)%string.

Section DebateEndpoint.

(** What distinguishes the two servers: the limit, the name of the
    completion service in the key message, and the completion call. *)
Variable limit : Z.
Variable keyMissing : string.
Variable call : string -> Personality -> string -> option string -> World
                -> Completion * World.

(** [!topic.trim()]: does the topic consist of white space only? *)
Variable blank : string -> bool.

(** The API key of the environment. *)
Variable apiKey : option string.

(** The checks on the body and on the key, in the order of the code:
    the status and message of the first one that fails. *)
Definition validate (body : Body.t) : option (Z * string) :=
  if match Body.topic body with
     | Some topic => negb (Js.truthy topic) || blank topic
     | None => true
     end
  then Some (400, "Topic is required")
  else if match Body.rounds body with
          | Some rounds => (rounds =? 0) || (rounds <? 1) || (rounds >? 10)
          | None => true
          end
  then Some (400, "Rounds must be between 1 and 10")
  else if match Body.responseLength body with
          | Some responseLength =>
              negb (Js.truthy responseLength)
              || negb (Js.has_property responseLength RESPONSE_LENGTHS)
          | None => true
          end
  then Some (400, "Invalid response length")
  else if match apiKey with
          | Some key => negb (Js.truthy key)
          | None => true
          end
  then Some (500, keyMissing)
  else None.

(** [for (let i = 1; i <= rounds; i++) { ... }] *)
Fixpoint generateRounds (fuel : nat) (i rounds : Z) (topic responseLength : string)
    (model : option string) (context : string) (debateRounds : list Round)
    (w : World) : Generated * World :=
  match fuel with
  | O => (Starved, w)
  | S fuel' =>
    if i <=? rounds then
      match call (proPrompt context i topic) AGENT_PERSONALITIES_pro
                 responseLength model w with
      | (Throws error, w1) => (Aborted error, w1)
      | (OutOfFuel, w1) => (Starved, w1)
      | (Returns proResponse, w1) =>
        match call (conPrompt context i (rendered proResponse) topic)
                   AGENT_PERSONALITIES_con responseLength model w1 with
        | (Throws error, w2) => (Aborted error, w2)
        | (OutOfFuel, w2) => (Starved, w2)
        | (Returns conResponse, w2) =>
          generateRounds fuel' (i + 1) rounds topic responseLength model
            (nextContext context i (rendered proResponse) (rendered conResponse))
            (debateRounds
               ++ [ {| round := i; pro := proResponse; con := conResponse |} ])
            w2
        end
      end
    else (Finished debateRounds, w)
  end.

(** The handler of [POST /api/debate]. *)
Definition postDebate (clientIp : string) (now : Z) (body : Body.t)
    (limiter : RateLimiter) (w : World) : Handled * RateLimiter * World :=
  match rateLimit limit clientIp now limiter with
  | (false, limiter) =>
      (Replied 429 (ErrorPayload
         "Too many requests. Please wait a minute before starting another debate."
         None), limiter, w)
  | (true, limiter) =>
    match validate body with
    | Some (statusCode, error) =>
        (Replied statusCode (ErrorPayload error None), limiter, w)
    | None =>
      let topic := rendered (Body.topic body) in
      let rounds := match Body.rounds body with Some r => r | None => 0 end in
      let responseLength := rendered (Body.responseLength body) in
      match generateRounds (S (Z.to_nat rounds)) 1 rounds topic responseLength
              (Body.model body) (initialContext topic) [] w with
      | (Finished debateRounds, w') =>
          (Replied 200 (Transcript topic debateRounds rounds responseLength
                          (Body.model body)), limiter, w')
      | (Aborted error, w') =>
          (Replied 500 (ErrorPayload "Failed to generate debate"
                          (Some (Js.message error))), limiter, w')
      | (Starved, w') => (Unfinished, limiter, w')
      end
    end
  end.

End DebateEndpoint.

(** The endpoint of the Groq server. *)
Definition groqDebate (endpoint : nat -> Request -> FetchOutcome)
    (blank : string -> bool) (GROQ_API_KEY : option string) :=
  postDebate MAX_DEBATES_PER_WINDOW
    "Groq API key not configured. Please set GROQ_API_KEY in .env file."
    (fun prompt personality length model =>
       callGroq endpoint prompt personality length (startAlias model) [])
    blank GROQ_API_KEY.

(** Requests of one run of arrivals at the limiter: who asks, and when. *)
Fixpoint serve (limit : Z) (limiter : RateLimiter) (arrivals : list (string * Z))
    : list bool :=
  match arrivals with
  | [] => []
  | (clientIp, now) :: rest =>
      let (passed, limiter') := rateLimit limit clientIp now limiter in
      passed :: serve limit limiter' rest
  end.

(** How many of the arrivals of one client were let through. *)
Fixpoint passedOf (clientIp : string) (arrivals : list (string * Z))
    (decisions : list bool) : Z :=
  match arrivals, decisions with
  | (ip, _) :: arrivals', d :: decisions' =>
      (if String.eqb ip clientIp && d then 1 else 0)
      + passedOf clientIp arrivals' decisions'
  | _, _ => 0
  end.

(** Blank in the sense of [trim], for topics written in ASCII. *)
Definition asciiBlank (s : string) : bool :=
  forallb (fun c => Js.mem (String c EmptyString)
                      [ " "; String (ascii_of_nat 9) EmptyString;
                        String (ascii_of_nat 10) EmptyString;
                        String (ascii_of_nat 11) EmptyString;
                        String (ascii_of_nat 12) EmptyString;
                        String (ascii_of_nat 13) EmptyString ])
          (list_ascii_of_string s).

(** A body as the page sends it. *)
Definition sampleBody : Body.t :=
  {| Body.topic := Some "Tea is better than coffee";
     Body.rounds := Some 2;
     Body.responseLength := Some "short";
     Body.model := Some "llama33" |}.

(** An endpoint that answers the n-th call with its number. *)
Definition numbered (n : nat) (r : Request) : FetchOutcome :=
  answer ("Argument " ++ Js.number_to_string (Z.of_nat n))%string.

(** Debates the limiter has counted for a client. *)
Definition counted (limiter : RateLimiter) (clientIp : string) : Z :=
  match Js.own limiter clientIp with
  | Some data => count data
  | None => 0
  end.

(** The numbers [first], [first + 1], ... of [n] rounds in a row. *)
Definition roundNumbers (first : Z) (n : nat) : list Z :=
  map (fun k => first + Z.of_nat k) (seq 0 n).

(** A body whose length tier is the name of a member every object
    inherits. *)
Definition inheritedTierBody : Body.t :=
  {| Body.topic := Some "Tea is better than coffee";
     Body.rounds := Some 1;
     Body.responseLength := Some "constructor";
     Body.model := None |}.

(** A body without a topic. *)
Definition noTopicBody : Body.t :=
  {| Body.topic := None;
     Body.rounds := Some 3;
     Body.responseLength := Some "medium";
     Body.model := Some "mixtral" |}.

(** The rounds of a debate in which the call numbered [base + j] of the
    run returns [reply (base + j)]. *)
Definition answeredRounds (reply : nat -> option string) (first : Z) (base : nat)
    (n : nat)
    : list Round :=
  map (fun k => {| round := first + Z.of_nat k;
                   pro := reply (base + 2 * k)%nat;
                   con := reply (base + 2 * k + 1)%nat |})
      (seq 0 n).

(** A request of a debate on [topic]: the system message is the style of
    one of the two agents, and the user message starts with the header
    that names the topic. *)
Definition debateRequest (topic responseLength : string) (r : Request) : Prop :=
  exists personality rest,
    (personality = AGENT_PERSONALITIES_pro \/ personality = AGENT_PERSONALITIES_con)
    /\ messages r
       = [ {| msg_role := "system"; content := style personality |};
           {| msg_role := "user"; content := (initialContext topic ++ rest)%string |} ]
    /\ max_tokens r = maxTokens responseLength.

(** ** The OpenRouter server: [callOpenRouter] and its endpoint *)

Module OpenRouter.

Definition MAX_DEBATES_PER_WINDOW : Z := 5.

Definition FREE_MODELS : list (string * string) :=
  [ ("llama",   "meta-llama/llama-3-8b-instruct:free");
    ("gemma",   "google/gemma-7b-it:free");
    ("mistral", "mistralai/mistral-7b-instruct:free") ].

(** What [data.choices[0].message.content] evaluates to on a parsed body:
    a read of a property of [undefined] or [null] somewhere on the path
    throws a [TypeError] with the given message; otherwise the value of
    [content]: [Some s] when it is the string [s], [None] when the message
    has no [content] and the read gives [undefined].  Bodies whose
    [content] is of another kind ([null], a number, an object) are not
    among the responses described here. *)
Inductive Parsed : Type :=
| Broken (message : string)
| Content (content : option string).

Record Response : Type := mkResponse {
  status : Z;
  text : Read string;
  json : Read Parsed
}.

Definition ok (r : Response) : bool :=
  (200 <=? status r) && (status r <=? 299).

Inductive FetchOutcome : Type :=
| Resolves (r : Response)
| Rejects (e : Js.Error)
| Pending.

(** The error of a property read that fails. *)
Definition accessError (message : string) : Js.Error :=
  {| Js.name := "TypeError"; Js.code := None; Js.message := message |}.

Definition apiError (response : Response) (errorData : string) : Js.Error :=
  Js.new_Error ("OpenRouter API error: " ++ Js.number_to_string (status response)
                ++ " - " ++ errorData)%string.

(** [FREE_MODELS[model] || FREE_MODELS.llama] *)
Definition resolve (alias : string) : ModelId :=
  let default :=
    match Js.own FREE_MODELS "llama" with
    | Some id => Identifier id
    | None => Identifier ""
    end in
  match Js.get FREE_MODELS alias with
  | Js.Own id => if Js.truthy id then Identifier id else default
  | Js.Inherited member => PrototypeMember member
  | Js.Undefined => default
  end.

Definition buildRequest (prompt : string) (personality : Personality)
    (length : string) (alias : string) : Request :=
  {| model := resolve alias;
     messages := [ {| msg_role := "system"; content := style personality |};
                   {| msg_role := "user"; content := prompt |} ];
     max_tokens := maxTokens length;
     temperature := 7 # 10 |}.

Section Call.

Variable endpoint : nat -> Request -> FetchOutcome.

Definition fetchWithTimeout (req : Request) (w : World)
    : (Response + Js.Error) * World :=
  let w' := {| calls := S (calls w); log := log w ++ [Fetch req] |} in
  match endpoint (calls w) req with
  | Resolves response => (inl response, w')
  | Rejects e => (inr e, w')
  | Pending => (inr Js.AbortError, w')
  end.

(** The [try] block of [callOpenRouter]. *)
Definition tryBlock (prompt : string) (personality : Personality)
    (length : string) (model : string) (w : World) : Completion * World :=
  match fetchWithTimeout (buildRequest prompt personality length model) w with
  | (inr e, w1) => (Throws e, w1)
  | (inl response, w1) =>
    if negb (ok response) then
      match text response with
      | Failed e => (Throws e, w1)
      | Got errorData => (Throws (apiError response errorData), w1)
      end
    else
      match json response with
      | Failed e => (Throws e, w1)
      | Got (Broken message) => (Throws (accessError message), w1)
      | Got (Content content) => (Returns content, w1)
      end
  end.

(** [callOpenRouter], with a bound on the depth of the recursion. *)
Fixpoint callOpenRouterAt (depth : nat) (prompt : string)
    (personality : Personality) (length : string) (model : string)
    (retryCount : Z) (w : World) : Completion * World :=
  match depth with
  | O => (OutOfFuel, w)
  | S depth' =>
    match tryBlock prompt personality length model w with
    | (Throws error, w1) =>
      if isNetworkError error && (retryCount <? MAX_RETRIES) then
        let delayMs := INITIAL_RETRY_DELAY_MS * 2 ^ retryCount in
        callOpenRouterAt depth' prompt personality length model (retryCount + 1)
          (emit (Delay delayMs) w1)
      else (Throws error, w1)
    | (r, w1) => (r, w1)
    end
  end.

(** The call the debate endpoint makes: [retryCount] takes its default 0,
    and [model] its default ['llama'] when the body has none. *)
Definition callOpenRouter (prompt : string) (personality : Personality)
    (length : string) (model : option string) (w : World) : Completion * World :=
  callOpenRouterAt (S (Z.to_nat MAX_RETRIES)) prompt personality length
    (match model with Some m => m | None => "llama" end) 0 w.

End Call.

(** The endpoint of the OpenRouter server. *)
Definition debate (endpoint : nat -> Request -> FetchOutcome)
    (blank : string -> bool) (OPENROUTER_API_KEY : option string) :=
  postDebate MAX_DEBATES_PER_WINDOW
    "OpenRouter API key not configured. Please set OPENROUTER_API_KEY in .env file."
    (callOpenRouter endpoint) blank OPENROUTER_API_KEY.

(** The outcomes after which [callOpenRouter] tries again: a failed fetch
    or a failed read of the body with an error classified as a network
    error, and a success whose body has no [choices[0].message]. *)
Definition retried (o : FetchOutcome) : bool :=
  match o with
  | Rejects e => isNetworkError e
  | Pending => true
  | Resolves response =>
      if ok response then
        match json response with
        | Failed e => isNetworkError e
        | Got (Broken _) => true
        | Got (Content _) => false
        end
      else
        match text response with
        | Failed e => isNetworkError e
        | Got _ => false
        end
  end.

(** What one attempt ends with. *)
Definition settle (o : FetchOutcome) : Completion :=
  match o with
  | Rejects e => Throws e
  | Pending => Throws Js.AbortError
  | Resolves response =>
      if ok response then
        match json response with
        | Failed e => Throws e
        | Got (Broken message) => Throws (accessError message)
        | Got (Content content) => Returns content
        end
      else
        match text response with
        | Failed e => Throws e
        | Got errorData => Throws (apiError response errorData)
        end
  end.

(** A 200 response whose body is [{}]. *)
Definition noChoices (n : nat) (r : Request) : FetchOutcome :=
  Resolves {| status := 200; text := Got "{}";
              json := Got (Broken "Cannot read properties of undefined (reading '0')") |}.

(** A 200 response whose message has no content. *)
Definition noContent (n : nat) (r : Request) : FetchOutcome :=
  Resolves {| status := 200; text := Got "{}"; json := Got (Content None) |}.

(** An endpoint that rate-limits every request. *)
Definition rateLimited (n : nat) (r : Request) : FetchOutcome :=
  Resolves {| status := 429; text := Got "Rate limit exceeded";
              json := Got (Broken "") |}.

End OpenRouter.

(** * Properties *)

(** ** The registry *)

Lemma mem_In (x : string) (l : list string) : Js.mem x l = true <-> In x l.
Proof.
  unfold Js.mem. rewrite existsb_exists. split.
  - intros [y [Hy E]]. apply String.eqb_eq in E. now subst.
  - intros H. exists x. split; [assumption | apply String.eqb_refl].
Qed.

Lemma mem_false_In (x : string) (l : list string) :
  Js.mem x l = false <-> ~ In x l.
Proof.
  rewrite <- mem_In. destruct (Js.mem x l); split; intros; easy.
Qed.

Lemma Set_has_add (s : Js.StringSet) (x y : string) :
  Js.Set_has (Js.Set_add s x) y = Js.Set_has s y || String.eqb y x.
Proof.
  unfold Js.Set_add, Js.Set_has.
  destruct (Js.mem x s) eqn:E.
  - destruct (String.eqb_spec y x) as [->|_].
    + rewrite E. reflexivity.
    + now rewrite orb_false_r.
  - unfold Js.mem. rewrite existsb_app. simpl. now rewrite orb_false_r.
Qed.

Lemma Set_has_new (l : list string) (y : string) :
  Js.Set_has (Js.new_Set l) y = Js.mem y l.
Proof.
  unfold Js.new_Set.
  assert (G : forall acc, Js.Set_has (fold_left Js.Set_add l acc) y
                          = Js.Set_has acc y || Js.mem y l).
  { induction l as [|a l IH]; intros acc; simpl.
    - now rewrite orb_false_r.
    - rewrite IH, Set_has_add. now rewrite orb_assoc. }
  now rewrite G.
Qed.

Lemma own_keys {A : Type} (obj : list (string * A)) (key : string) :
  In key (Js.keys obj) <-> exists v, Js.own obj key = Some v.
Proof.
  induction obj as [|[k v] rest IH]; simpl.
  - split; [easy | now intros [v H]].
  - destruct (String.eqb_spec key k) as [->|N].
    + split; [intros _; now exists v | now left].
    + rewrite <- IH. split; [intros [E|H]; [now subst|assumption] | now right].
Qed.

(** [resolve] on the keys of the table. *)
Lemma resolve_own (alias id : string) :
  Js.own FREE_MODELS alias = Some id -> resolve alias = Identifier id.
Proof.
  intros H. unfold resolve, Js.get. rewrite H.
  simpl in H.
  repeat match type of H with
         | (if ?c then _ else _) = _ => destruct c
         end; inversion H; reflexivity.
Qed.

(** [resolve] on an alias that names no property at all, own or inherited. *)
Lemma resolve_absent (alias : string) :
  Js.has_property alias FREE_MODELS = false ->
  resolve alias = Identifier "llama-3.3-70b-versatile".
Proof.
  unfold Js.has_property, resolve. destruct (Js.get FREE_MODELS alias); easy.
Qed.

(** C7, at the alias ["toString"]: it is not a key of the table, and the
    lookup returns the member inherited from [Object.prototype] instead of
    the default identifier. *)
Theorem resolve_inherited_member :
  ~ In "toString" (Js.keys FREE_MODELS)
  /\ resolve "toString" = PrototypeMember "toString"
  /\ resolve "toString" <> resolve "llama33".
Proof.
  split; [|split].
  - apply mem_false_In. reflexivity.
  - reflexivity.
  - discriminate.
Qed.

(** C8: the fallback candidate is the first alias of the fallback order
    that is not in the tried set, and there is none exactly when the tried
    set holds every alias of the order. *)
Theorem fallbackCandidate_first_untried (tried : Js.StringSet) :
  MODEL_FALLBACK_ORDER
    = ["llama33"; "llama32"; "llama3"; "mixtral"; "llama31"; "gemma2"]
  /\ match fallbackCandidate tried with
     | Some alias =>
         exists before after,
           MODEL_FALLBACK_ORDER = before ++ alias :: after
           /\ Js.Set_has tried alias = false
           /\ Forall (fun m => Js.Set_has tried m = true) before
     | None => Forall (fun m => Js.Set_has tried m = true) MODEL_FALLBACK_ORDER
     end
  /\ (fallbackCandidate tried = None
      <-> Forall (fun m => Js.Set_has tried m = true) MODEL_FALLBACK_ORDER).
Proof.
  split; [reflexivity|].
  unfold fallbackCandidate.
  generalize MODEL_FALLBACK_ORDER as order.
  assert (G : forall order,
    match find (fun m => negb (Js.Set_has tried m)) order with
    | Some alias =>
        exists before after,
          order = before ++ alias :: after
          /\ Js.Set_has tried alias = false
          /\ Forall (fun m => Js.Set_has tried m = true) before
    | None => Forall (fun m => Js.Set_has tried m = true) order
    end).
  { induction order as [|m order IH]; simpl.
    - constructor.
    - destruct (Js.Set_has tried m) eqn:E; simpl.
      + destruct (find _ order) as [alias|].
        * destruct IH as (before & after & -> & Hn & Hb).
          exists (m :: before), after. repeat split; auto.
        * constructor; assumption.
      + exists [], order. repeat split; auto. }
  intros order. split; [apply G|].
  specialize (G order).
  destruct (find _ order) as [alias|].
  - split; [discriminate|].
    intros HF. destruct G as (before & after & -> & Hn & _).
    rewrite Forall_forall in HF.
    rewrite HF in Hn; [discriminate | apply in_elt].
  - split; auto.
Qed.

(** ** One iteration of the retry loop *)

Section Steps.

Variable endpoint : nat -> Request -> FetchOutcome.
Variable self : string -> list string -> World -> Completion * World.
Variables (prompt : string) (personality : Personality) (length : string).
Variable model : string.

Local Abbreviation req := (buildRequest prompt personality length model).
Local Abbreviation tryBlock' := (tryBlock endpoint self prompt personality length model).
Local Abbreviation retryLoop' := (retryLoop endpoint self prompt personality length model).

Lemma retryLoop_S (fuel : nat) (attempt : Z) (set : Js.StringSet) (w : World) :
  attempt <= MAX_RETRIES ->
  retryLoop' (S fuel) attempt set w
  = match tryBlock' set w with
    | (r, set', w1) =>
        if retries attempt r
        then retryLoop' fuel (attempt + 1) set'
               (delay (INITIAL_RETRY_DELAY_MS * 2 ^ attempt) w1)
        else (r, w1)
    end.
Proof.
  intros H. simpl.
  apply Z.leb_le in H. rewrite H.
  destruct (tryBlock _ _ _ _ _ _ _ _) as [[r set'] w1].
  destruct r; reflexivity.
Qed.

Lemma tryBlock_fetch_failed (set : Js.StringSet) (w : World) (e : Js.Error) :
  fetchError (endpoint (calls w) req) = Some e ->
  tryBlock' set w = (Throws e, set, sent req w).
Proof.
  intros H. unfold tryBlock, fetchWithTimeout.
  destruct (endpoint _ _); simpl in H; inversion H; reflexivity.
Qed.

Lemma tryBlock_generated (set : Js.StringSet) (w : World) (t : string) :
  generatedText (endpoint (calls w) req) = Some t ->
  tryBlock' set w = (Returns (Some t), set, sent req w).
Proof.
  intros H. unfold tryBlock, fetchWithTimeout.
  destruct (endpoint _ _) as [response| |]; simpl in H; try discriminate.
  destruct (ok response); simpl; try discriminate.
  destruct (json response) as [[generated|]|]; try discriminate.
  destruct (Js.truthy generated); inversion H; reflexivity.
Qed.

Lemma tryBlock_malformed (set : Js.StringSet) (w : World) :
  malformed (endpoint (calls w) req) = true ->
  tryBlock' set w = (Throws missingContent, set, sent req w).
Proof.
  intros H. unfold tryBlock, fetchWithTimeout.
  destruct (endpoint _ _) as [response| |]; simpl in H; try discriminate.
  destruct (ok response); simpl; try discriminate.
  destruct (json response) as [[generated|]|]; try discriminate; try reflexivity.
  destruct (Js.truthy generated); try discriminate; reflexivity.
Qed.

(** A rejection that does not pass the fallback test is thrown as is. *)
Lemma tryBlock_rejected (set : Js.StringSet) (w : World)
    (response : Response) (errorData : string) :
  rejection (endpoint (calls w) req) = Some (response, errorData) ->
  fallbackStatus response && Js.has_property model FREE_MODELS
    && negb (Js.Set_has set model) = false ->
  tryBlock' set w = (Throws (apiError response errorData), set, sent req w).
Proof.
  intros H G. unfold tryBlock, fetchWithTimeout.
  destruct (endpoint _ _) as [r| |]; simpl in H; try discriminate.
  destruct (ok r); simpl; try discriminate.
  destruct (text r); inversion H; subst.
  rewrite G. reflexivity.
Qed.

(** A rejection that passes the test hands over to the fallback model,
    or is thrown when no candidate is left. *)
Lemma tryBlock_fallback (set : Js.StringSet) (w : World)
    (response : Response) (errorData : string) :
  rejection (endpoint (calls w) req) = Some (response, errorData) ->
  fallbackStatus response && Js.has_property model FREE_MODELS
    && negb (Js.Set_has set model) = true ->
  tryBlock' set w
  = match fallbackCandidate (Js.Set_add set model) with
    | Some fallbackModel =>
        let (r, w2) := self fallbackModel (Js.Set_add set model) (sent req w) in
        (r, Js.Set_add set model, w2)
    | None => (Throws (apiError response errorData), Js.Set_add set model,
               sent req w)
    end.
Proof.
  intros H G. unfold tryBlock, fetchWithTimeout.
  destruct (endpoint _ _) as [r| |]; simpl in H; try discriminate.
  destruct (ok r); simpl; try discriminate.
  destruct (text r); inversion H; subst.
  rewrite G. reflexivity.
Qed.

End Steps.

(** ** One invocation of [callGroq] *)

Section Frames.

Variable endpoint : nat -> Request -> FetchOutcome.
Variables (prompt : string) (personality : Personality) (length : string).

Local Abbreviation req := (buildRequest prompt personality length).
Local Abbreviation frame depth := (callGroqAt endpoint depth prompt personality length).
Local Abbreviation loop depth :=
  (retryLoop endpoint (frame depth) prompt personality length).

Lemma callGroqAt_S (depth : nat) (model : string) (tried : list string) (w : World) :
  frame (S depth) model tried w
  = loop depth model loopFuel 0 (Js.new_Set tried) (emit (Invoke model tried) w).
Proof. reflexivity. Qed.

Lemma transportFailure_error (o : FetchOutcome) :
  transportFailure o = true ->
  exists e, fetchError o = Some e /\ isNetworkError e = true.
Proof.
  unfold transportFailure. destruct (fetchError o) as [e|]; [|discriminate].
  intros H. now exists e.
Qed.

Lemma retryLoop_backoff (depth : nat) (model : string) (t : string) (k : nat) :
  forall (fuel : nat) (attempt : Z) (set : Js.StringSet) (w : World),
    0 <= attempt ->
    attempt + Z.of_nat k <= MAX_RETRIES ->
    (k < fuel)%nat ->
    (forall i, (i < k)%nat ->
       transportFailure (endpoint (calls w + i) (req model)) = true) ->
    generatedText (endpoint (calls w + k) (req model)) = Some t ->
    loop depth model fuel attempt set w
    = (Returns (Some t),
       {| calls := calls w + S k;
          log := log w ++ backoffLog (req model) attempt k |}).
Proof.
  induction k as [|k IH]; intros fuel attempt set w H0 Hmax Hfuel Hfail Hok.
  - destruct fuel as [|fuel]; [lia|].
    rewrite retryLoop_S by lia.
    rewrite Nat.add_0_r in Hok.
    rewrite (tryBlock_generated _ _ _ _ _ _ _ _ _ Hok). simpl.
    unfold sent. now rewrite Nat.add_1_r.
  - destruct fuel as [|fuel]; [lia|].
    rewrite retryLoop_S by lia.
    destruct (transportFailure_error _ (Hfail 0%nat ltac:(lia))) as (e & He & Hn).
    rewrite Nat.add_0_r in He.
    rewrite (tryBlock_fetch_failed _ _ _ _ _ _ _ _ _ He).
    unfold retries. rewrite Hn.
    replace (attempt =? MAX_RETRIES) with false by (symmetry; apply Z.eqb_neq; lia).
    simpl andb. cbv iota.
    rewrite IH; try lia.
    + simpl calls. simpl log. f_equal. f_equal; [lia|].
      rewrite <- !app_assoc. reflexivity.
    + intros i Hi. simpl calls.
      replace (S (calls w) + i)%nat with (calls w + S i)%nat by lia.
      apply Hfail. lia.
    + simpl calls.
      replace (S (calls w) + k)%nat with (calls w + S k)%nat by lia.
      exact Hok.
Qed.

(** An invocation whose first request is answered with generated text. *)
Lemma frame_generated (depth : nat) (model : string) (tried : list string)
    (w : World) (t : string) :
  generatedText (endpoint (calls w) (req model)) = Some t ->
  frame (S depth) model tried w
  = (Returns (Some t), sent (req model) (emit (Invoke model tried) w)).
Proof.
  intros H. rewrite callGroqAt_S. unfold loopFuel.
  rewrite retryLoop_S by (unfold MAX_RETRIES; lia).
  now rewrite (tryBlock_generated _ _ _ _ _ _ _ (emit _ w) _ H).
Qed.

(** An invocation whose first request is rejected and handed over to a
    fallback model, which then ends without asking for a retry. *)
Lemma frame_fallback (depth : nat) (model : string) (tried : list string)
    (w : World) (response : Response) (errorData fallbackModel : string)
    (r : Completion) (w2 : World) :
  rejection (endpoint (calls w) (req model)) = Some (response, errorData) ->
  fallbackStatus response = true ->
  Js.has_property model FREE_MODELS = true ->
  Js.mem model tried = false ->
  fallbackCandidate (Js.Set_add (Js.new_Set tried) model) = Some fallbackModel ->
  frame depth fallbackModel (Js.Set_add (Js.new_Set tried) model)
        (sent (req model) (emit (Invoke model tried) w)) = (r, w2) ->
  retries 0 r = false ->
  frame (S depth) model tried w = (r, w2).
Proof.
  intros Hrej Hst Hin Hnew Hfb Hrec Hend.
  rewrite callGroqAt_S. unfold loopFuel.
  rewrite retryLoop_S by (unfold MAX_RETRIES; lia).
  rewrite (tryBlock_fallback _ _ _ _ _ _ _ (emit _ w) _ _ Hrej)
    by (rewrite Hst, Hin, Set_has_new, Hnew; reflexivity).
  rewrite Hfb. unfold Js.Array_from. rewrite Hrec, Hend. reflexivity.
Qed.

(** An invocation whose first request is rejected when no fallback
    candidate is left. *)
Lemma frame_exhausted (depth : nat) (model : string) (tried : list string)
    (w : World) (response : Response) (errorData : string) :
  rejection (endpoint (calls w) (req model)) = Some (response, errorData) ->
  fallbackStatus response = true ->
  Js.has_property model FREE_MODELS = true ->
  Js.mem model tried = false ->
  fallbackCandidate (Js.Set_add (Js.new_Set tried) model) = None ->
  frame (S depth) model tried w
  = (Throws (apiError response errorData),
     sent (req model) (emit (Invoke model tried) w)).
Proof.
  intros Hrej Hst Hin Hnew Hfb.
  rewrite callGroqAt_S. unfold loopFuel.
  rewrite retryLoop_S by (unfold MAX_RETRIES; lia).
  rewrite (tryBlock_fallback _ _ _ _ _ _ _ (emit _ w) _ _ Hrej)
    by (rewrite Hst, Hin, Set_has_new, Hnew; reflexivity).
  rewrite Hfb. reflexivity.
Qed.

(** An invocation whose first request is rejected without passing the
    fallback test. *)
Lemma frame_rejected (depth : nat) (model : string) (tried : list string)
    (w : World) (response : Response) (errorData : string) :
  rejection (endpoint (calls w) (req model)) = Some (response, errorData) ->
  fallbackStatus response && Js.has_property model FREE_MODELS
    && negb (Js.mem model tried) = false ->
  frame (S depth) model tried w
  = (Throws (apiError response errorData),
     sent (req model) (emit (Invoke model tried) w)).
Proof.
  intros Hrej Hg.
  rewrite callGroqAt_S. unfold loopFuel.
  rewrite retryLoop_S by (unfold MAX_RETRIES; lia).
  rewrite (tryBlock_rejected _ _ _ _ _ _ _ (emit _ w) _ _ Hrej)
    by (rewrite Set_has_new; exact Hg).
  reflexivity.
Qed.

(** An invocation whose first request is answered by a malformed success. *)
Lemma frame_malformed (depth : nat) (model : string) (tried : list string)
    (w : World) :
  malformed (endpoint (calls w) (req model)) = true ->
  frame (S depth) model tried w
  = (Throws missingContent, sent (req model) (emit (Invoke model tried) w)).
Proof.
  intros H. rewrite callGroqAt_S. unfold loopFuel.
  rewrite retryLoop_S by (unfold MAX_RETRIES; lia).
  now rewrite (tryBlock_malformed _ _ _ _ _ _ _ (emit _ w) H).
Qed.

End Frames.

(** ** Retry with backoff *)

Lemma backoffLog_waits (r : Request) (k : nat) (attempt : nat) :
  waits (backoffLog r (Z.of_nat attempt) k)
  = map (fun j => INITIAL_RETRY_DELAY_MS * 2 ^ Z.of_nat j) (seq attempt k).
Proof.
  revert attempt. induction k as [|k IH]; intros attempt; simpl; [reflexivity|].
  f_equal. rewrite <- IH. do 2 f_equal. lia.
Qed.

Lemma backoffLog_requests (r : Request) (k : nat) (attempt : Z) :
  requests (backoffLog r attempt k) = repeat r (S k).
Proof.
  revert attempt. induction k as [|k IH]; intros attempt; simpl; [reflexivity|].
  f_equal. apply IH.
Qed.

(** C3: up to three transport-level failures in a row, then a success.
    The call returns the generated text; every request goes to the model
    the call started with; the wait before the j-th retry is
    [INITIAL_RETRY_DELAY_MS * 2^(j-1)] with an initial delay of 1000 ms, so
    at most 1000 + 2000 + 4000 ms are spent waiting. *)
Theorem backoff_then_success
    (endpoint : nat -> Request -> FetchOutcome)
    (prompt : string) (personality : Personality) (length : string)
    (model : option string) (k : nat) (generated : string) :
  (k <= 3)%nat ->
  (forall i r, (i < k)%nat -> transportFailure (endpoint i r) = true) ->
  (forall r, generatedText (endpoint k r) = Some generated) ->
  let r := buildRequest prompt personality length (startAlias model) in
  let trace := backoffLog r 0 k in
  complete endpoint prompt personality length model
  = (Returns (Some generated),
     {| calls := S k; log := Invoke (startAlias model) [] :: trace |})
  /\ requests trace = repeat r (S k)
  /\ waits trace = map (fun j => INITIAL_RETRY_DELAY_MS * 2 ^ Z.of_nat j) (seq 0 k)
  /\ INITIAL_RETRY_DELAY_MS = 1000
  /\ fold_right Z.add 0 (waits trace) <= 1000 + 2000 + 4000.
Proof.
  intros Hk Hfail Hok r trace. subst trace.
  split; [|split; [|split; [|split]]].
  - unfold complete, callGroq, maxDepth. simpl Datatypes.length.
    rewrite callGroqAt_S.
    rewrite (retryLoop_backoff endpoint prompt personality length _ _ generated k).
    + reflexivity.
    + lia.
    + unfold MAX_RETRIES. lia.
    + unfold loopFuel, MAX_RETRIES. simpl. lia.
    + intros i Hi. simpl. now apply Hfail.
    + simpl. apply Hok.
  - apply backoffLog_requests.
  - apply (backoffLog_waits r k 0).
  - reflexivity.
  - change 0 with (Z.of_nat 0). rewrite (backoffLog_waits r k 0).
    destruct k as [|[|[|[|k]]]]; simpl; unfold INITIAL_RETRY_DELAY_MS; lia.
Qed.

Lemma backoff_then_success_witness :
  fst (complete unreachableTwice "Debate Topic: tea" AGENT_PERSONALITIES_pro
         "short" (Some "mixtral"))
  = Returns (Some "I argue in favour.").
Proof.
  refine (f_equal fst
    (proj1 (backoff_then_success unreachableTwice "Debate Topic: tea"
              AGENT_PERSONALITIES_pro "short" (Some "mixtral") 2
              "I argue in favour." _ _ _))).
  - lia.
  - intros i r Hi. destruct i as [|[|i]]; [reflexivity | reflexivity | lia].
  - intros r. reflexivity.
Defined.

(** ** Fallback *)

(** C2: llama33 and llama32 answer 503 and llama3 answers with generated
    text.  Started on llama33, the call returns llama3's text after
    exactly three requests, one to each of the three models, in the
    fallback order. *)
Theorem fallback_to_third_model
    (endpoint : nat -> Request -> FetchOutcome)
    (prompt : string) (personality : Personality) (length : string)
    (generated : string) :
  (forall n r, model r = resolve "llama33" ->
     exists response errorData,
       rejection (endpoint n r) = Some (response, errorData)
       /\ status response = 503) ->
  (forall n r, model r = resolve "llama32" ->
     exists response errorData,
       rejection (endpoint n r) = Some (response, errorData)
       /\ status response = 503) ->
  (forall n r, model r = resolve "llama3" ->
     generatedText (endpoint n r) = Some generated) ->
  MODEL_FALLBACK_ORDER
    = ["llama33"; "llama32"; "llama3"; "mixtral"; "llama31"; "gemma2"]
  /\ exists w,
       complete endpoint prompt personality length (Some "llama33")
       = (Returns (Some generated), w)
       /\ calls w = 3%nat
       /\ requests (log w)
          = map (buildRequest prompt personality length)
                ["llama33"; "llama32"; "llama3"]
       /\ invocations (log w) = ["llama33"; "llama32"; "llama3"]
       /\ waits (log w) = [].
Proof.
  intros H33 H32 H3. split; [reflexivity|].
  destruct (H33 0%nat (buildRequest prompt personality length "llama33") eq_refl)
    as (r0 & b0 & E0 & S0).
  destruct (H32 1%nat (buildRequest prompt personality length "llama32") eq_refl)
    as (r1 & b1 & E1 & S1).
  pose proof (H3 2%nat (buildRequest prompt personality length "llama3") eq_refl)
    as E2.
  eexists. split.
  - unfold complete, callGroq, maxDepth. simpl Datatypes.length. simpl startAlias.
    eapply frame_fallback; [exact E0 | | reflexivity | reflexivity | reflexivity | | reflexivity].
    { unfold fallbackStatus. rewrite S0. reflexivity. }
    eapply frame_fallback; [exact E1 | | reflexivity | reflexivity | reflexivity | | reflexivity].
    { unfold fallbackStatus. rewrite S1. reflexivity. }
    apply frame_generated. exact E2.
  - repeat split; reflexivity.
Qed.

Lemma fallback_to_third_model_witness :
  exists w,
    complete twoOverloaded "Debate Topic: tea" AGENT_PERSONALITIES_pro "medium"
             (Some "llama33")
    = (Returns (Some "I argue in favour."), w)
    /\ calls w = 3%nat.
Proof.
  destruct (fallback_to_third_model twoOverloaded "Debate Topic: tea"
              AGENT_PERSONALITIES_pro "medium" "I argue in favour.")
    as (_ & w & E & C & _).
  - intros n r H. exists {| status := 503; text := Got "llama33 over capacity";
                            json := Got None |}, "llama33 over capacity".
    unfold twoOverloaded, asksFor. rewrite H. split; reflexivity.
  - intros n r H. exists {| status := 503; text := Got "llama32 over capacity";
                            json := Got None |}, "llama32 over capacity".
    unfold twoOverloaded, asksFor. rewrite H. split; reflexivity.
  - intros n r H. unfold twoOverloaded, asksFor. rewrite H. reflexivity.
  - exists w. split; assumption.
Defined.

(** ** The two ways out of the [try] block *)

Section Cases.

Variable endpoint : nat -> Request -> FetchOutcome.
Variable self : string -> list string -> World -> Completion * World.
Variables (prompt : string) (personality : Personality) (length : string).
Variable model : string.

Local Abbreviation req := (buildRequest prompt personality length model).

(** Either the block settles on its own, or it is the first rejection this
    invocation hands over, and then the block ends the way the fallback
    invocation ends. *)
Lemma tryBlock_cases (set : Js.StringSet) (w : World) :
  let o := endpoint (calls w) req in
  let w1 := sent req w in
  (exists set', tryBlock endpoint self prompt personality length model set w
                = (settle o, set', w1)
                /\ (set' = set \/ set' = Js.Set_add set model))
  \/ (Js.Set_has set model = false
      /\ Js.has_property model FREE_MODELS = true
      /\ (exists response errorData,
            rejection o = Some (response, errorData)
            /\ fallbackStatus response = true)
      /\ exists fallbackModel,
           fallbackCandidate (Js.Set_add set model) = Some fallbackModel
           /\ tryBlock endpoint self prompt personality length model set w
              = (fst (self fallbackModel (Js.Set_add set model) w1),
                 Js.Set_add set model,
                 snd (self fallbackModel (Js.Set_add set model) w1))).
Proof.
  intros o w1. subst o w1. unfold tryBlock, fetchWithTimeout, settle, sent, rejection.
  destruct (endpoint (calls w) req) as [response| |].
  - destruct (ok response); simpl.
    + left. exists set. split; [|now left].
      destruct (json response) as [[generated|]|]; try reflexivity.
      destruct (Js.truthy generated); reflexivity.
    + destruct (text response) as [errorData|e].
      * destruct (fallbackStatus response) eqn:Hst; simpl;
          [|left; exists set; split; [reflexivity | now left]].
        destruct (Js.has_property model FREE_MODELS); simpl;
          [|left; exists set; split; [reflexivity | now left]].
        destruct (Js.Set_has set model) eqn:Hhas; simpl;
          [left; exists set; split; [reflexivity | now left]|].
        destruct (fallbackCandidate (Js.Set_add set model)) as [fallbackModel|] eqn:Hfb.
        -- right. split; [reflexivity|]. split; [reflexivity|].
           split; [now exists response, errorData|].
           exists fallbackModel. split; [reflexivity|].
           unfold Js.Array_from.
           destruct (self fallbackModel (Js.Set_add set model) _). reflexivity.
        -- left. exists (Js.Set_add set model). split; [reflexivity | now right].
      * left. exists set. split; [reflexivity | now left].
  - left. exists set. split; [reflexivity | now left].
  - left. exists set. split; [reflexivity | now left].
Qed.

Lemma settle_total (o : FetchOutcome) : settle o <> OutOfFuel.
Proof.
  unfold settle. destruct o as [response| |]; try discriminate.
  destruct (ok response).
  - destruct (json response) as [[generated|]|]; try discriminate.
    destruct (Js.truthy generated); discriminate.
  - destruct (text response); discriminate.
Qed.

Lemma settle_malformed (o : FetchOutcome) :
  malformed o = true -> settle o = Throws missingContent.
Proof.
  unfold settle, malformed. destruct o as [response| |]; try discriminate.
  destruct (ok response); simpl; try discriminate.
  destruct (json response) as [[generated|]|]; try discriminate; try reflexivity.
  destruct (Js.truthy generated); try discriminate; reflexivity.
Qed.

End Cases.

(** ** Induction over a run *)

Section RunInduction.

Variable endpoint : nat -> Request -> FetchOutcome.
Variables (prompt : string) (personality : Personality) (length : string).

Local Abbreviation req := (buildRequest prompt personality length).

(** A relation between the state in which a piece of the run starts, the
    way it ends and the state it ends in. *)
Variable Q : World -> Completion -> World -> Prop.

Hypothesis Q_idle : forall w r,
  r = OutOfFuel \/ r = Returns None -> Q w r w.
Hypothesis Q_fetch : forall model w,
  Q w (settle (endpoint (calls w) (req model))) (sent (req model) w).
Hypothesis Q_fallback : forall model w r w',
  rejection (endpoint (calls w) (req model)) <> None ->
  Q (sent (req model) w) r w' -> Q w r w'.
Hypothesis Q_invoke : forall model tried w r w',
  Q (emit (Invoke model tried) w) r w' -> Q w r w'.
Hypothesis Q_retry : forall w e w1 ms r w2,
  Q w (Throws e) w1 -> isNetworkError e = true ->
  Q (delay ms w1) r w2 -> Q w r w2.

Lemma retryLoop_run
    (self : string -> list string -> World -> Completion * World)
    (model : string) :
  (forall m t w, Q w (fst (self m t w)) (snd (self m t w))) ->
  forall fuel attempt set w,
    Q w (fst (retryLoop endpoint self prompt personality length model
                fuel attempt set w))
        (snd (retryLoop endpoint self prompt personality length model
                fuel attempt set w)).
Proof.
  intros Hself. induction fuel as [|fuel IH]; intros attempt set w.
  - simpl. apply Q_idle. now left.
  - destruct (Z.leb_spec attempt MAX_RETRIES) as [Hle|Hgt].
    + rewrite retryLoop_S by assumption.
      assert (Htry : forall r set' w1,
        tryBlock endpoint self prompt personality length model set w
        = (r, set', w1) -> Q w r w1).
      { intros r set' w1 E.
        destruct (tryBlock_cases endpoint self prompt personality length
                    model set w)
          as [(s & E' & _) | (_ & _ & (resp & body & Hrej & _) & fb & _ & E')];
          rewrite E' in E; inversion E; subst.
        - apply Q_fetch.
        - apply (Q_fallback model); [congruence | apply Hself]. }
      destruct (tryBlock _ _ _ _ _ _ set w) as [[r set'] w1] eqn:E.
      specialize (Htry r set' w1 eq_refl).
      destruct (retries attempt r) eqn:Hr; [|exact Htry].
      destruct r as [v|e|]; simpl in Hr; try discriminate.
      apply andb_prop in Hr. destruct Hr as [Hnet _].
      eapply Q_retry; [exact Htry | exact Hnet | apply IH].
    + simpl. apply Z.leb_gt in Hgt. rewrite Hgt. apply Q_idle. now right.
Qed.

Theorem callGroqAt_run (depth : nat) :
  forall model tried w,
    Q w (fst (callGroqAt endpoint depth prompt personality length model tried w))
        (snd (callGroqAt endpoint depth prompt personality length model tried w)).
Proof.
  induction depth as [|depth IH]; intros model tried w.
  - simpl. apply Q_idle. now left.
  - rewrite callGroqAt_S. apply (Q_invoke model tried).
    apply retryLoop_run. exact IH.
Qed.

End RunInduction.

(** ** What every request looks like *)

Lemma requests_app (l1 l2 : list Event) :
  requests (l1 ++ l2) = requests l1 ++ requests l2.
Proof. apply flat_map_app. Qed.

Lemma maxTokens_budget (length : string) :
  maxTokens length = match Js.own RESPONSE_LENGTHS length with
                     | Some cfg => tokens cfg
                     | None => 300
                     end.
Proof.
  unfold maxTokens, Js.get.
  destruct (Js.own RESPONSE_LENGTHS length) as [cfg|] eqn:E.
  - simpl in E.
    repeat match type of E with
           | (if ?c then _ else _) = _ => destruct c
           end; inversion E; reflexivity.
  - destruct (Js.mem length Js.Object_prototype); reflexivity.
Qed.

Lemma buildRequest_wellFormed (prompt : string) (personality : Personality)
    (length model : string) :
  wellFormed prompt personality length
             (buildRequest prompt personality length model).
Proof.
  unfold wellFormed, buildRequest. simpl.
  repeat split. apply maxTokens_budget.
Qed.

Lemma run_extends
    (endpoint : nat -> Request -> FetchOutcome)
    (prompt : string) (personality : Personality) (length : string)
    (depth : nat) (model : string) (tried : list string) (w : World) :
  let w' := snd (callGroqAt endpoint depth prompt personality length model tried w) in
  exists l, log w' = log w ++ l
            /\ Forall (wellFormed prompt personality length) (requests l)
            /\ calls w' = (calls w + List.length (requests l))%nat.
Proof.
  apply (callGroqAt_run endpoint prompt personality length
           (fun w _ w' =>
              exists l, log w' = log w ++ l
                /\ Forall (wellFormed prompt personality length) (requests l)
                /\ calls w' = (calls w + List.length (requests l))%nat)).
  - intros w0 r _. exists []. rewrite app_nil_r. simpl. repeat split; auto.
  - intros m w0. exists [Fetch (buildRequest prompt personality length m)].
    simpl. repeat split; [| lia].
    constructor; [apply buildRequest_wellFormed | constructor].
  - intros m w0 r w' _ (l & El & Hl & Hc).
    exists (Fetch (buildRequest prompt personality length m) :: l).
    simpl in *. rewrite El, <- app_assoc. simpl. repeat split; [| lia].
    constructor; [apply buildRequest_wellFormed | assumption].
  - intros m t w0 r w' (l & El & Hl & Hc).
    exists (Invoke m t :: l). simpl in *. rewrite El, <- app_assoc.
    repeat split; assumption.
  - intros w0 e w1 ms r w2 (l1 & E1 & H1 & C1) _ (l2 & E2 & H2 & C2).
    exists (l1 ++ Delay ms :: l2). simpl in *.
    rewrite E2, E1, <- !app_assoc. simpl.
    rewrite requests_app. simpl. rewrite length_app.
    repeat split; [apply Forall_app; split; assumption | lia].
Qed.

(** C9: every request of a call carries exactly the system message with
    the persona's style instruction followed by the user message with the
    prompt, the temperature 0.7, and as [max_tokens] the token budget of
    the length tier, or 300 when the tier is not one of the table; and the
    requests in the log are all the outbound calls there are. *)
Theorem every_request_wellFormed
    (endpoint : nat -> Request -> FetchOutcome)
    (prompt : string) (personality : Personality) (length : string)
    (model : option string) :
  let w := snd (complete endpoint prompt personality length model) in
  Forall (wellFormed prompt personality length) (requests (log w))
  /\ calls w = List.length (requests (log w))
  /\ map maxTokens ["short"; "medium"; "long"] = [150; 300; 500]
  /\ (In length (Js.keys RESPONSE_LENGTHS) \/ maxTokens length = 300).
Proof.
  intros w. subst w. unfold complete, callGroq.
  destruct (run_extends endpoint prompt personality length maxDepth
              (startAlias model) [] start) as (l & El & Hl & Hc).
  simpl in El, Hc. rewrite El, Hc.
  repeat split; try assumption.
  rewrite maxTokens_budget.
  destruct (Js.own RESPONSE_LENGTHS length) as [cfg|] eqn:E; [left|now right].
  apply own_keys. now exists cfg.
Qed.

(** ** Malformed success *)

Lemma malformed_not_rejection (o : FetchOutcome) :
  malformed o = true -> rejection o = None.
Proof.
  unfold malformed, rejection. destruct o as [response| |]; try reflexivity.
  destruct (ok response); [reflexivity | discriminate].
Qed.

Lemma missingContent_not_network : isNetworkError missingContent = false.
Proof. reflexivity. Qed.

(** Once the [n]-th outbound call is answered by a malformed success, the
    piece of the run that contains it ends with that call. *)
Lemma run_stops_at_malformed
    (endpoint : nat -> Request -> FetchOutcome)
    (prompt : string) (personality : Personality) (length : string)
    (n : nat) :
  (forall r, malformed (endpoint n r) = true) ->
  forall depth model tried w,
    let run := callGroqAt endpoint depth prompt personality length model tried w in
    (calls w <= n)%nat ->
    (calls (snd run) <= S n)%nat
    /\ (calls (snd run) = S n ->
        fst run = Throws missingContent
        /\ exists l r, log (snd run) = l ++ [Fetch r]).
Proof.
  intros Hbad depth model tried w.
  apply (callGroqAt_run endpoint prompt personality length
           (fun w r w' =>
              (calls w <= n)%nat ->
              (calls w' <= S n)%nat
              /\ (calls w' = S n ->
                  r = Throws missingContent
                  /\ exists l rq, log w' = l ++ [Fetch rq]))).
  - intros w0 r _ Hle. split; [lia|]. intros E. lia.
  - intros m w0 Hle. simpl. split; [lia|]. intros E.
    assert (Ec : calls w0 = n) by lia. rewrite Ec.
    split; [apply settle_malformed, Hbad | eauto].
  - intros m w0 r w' Hrej IH Hle.
    assert (calls w0 <> n) as Hne.
    { intros Ec. apply Hrej. rewrite Ec. apply malformed_not_rejection, Hbad. }
    apply IH. simpl. lia.
  - intros m t w0 r w' IH Hle. apply IH. exact Hle.
  - intros w0 e w1 ms r w2 H1 Hnet H2 Hle.
    destruct (H1 Hle) as [Hc1 Hend].
    apply H2. simpl.
    destruct (Nat.eq_dec (calls w1) (S n)) as [E|E]; [|lia].
    destruct (Hend E) as [Ee _]. inversion Ee; subst e. discriminate.
Qed.

(** C5: a success whose body lacks the generated text ends the call at
    once.  When the first response is such a one, the call throws the
    missing-content error after that single request, with no wait and no
    second invocation; and wherever in a run such a response arrives, the
    request it answers is the last thing the call does, and the call ends
    with the missing-content error, which the [catch] block does not
    retry. *)
Theorem malformed_success_terminal
    (endpoint : nat -> Request -> FetchOutcome)
    (prompt : string) (personality : Personality) (length : string)
    (model : option string) (n : nat) :
  (forall r, malformed (endpoint n r) = true) ->
  let run := complete endpoint prompt personality length model in
  (n = 0%nat ->
   run = (Throws missingContent,
          {| calls := 1;
             log := [ Invoke (startAlias model) [];
                      Fetch (buildRequest prompt personality length
                               (startAlias model)) ] |}))
  /\ (calls (snd run) <= S n)%nat
  /\ (calls (snd run) = S n ->
      fst run = Throws missingContent
      /\ exists l r, log (snd run) = l ++ [Fetch r])
  /\ isNetworkError missingContent = false.
Proof.
  intros Hbad run. subst run. split; [|split; [|split]].
  - intros ->. unfold complete, callGroq, maxDepth. simpl Datatypes.length.
    rewrite frame_malformed by apply Hbad. reflexivity.
  - apply (run_stops_at_malformed endpoint prompt personality length n Hbad
             maxDepth (startAlias model) [] start). simpl. lia.
  - apply (run_stops_at_malformed endpoint prompt personality length n Hbad
             maxDepth (startAlias model) [] start). simpl. lia.
  - reflexivity.
Qed.

Lemma malformed_success_terminal_witness :
  complete (fun _ _ => emptyBody) "Debate Topic: tea" AGENT_PERSONALITIES_pro
           "long" None
  = (Throws missingContent,
     {| calls := 1;
        log := [ Invoke "llama33" [];
                 Fetch (buildRequest "Debate Topic: tea" AGENT_PERSONALITIES_pro
                          "long" "llama33") ] |}).
Proof.
  refine (proj1 (malformed_success_terminal (fun _ _ => emptyBody)
                   "Debate Topic: tea" AGENT_PERSONALITIES_pro "long" None 0 _)
                eq_refl).
  intros r. reflexivity.
Defined.

(** ** Exhausting the fallback order *)

Lemma fallbackStatus_codes (response : Response) :
  fallbackStatus response = true
  <-> status response = 404 \/ status response = 429 \/ status response = 503.
Proof.
  unfold fallbackStatus. rewrite !orb_true_iff, !Z.eqb_eq. tauto.
Qed.

Lemma apiError_not_network (response : Response) (errorData : string) :
  isNetworkError (apiError response errorData) = false.
Proof. reflexivity. Qed.

Ltac hand_over E S :=
  eapply frame_fallback;
  [ exact E | apply fallbackStatus_codes; exact S
  | reflexivity | reflexivity | reflexivity | | reflexivity ].

(** C6: every model answers with a rejection of status 404, 429 or 503.
    Started on a model of the table, the call asks each of the six models
    once, the start model first and the others in fallback order, and then
    throws the rejection it received for the last model it asked: the
    error is built from the status and the body of that response. *)
Theorem fallback_exhausted
    (endpoint : nat -> Request -> FetchOutcome)
    (prompt : string) (personality : Personality) (length : string)
    (model : string) :
  In model (Js.keys FREE_MODELS) ->
  (forall n r, exists response errorData,
      rejection (endpoint n r) = Some (response, errorData)
      /\ (status response = 404 \/ status response = 429
          \/ status response = 503)) ->
  exists w lastModel response errorData,
    complete endpoint prompt personality length (Some model)
    = (Throws (apiError response errorData), w)
    /\ invocations (log w)
       = model :: filter (fun m => negb (String.eqb m model)) MODEL_FALLBACK_ORDER
    /\ List.length (invocations (log w)) = List.length MODEL_FALLBACK_ORDER
    /\ requests (log w)
       = map (buildRequest prompt personality length) (invocations (log w))
    /\ calls w = 6%nat
    /\ waits (log w) = []
    /\ last (invocations (log w)) model = lastModel
    /\ rejection (endpoint 5%nat (buildRequest prompt personality length lastModel))
       = Some (response, errorData)
    /\ isNetworkError (apiError response errorData) = false.
Proof.
  intros Hin Hrej.
  pose (chain := model :: filter (fun m => negb (String.eqb m model))
                                 MODEL_FALLBACK_ORDER).
  destruct (Hrej 0%nat (buildRequest prompt personality length (nth 0 chain "")))
    as (r0 & b0 & E0 & S0).
  destruct (Hrej 1%nat (buildRequest prompt personality length (nth 1 chain "")))
    as (r1 & b1 & E1 & S1).
  destruct (Hrej 2%nat (buildRequest prompt personality length (nth 2 chain "")))
    as (r2 & b2 & E2 & S2).
  destruct (Hrej 3%nat (buildRequest prompt personality length (nth 3 chain "")))
    as (r3 & b3 & E3 & S3).
  destruct (Hrej 4%nat (buildRequest prompt personality length (nth 4 chain "")))
    as (r4 & b4 & E4 & S4).
  destruct (Hrej 5%nat (buildRequest prompt personality length (nth 5 chain "")))
    as (r5 & b5 & E5 & S5).
  clear Hrej. subst chain.
  simpl in Hin.
  destruct Hin as [<-|[<-|[<-|[<-|[<-|[<-|[]]]]]]];
    (eexists; eexists; exists r5, b5; split;
     [ unfold complete, callGroq, maxDepth; simpl Datatypes.length;
       simpl startAlias;
       hand_over E0 S0; hand_over E1 S1; hand_over E2 S2;
       hand_over E3 S3; hand_over E4 S4;
       eapply frame_exhausted;
       [ exact E5 | apply fallbackStatus_codes; exact S5
       | reflexivity | reflexivity | reflexivity ]
     | repeat split; try reflexivity; exact E5 ]).
Qed.

Lemma fallback_exhausted_witness :
  fst (complete rateLimited "Debate Topic: tea" AGENT_PERSONALITIES_pro "short"
         (Some "mixtral"))
  = Throws (Js.new_Error "Groq API error: 429 - Rate limit reached").
Proof.
  destruct (fallback_exhausted rateLimited "Debate Topic: tea"
              AGENT_PERSONALITIES_pro "short" "mixtral")
    as (w & lastModel & response & errorData & E & _ & _ & _ & _ & _ & _ & Hr & _).
  - simpl. tauto.
  - intros n r. eexists. eexists. split; [reflexivity|]. simpl. tauto.
  - rewrite E. simpl in Hr. inversion Hr. reflexivity.
Defined.

(** C6, the part that does not hold: the error thrown when the fallback
    order is exhausted does not tell which model was asked last.  Against
    an endpoint that answers every request with the same 429, a call
    started on mixtral asks gemma2 last and a call started on gemma2 asks
    llama31 last, and both throw the same error, whose message holds the
    status and the body of the rejection and nothing else.  So nothing
    that is read off the error value gives the last model attempted. *)
Lemma exhausted_error_names_no_model :
  last (invocations
          (log (snd (complete rateLimited "Debate Topic: tea"
                       AGENT_PERSONALITIES_pro "short" (Some "mixtral"))))) ""
  = "gemma2"
  /\ last (invocations
             (log (snd (complete rateLimited "Debate Topic: tea"
                          AGENT_PERSONALITIES_pro "short" (Some "gemma2"))))) ""
     = "llama31"
  /\ fst (complete rateLimited "Debate Topic: tea" AGENT_PERSONALITIES_pro "short"
            (Some "mixtral"))
     = Throws {| Js.name := "Error"; Js.code := None;
                 Js.message := "Groq API error: 429 - Rate limit reached" |}
  /\ fst (complete rateLimited "Debate Topic: tea" AGENT_PERSONALITIES_pro "short"
            (Some "gemma2"))
     = Throws {| Js.name := "Error"; Js.code := None;
                 Js.message := "Groq API error: 429 - Rate limit reached" |}
  /\ ~ (exists lastModel : Js.Error -> string,
          forall model error w,
            In model (Js.keys FREE_MODELS) ->
            complete rateLimited "Debate Topic: tea" AGENT_PERSONALITIES_pro
                     "short" (Some model)
            = (Throws error, w) ->
            lastModel error = last (invocations (log w)) "").
Proof.
  assert (Em : exists w,
             complete rateLimited "Debate Topic: tea" AGENT_PERSONALITIES_pro
                      "short" (Some "mixtral")
             = (Throws (Js.new_Error "Groq API error: 429 - Rate limit reached"), w)
             /\ last (invocations (log w)) "" = "gemma2").
  { eexists. split; vm_compute; reflexivity. }
  assert (Eg : exists w,
             complete rateLimited "Debate Topic: tea" AGENT_PERSONALITIES_pro
                      "short" (Some "gemma2")
             = (Throws (Js.new_Error "Groq API error: 429 - Rate limit reached"), w)
             /\ last (invocations (log w)) "" = "llama31").
  { eexists. split; vm_compute; reflexivity. }
  destruct Em as (wm & Em & Lm). destruct Eg as (wg & Eg & Lg).
  rewrite Em, Eg. cbn [fst snd].
  split; [exact Lm|]. split; [exact Lg|].
  split; [reflexivity|]. split; [reflexivity|].
  intros (lastModel & H).
  pose proof (H "mixtral" _ wm ltac:(simpl; tauto) Em) as Hm.
  pose proof (H "gemma2" _ wg ltac:(simpl; tauto) Eg) as Hg.
  rewrite Lm in Hm. rewrite Lg in Hg. rewrite Hm in Hg. discriminate Hg.
Qed.

(** ** A failed fallback, seen from the invocation that started it *)

(** C1, at a run in which llama33 is rate-limited and the endpoint cannot
    be reached afterwards: llama33 is in the tried set handed to the
    fallback invocation, and once that invocation has given up, three more
    requests go out for llama33. *)
Theorem tried_model_requested_again :
  let request := buildRequest "Debate Topic: tea" AGENT_PERSONALITIES_pro "short" in
  complete limitedThenUnreachable "Debate Topic: tea" AGENT_PERSONALITIES_pro
           "short" (Some "llama33")
  = (Throws fetchFailed,
     {| calls := 8;
        log := [ Invoke "llama33" []; Fetch (request "llama33");
                 Invoke "llama32" ["llama33"]; Fetch (request "llama32");
                 Delay 1000; Fetch (request "llama32");
                 Delay 2000; Fetch (request "llama32");
                 Delay 4000; Fetch (request "llama32");
                 Delay 1000; Fetch (request "llama33");
                 Delay 2000; Fetch (request "llama33");
                 Delay 4000; Fetch (request "llama33") ] |}).
Proof. vm_compute. reflexivity. Qed.

(** C4, at two runs.  In the first, llama33 is overloaded and four
    requests for llama32 in a row fail at transport level: the call does
    not end there, it goes back to llama33 and returns its text.  In the
    second, the start alias names a member of [Object.prototype]: it
    passes the test [model in FREE_MODELS], a seventh invocation is made,
    and 28 requests go out. *)
Theorem transport_failure_not_terminal_after_fallback :
  let request := buildRequest "Debate Topic: tea" AGENT_PERSONALITIES_pro "short" in
  complete overloadedThenUnreachable "Debate Topic: tea" AGENT_PERSONALITIES_pro
           "short" (Some "llama33")
  = (Returns (Some "I argue in favour."),
     {| calls := 6;
        log := [ Invoke "llama33" []; Fetch (request "llama33");
                 Invoke "llama32" ["llama33"]; Fetch (request "llama32");
                 Delay 1000; Fetch (request "llama32");
                 Delay 2000; Fetch (request "llama32");
                 Delay 4000; Fetch (request "llama32");
                 Delay 1000; Fetch (request "llama33") ] |})
  /\ (let w := snd (complete sixOverloaded "Debate Topic: tea"
                      AGENT_PERSONALITIES_pro "short" (Some "toString")) in
      calls w = 28%nat
      /\ invocations (log w)
         = "toString" :: MODEL_FALLBACK_ORDER
      /\ (Z.of_nat (calls w)
          > (MAX_RETRIES + 1) * Z.of_nat (List.length MODEL_FALLBACK_ORDER))).
Proof. vm_compute. repeat split; reflexivity. Qed.

(** A rejection of a request made for an alias that names no property of
    the table, own or inherited, ends the call. *)
Lemma unknown_alias_no_fallback
    (endpoint : nat -> Request -> FetchOutcome)
    (prompt : string) (personality : Personality) (length : string)
    (model : string) (response : Response) (errorData : string) :
  Js.has_property model FREE_MODELS = false ->
  rejection (endpoint 0%nat (buildRequest prompt personality length model))
  = Some (response, errorData) ->
  complete endpoint prompt personality length (Some model)
  = (Throws (apiError response errorData),
     {| calls := 1;
        log := [ Invoke model [];
                 Fetch (buildRequest prompt personality length model) ] |}).
Proof.
  intros Hno Hrej. unfold complete, callGroq, maxDepth. simpl Datatypes.length.
  simpl startAlias.
  rewrite (frame_rejected endpoint prompt personality length _ model []
             start response errorData Hrej).
  - reflexivity.
  - rewrite Hno. now rewrite andb_false_r.
Qed.

(** C10, at the start alias ["toString"]: it is not a key of the table,
    yet a 503 on its request makes the call fall back to llama33, whose
    text is returned. *)
Theorem inherited_alias_falls_back :
  let request := buildRequest "Debate Topic: tea" AGENT_PERSONALITIES_pro "short" in
  ~ In "toString" (Js.keys FREE_MODELS)
  /\ Js.has_property "toString" FREE_MODELS = true
  /\ complete overloadedOnce "Debate Topic: tea" AGENT_PERSONALITIES_pro
              "short" (Some "toString")
     = (Returns (Some "I argue in favour."),
        {| calls := 2;
           log := [ Invoke "toString" []; Fetch (request "toString");
                    Invoke "llama33" ["toString"]; Fetch (request "llama33") ] |})
  /\ model (request "toString") = PrototypeMember "toString".
Proof.
  split; [apply mem_false_In; reflexivity|].
  vm_compute. repeat split; reflexivity.
Qed.

(** ** Termination *)

Lemma filter_length_lt {A : Type} (p q : A -> bool) (l : list A) (x : A) :
  (forall y, q y = true -> p y = true) ->
  In x l -> p x = true -> q x = false ->
  (List.length (filter q l) < List.length (filter p l))%nat.
Proof.
  intros Hqp. 
  assert (Hle : forall l', (List.length (filter q l') <= List.length (filter p l'))%nat).
  { induction l' as [|a l' IH]; simpl; [lia|].
    destruct (q a) eqn:Eq.
    - rewrite (Hqp a Eq). simpl. lia.
    - destruct (p a); simpl; lia. }
  induction l as [|a l IH]; simpl; intros Hin Hp Hq; [contradiction|].
  destruct Hin as [->|Hin].
  - rewrite Hp, Hq. simpl. specialize (Hle l). lia.
  - specialize (IH Hin Hp Hq).
    destruct (q a) eqn:Eq.
    + rewrite (Hqp a Eq). simpl. lia.
    + destruct (p a); simpl; lia.
Qed.

(** Adding an untried alias of the fallback order to a set leaves fewer
    aliases untried. *)
Lemma untried_shrinks (set set' : Js.StringSet) (alias : string) :
  In alias MODEL_FALLBACK_ORDER ->
  Js.Set_has set alias = false ->
  (forall y, Js.Set_has set' y = Js.Set_has set y || String.eqb y alias) ->
  (List.length (untried set') < List.length (untried set))%nat.
Proof.
  intros Hin Hno Hadd. unfold untried.
  apply filter_length_lt with (x := alias); try assumption.
  - intros y. rewrite Hadd. destruct (Js.Set_has set y); simpl; [discriminate|easy].
  - now rewrite Hno.
  - rewrite Hadd, String.eqb_refl, orb_true_r. reflexivity.
Qed.

Lemma fallbackCandidate_untried (set : Js.StringSet) (alias : string) :
  fallbackCandidate set = Some alias ->
  In alias MODEL_FALLBACK_ORDER /\ Js.Set_has set alias = false.
Proof.
  unfold fallbackCandidate. intros H. apply find_some in H.
  destruct H as [Hin Hn]. split; [assumption|].
  now apply negb_true_iff in Hn.
Qed.

(** The invocation made for a fallback candidate has fewer untried aliases
    ahead of it than the one that chose it. *)
Lemma fallback_measure (set : Js.StringSet) (model fallbackModel : string) :
  fallbackCandidate (Js.Set_add set model) = Some fallbackModel ->
  (List.length (untried (Js.Set_add (Js.new_Set (Js.Set_add set model)) fallbackModel))
   < List.length (untried (Js.Set_add set model)))%nat.
Proof.
  intros H. apply fallbackCandidate_untried in H. destruct H as [Hin Hno].
  apply untried_shrinks with (alias := fallbackModel); try assumption.
  intros y. rewrite Set_has_add, Set_has_new. reflexivity.
Qed.

Lemma settle_settled (o : FetchOutcome) : settled (settle o).
Proof.
  unfold settle. destruct o as [response| |]; simpl; auto.
  destruct (ok response).
  - destruct (json response) as [[generated|]|]; simpl; auto.
    destruct (Js.truthy generated); simpl; auto.
  - destruct (text response); simpl; auto.
Qed.

Section Termination.

Variable endpoint : nat -> Request -> FetchOutcome.
Variables (prompt : string) (personality : Personality) (length : string).

Lemma retryLoop_settled
    (self : string -> list string -> World -> Completion * World)
    (budget : nat) (model : string) :
  (forall m t w,
     (List.length (untried (Js.Set_add (Js.new_Set t) m)) < budget)%nat ->
     settled (fst (self m t w))) ->
  forall fuel attempt set w,
    attempt <= MAX_RETRIES ->
    MAX_RETRIES - attempt < Z.of_nat fuel ->
    (Js.Set_has set model = false ->
     (List.length (untried (Js.Set_add set model)) <= budget)%nat) ->
    settled (fst (retryLoop endpoint self prompt personality length model
                    fuel attempt set w)).
Proof.
  intros Hself. induction fuel as [|fuel IH]; intros attempt set w Hle Hfuel Hset.
  - lia.
  - rewrite retryLoop_S by assumption.
    destruct (tryBlock_cases endpoint self prompt personality length model set w)
      as [(set' & E & Hs) | (Hno & _ & _ & fb & Hfb & E)]; rewrite E.
    + destruct (retries attempt _) eqn:Hr; [|apply settle_settled].
      destruct (settle _) as [v|e|]; simpl in Hr; try discriminate.
      apply andb_prop in Hr. destruct Hr as [_ Hlast].
      apply negb_true_iff, Z.eqb_neq in Hlast.
      apply IH; try lia.
      destruct Hs as [->| ->]; [exact Hset|].
      rewrite Set_has_add, String.eqb_refl, orb_true_r. discriminate.
    + assert (Hr : settled (fst (self fb (Js.Set_add set model)
                                   (sent (buildRequest prompt personality length model) w)))).
      { apply Hself. specialize (Hset Hno).
        pose proof (fallback_measure set model fb Hfb). lia. }
      destruct (retries attempt _) eqn:Hret; [|exact Hr].
      destruct (fst (self fb _ _)) as [v|e|]; simpl in Hret; try discriminate.
      apply andb_prop in Hret. destruct Hret as [_ Hlast].
      apply negb_true_iff, Z.eqb_neq in Hlast.
      apply IH; try lia.
      rewrite Set_has_add, String.eqb_refl, orb_true_r. discriminate.
Qed.

Lemma callGroqAt_settled (depth : nat) :
  forall model tried w,
    (List.length (untried (Js.Set_add (Js.new_Set tried) model)) < depth)%nat ->
    settled (fst (callGroqAt endpoint depth prompt personality length model tried w)).
Proof.
  induction depth as [|depth IH]; intros model tried w Hd; [lia|].
  rewrite callGroqAt_S.
  apply retryLoop_settled with (budget := depth).
  - exact IH.
  - unfold MAX_RETRIES. lia.
  - unfold loopFuel, MAX_RETRIES. simpl. lia.
  - intros _. lia.
Qed.

Lemma untried_bound (set : Js.StringSet) :
  (List.length (untried set) <= List.length MODEL_FALLBACK_ORDER)%nat.
Proof. unfold untried. apply filter_length_le. Qed.

(** [callGroq] always ends, whatever its arguments and whatever the
    endpoint does: it returns generated text or throws. *)
Theorem callGroq_settled (model : string) (tried : list string) (w : World) :
  settled (fst (callGroq endpoint prompt personality length model tried w)).
Proof.
  unfold callGroq. apply callGroqAt_settled.
  pose proof (untried_bound (Js.Set_add (Js.new_Set tried) model)).
  unfold maxDepth. lia.
Qed.

End Termination.

(** ** How many requests a call can make *)

Section Budget.

Variable endpoint : nat -> Request -> FetchOutcome.
Variables (prompt : string) (personality : Personality) (length : string).

Lemma calls_delay (ms : Z) (w : World) : calls (delay ms w) = calls w.
Proof. reflexivity. Qed.

Lemma calls_sent (r : Request) (w : World) : calls (sent r w) = S (calls w).
Proof. reflexivity. Qed.

Lemma calls_emit (e : Event) (w : World) : calls (emit e w) = calls w.
Proof. reflexivity. Qed.

Lemma requestBudget_after_add (model : string) (set : Js.StringSet) :
  requestBudget model (Js.Set_add set model) = 0%nat.
Proof.
  unfold requestBudget, canFallBack.
  rewrite Set_has_add, String.eqb_refl, orb_true_r, andb_false_r. reflexivity.
Qed.

Lemma retryLoop_calls
    (self : string -> list string -> World -> Completion * World)
    (model : string) :
  (forall m t w,
     (calls (snd (self m t w))
      <= calls w + 4 + requestBudget m (Js.new_Set t))%nat) ->
  forall fuel attempt set w,
    0 <= attempt ->
    (calls (snd (retryLoop endpoint self prompt personality length model
                   fuel attempt set w))
     <= calls w + attemptsLeft attempt + requestBudget model set)%nat.
Proof.
  intros Hself. induction fuel as [|fuel IH]; intros attempt set w H0.
  - simpl. lia.
  - destruct (Z.leb_spec attempt MAX_RETRIES) as [Hle|Hgt].
    + assert (Hleft : attemptsLeft attempt = S (attemptsLeft (attempt + 1))).
      { unfold attemptsLeft. rewrite <- Z2Nat.inj_succ by lia. f_equal. lia. }
      rewrite retryLoop_S by assumption.
      destruct (tryBlock_cases endpoint self prompt personality length model set w)
        as [(set' & E & Hs) | (Hno & Hin & _ & fb & Hfb & E)]; rewrite E.
      * destruct (retries attempt _); [|cbn [fst snd]; rewrite calls_sent; lia].
        specialize (IH (attempt + 1) set'
                       (delay (INITIAL_RETRY_DELAY_MS * 2 ^ attempt)
                          (sent (buildRequest prompt personality length model) w))
                       ltac:(lia)).
        rewrite calls_delay, calls_sent in IH.
        destruct Hs as [->| ->]; [lia|].
        rewrite requestBudget_after_add in IH. lia.
      * pose proof (Hself fb (Js.Set_add set model)
                      (sent (buildRequest prompt personality length model) w)) as Hc.
        rewrite calls_sent in Hc.
        assert (Hb : (4 + requestBudget fb (Js.new_Set (Js.Set_add set model))
                      <= requestBudget model set)%nat).
        { pose proof (fallback_measure set model fb Hfb) as Hm.
          unfold requestBudget at 2. unfold canFallBack. rewrite Hin, Hno. simpl andb.
          cbv iota. unfold requestBudget.
          destruct (canFallBack fb _); lia. }
        destruct (retries attempt _); [|cbn [fst snd]; lia].
        specialize (IH (attempt + 1) (Js.Set_add set model)
                       (delay (INITIAL_RETRY_DELAY_MS * 2 ^ attempt)
                          (snd (self fb (Js.Set_add set model)
                                  (sent (buildRequest prompt personality length model) w))))
                       ltac:(lia)).
        rewrite calls_delay, requestBudget_after_add in IH. cbn [fst snd]. lia.
    + simpl. apply Z.leb_gt in Hgt. rewrite Hgt. simpl. lia.
Qed.

Lemma callGroqAt_calls (depth : nat) :
  forall model tried w,
    (calls (snd (callGroqAt endpoint depth prompt personality length model tried w))
     <= calls w + 4 + requestBudget model (Js.new_Set tried))%nat.
Proof.
  induction depth as [|depth IH]; intros model tried w.
  - simpl. lia.
  - rewrite callGroqAt_S.
    pose proof (retryLoop_calls _ model IH loopFuel 0 (Js.new_Set tried)
                  (emit (Invoke model tried) w) ltac:(lia)) as H.
    rewrite calls_emit in H. exact H.
Qed.

(** A call started on a model of the table, or on an alias that names no
    property of the table at all, makes at most
    [(MAX_RETRIES + 1) * 6 = 24] requests; no call makes more than 28. *)
Theorem complete_calls_bounded (model : option string) :
  let w := snd (complete endpoint prompt personality length model) in
  (calls w <= 28)%nat
  /\ (In (startAlias model) (Js.keys FREE_MODELS)
      \/ Js.has_property (startAlias model) FREE_MODELS = false ->
      (Z.of_nat (calls w)
       <= (MAX_RETRIES + 1) * Z.of_nat (List.length MODEL_FALLBACK_ORDER))).
Proof.
  intros w. subst w. unfold complete, callGroq.
  pose proof (callGroqAt_calls maxDepth (startAlias model) [] start) as H.
  change (calls start) with 0%nat in H.
  change (Js.new_Set []) with (@nil string) in H.
  split.
  - pose proof (untried_bound (Js.Set_add [] (startAlias model))) as Hu.
    simpl List.length in Hu.
    unfold requestBudget in H. destruct (canFallBack _ _); lia.
  - intros [Hin|Hno].
    + assert (Hb : requestBudget (startAlias model) [] = 20%nat).
      { simpl in Hin.
        destruct Hin as [<-|[<-|[<-|[<-|[<-|[<-|[]]]]]]]; reflexivity. }
      rewrite Hb in H. simpl. unfold MAX_RETRIES. lia.
    + unfold requestBudget, canFallBack in H. rewrite Hno in H.
      simpl in H. unfold MAX_RETRIES. simpl. lia.
Qed.

(** An invocation whose requests all fail at transport level gives up
    after [MAX_RETRIES + 1] of them and throws the last error; it never
    hands over to another model. *)
Lemma retryLoop_gives_up
    (self : string -> list string -> World -> Completion * World)
    (model : string) (k : nat) :
  forall (fuel : nat) (attempt : Z) (set : Js.StringSet) (w : World),
    0 <= attempt ->
    attempt + Z.of_nat k = MAX_RETRIES ->
    (k < fuel)%nat ->
    (forall i, (i <= k)%nat ->
       transportFailure
         (endpoint (calls w + i) (buildRequest prompt personality length model))
       = true) ->
    exists e,
      retryLoop endpoint self prompt personality length model fuel attempt set w
      = (Throws e,
         {| calls := calls w + S k;
            log := log w ++ backoffLog (buildRequest prompt personality length model)
                                       attempt k |})
      /\ isNetworkError e = true.
Proof.
  induction k as [|k IH]; intros fuel attempt set w H0 Hmax Hfuel Hfail.
  - destruct fuel as [|fuel]; [lia|].
    destruct (transportFailure_error _ (Hfail 0%nat ltac:(lia))) as (e & He & Hn).
    rewrite Nat.add_0_r in He. exists e. split; [|exact Hn].
    rewrite retryLoop_S by lia.
    rewrite (tryBlock_fetch_failed _ _ _ _ _ _ _ _ _ He).
    unfold retries. rewrite Hn.
    replace (attempt =? MAX_RETRIES) with true by (symmetry; apply Z.eqb_eq; lia).
    simpl. unfold sent. now rewrite Nat.add_1_r.
  - destruct fuel as [|fuel]; [lia|].
    destruct (transportFailure_error _ (Hfail 0%nat ltac:(lia))) as (e & He & Hn).
    rewrite Nat.add_0_r in He.
    destruct (IH fuel (attempt + 1) set
                (delay (INITIAL_RETRY_DELAY_MS * 2 ^ attempt)
                   (sent (buildRequest prompt personality length model) w)))
      as (e' & E' & Hn'); try lia.
    { intros i Hi. simpl calls.
      replace (S (calls w) + i)%nat with (calls w + S i)%nat by lia.
      apply Hfail. lia. }
    exists e'. split; [|exact Hn'].
    rewrite retryLoop_S by lia.
    rewrite (tryBlock_fetch_failed _ _ _ _ _ _ _ _ _ He).
    unfold retries. rewrite Hn.
    replace (attempt =? MAX_RETRIES) with false by (symmetry; apply Z.eqb_neq; lia).
    simpl andb. cbv iota. rewrite E'.
    simpl calls. simpl log. f_equal. f_equal; [lia|].
    rewrite <- !app_assoc. reflexivity.
Qed.

Theorem unreachable_gives_up (model : string) (tried : list string) (w : World) :
  (forall i, (i <= 3)%nat ->
     transportFailure
       (endpoint (calls w + i) (buildRequest prompt personality length model))
     = true) ->
  exists e,
    callGroq endpoint prompt personality length model tried w
    = (Throws e,
       {| calls := calls w + 4;
          log := log w ++ Invoke model tried
                   :: backoffLog (buildRequest prompt personality length model) 0 3 |})
    /\ isNetworkError e = true.
Proof.
  intros Hfail. unfold callGroq, maxDepth. simpl List.length.
  rewrite callGroqAt_S.
  destruct (retryLoop_gives_up
              (callGroqAt endpoint 6 prompt personality length) model 3
              loopFuel 0 (Js.new_Set tried) (emit (Invoke model tried) w))
    as (e & E & Hn).
  - lia.
  - reflexivity.
  - unfold loopFuel, MAX_RETRIES. simpl. lia.
  - exact Hfail.
  - exists e. split; [|exact Hn]. rewrite E. simpl calls. simpl log.
    rewrite <- app_assoc. reflexivity.
Qed.

End Budget.

(** ** Further facts about the pieces *)

(** The errors the [catch] block retries. *)
Lemma isNetworkError_spec (error : Js.Error) :
  isNetworkError error = true
  <-> Js.name error = "AbortError"
      \/ Js.name error = "TypeError"
      \/ Js.code error = Some "UND_ERR_CONNECT_TIMEOUT"
      \/ Js.code error = Some "ECONNREFUSED"
      \/ Js.code error = Some "ETIMEDOUT".
Proof.
  unfold isNetworkError. rewrite !orb_true_iff, !String.eqb_eq.
  destruct (Js.code error) as [c|].
  - rewrite !orb_true_iff, !String.eqb_eq.
    split.
    + intros [[H|H]|[[H|H]|H]]; subst; tauto.
    + intros [H|[H|[H|[H|H]]]]; try tauto; inversion H; tauto.
  - split.
    + intros [[H|H]|H]; [tauto | tauto | discriminate].
    + intros [H|[H|[H|[H|H]]]]; try tauto; discriminate.
Qed.

(** A fetch that the timer aborts, and a fetch that fails for want of a
    connection, are both transport-level failures. *)
Lemma transportFailure_examples :
  transportFailure Pending = true
  /\ transportFailure (Rejects fetchFailed) = true
  /\ transportFailure (respond 503 "Service unavailable") = false.
Proof. repeat split. Qed.

(** A set never holds a string twice. *)
Lemma Set_add_NoDup (s : Js.StringSet) (x : string) :
  NoDup s -> NoDup (Js.Set_add s x).
Proof.
  intros H. unfold Js.Set_add, Js.Set_has.
  destruct (Js.mem x s) eqn:E; [assumption|].
  apply NoDup_app; [assumption | repeat constructor; easy |].
  intros a Ha [<-|[]]. apply mem_false_In in E. contradiction.
Qed.

Lemma new_Set_NoDup (l : list string) : NoDup (Js.new_Set l).
Proof.
  unfold Js.new_Set.
  assert (G : forall acc, NoDup acc -> NoDup (fold_left Js.Set_add l acc)).
  { induction l as [|a l IH]; intros acc H; simpl; [assumption|].
    apply IH, Set_add_NoDup, H. }
  apply G. constructor.
Qed.

(** The tried list a fallback invocation receives has no duplicates. *)
Lemma tried_list_NoDup (tried : list string) (model : string) :
  NoDup (Js.Array_from (Js.Set_add (Js.new_Set tried) model)).
Proof. apply Set_add_NoDup, new_Set_NoDup. Qed.

(** ** One invocation per alias *)

Lemma invocations_app (l1 l2 : list Event) :
  invocations (l1 ++ l2) = invocations l1 ++ invocations l2.
Proof. apply flat_map_app. Qed.

Lemma freshAliases_cons (set : Js.StringSet) (alias : string) (l : list string) :
  In alias MODEL_FALLBACK_ORDER ->
  Js.Set_has set alias = false ->
  freshAliases (Js.Set_add (Js.new_Set set) alias) l ->
  freshAliases set (alias :: l).
Proof.
  intros Hin Hno [Hnd Hl].
  assert (Hmem : forall a, In a l -> Js.Set_has set a = false /\ a <> alias).
  { intros a Ha. destruct (Hl a Ha) as [_ Hf].
    rewrite Set_has_add, Set_has_new in Hf.
    apply orb_false_elim in Hf. destruct Hf as [Hs He].
    split; [exact Hs | now apply String.eqb_neq]. }
  split.
  - constructor; [|assumption]. intros Ha. now destruct (Hmem alias Ha).
  - intros a [<-|Ha]; [now split|].
    split; [apply Hl, Ha | apply Hmem, Ha].
Qed.

Section Invocations.

Variable endpoint : nat -> Request -> FetchOutcome.
Variables (prompt : string) (personality : Personality) (length : string).

Lemma retryLoop_invocations
    (self : string -> list string -> World -> Completion * World)
    (model : string) :
  (forall m t w, exists l,
      log (snd (self m t w)) = log w ++ l
      /\ (invocations l = []
          \/ exists rest, invocations l = m :: rest
                          /\ freshAliases (Js.Set_add (Js.new_Set t) m) rest)) ->
  forall fuel attempt set w, exists l,
    log (snd (retryLoop endpoint self prompt personality length model
                fuel attempt set w)) = log w ++ l
    /\ (invocations l = []
        \/ (Js.Set_has set model = false
            /\ freshAliases (Js.Set_add set model) (invocations l))).
Proof.
  intros Hself. induction fuel as [|fuel IH]; intros attempt set w.
  - exists []. simpl. rewrite app_nil_r. auto.
  - destruct (Z.leb_spec attempt MAX_RETRIES) as [Hle|Hgt].
    + rewrite retryLoop_S by assumption.
      destruct (tryBlock_cases endpoint self prompt personality length model set w)
        as [(set' & E & Hs) | (Hno & _ & _ & fb & Hfb & E)]; rewrite E.
      * destruct (retries attempt _).
        -- destruct (IH (attempt + 1) set'
                        (delay (INITIAL_RETRY_DELAY_MS * 2 ^ attempt)
                           (sent (buildRequest prompt personality length model) w)))
             as (l & El & Hl).
           exists (Fetch (buildRequest prompt personality length model)
                     :: Delay (INITIAL_RETRY_DELAY_MS * 2 ^ attempt) :: l).
           rewrite El. unfold delay, emit, sent. cbn [log].
           rewrite <- !app_assoc. split; [reflexivity|].
           cbn [invocations flat_map app].
           destruct Hl as [Hl|[Hno Hl]]; [now left|].
           destruct Hs as [->| ->]; [now right|].
           rewrite Set_has_add, String.eqb_refl, orb_true_r in Hno. discriminate.
        -- exists [Fetch (buildRequest prompt personality length model)].
           cbn [snd]. split; [reflexivity | now left].
      * destruct (Hself fb (Js.Set_add set model)
                    (sent (buildRequest prompt personality length model) w))
          as (lc & Ec & Hc).
        assert (Hfresh : invocations lc = []
                         \/ freshAliases (Js.Set_add set model) (invocations lc)).
        { destruct Hc as [Hc|(rest & Er & Hr)]; [now left|right].
          rewrite Er. destruct (fallbackCandidate_untried _ _ Hfb) as [Hin Hn].
          now apply freshAliases_cons. }
        destruct (retries attempt _).
        -- destruct (IH (attempt + 1) (Js.Set_add set model)
                        (delay (INITIAL_RETRY_DELAY_MS * 2 ^ attempt)
                           (snd (self fb (Js.Set_add set model)
                                   (sent (buildRequest prompt personality length model) w)))))
             as (l & El & Hl).
           exists (Fetch (buildRequest prompt personality length model)
                     :: lc ++ Delay (INITIAL_RETRY_DELAY_MS * 2 ^ attempt) :: l).
           rewrite El. unfold delay, emit. cbn [log]. rewrite Ec.
           unfold sent. cbn [log]. rewrite <- !app_assoc. split; [reflexivity|].
           assert (Hnone : invocations l = []).
           { destruct Hl as [Hl|[Hhas _]]; [exact Hl|].
             rewrite Set_has_add, String.eqb_refl, orb_true_r in Hhas. discriminate. }
           change (invocations (Fetch (buildRequest prompt personality length model)
                     :: lc ++ Delay (INITIAL_RETRY_DELAY_MS * 2 ^ attempt) :: l))
             with (invocations (lc ++ Delay (INITIAL_RETRY_DELAY_MS * 2 ^ attempt) :: l)).
           rewrite invocations_app.
           change (invocations (Delay (INITIAL_RETRY_DELAY_MS * 2 ^ attempt) :: l))
             with (invocations l).
           rewrite Hnone, app_nil_r.
           destruct Hfresh as [H|H]; [now left | now right].
        -- exists (Fetch (buildRequest prompt personality length model) :: lc).
           cbn [snd]. rewrite Ec. unfold sent. cbn [log].
           rewrite <- app_assoc. split; [reflexivity|].
           change (invocations (Fetch (buildRequest prompt personality length model) :: lc))
             with (invocations lc).
           destruct Hfresh as [H|H]; [now left | now right].
    + exists []. simpl. apply Z.leb_gt in Hgt. rewrite Hgt. simpl.
      rewrite app_nil_r. auto.
Qed.

Lemma callGroqAt_invocations (depth : nat) :
  forall model tried w, exists l,
    log (snd (callGroqAt endpoint depth prompt personality length model tried w))
    = log w ++ l
    /\ (invocations l = []
        \/ exists rest, invocations l = model :: rest
                        /\ freshAliases (Js.Set_add (Js.new_Set tried) model) rest).
Proof.
  induction depth as [|depth IH]; intros model tried w.
  - exists []. simpl. rewrite app_nil_r. auto.
  - rewrite callGroqAt_S.
    destruct (retryLoop_invocations _ model IH loopFuel 0 (Js.new_Set tried)
                (emit (Invoke model tried) w)) as (l & El & Hl).
    exists (Invoke model tried :: l). rewrite El. unfold emit. cbn [log].
    rewrite <- app_assoc. split; [reflexivity|]. right.
    exists (invocations l). split; [reflexivity|].
    destruct Hl as [->|[_ Hl]]; [|exact Hl].
    split; [constructor | intros a []].
Qed.

Lemma callGroqAt_S_invocations (depth : nat) (model : string)
    (tried : list string) (w : World) :
  exists l rest,
    log (snd (callGroqAt endpoint (S depth) prompt personality length model tried w))
    = log w ++ l
    /\ invocations l = model :: rest
    /\ freshAliases (Js.Set_add (Js.new_Set tried) model) rest.
Proof.
  rewrite callGroqAt_S.
  destruct (retryLoop_invocations _ model (callGroqAt_invocations depth)
              loopFuel 0 (Js.new_Set tried) (emit (Invoke model tried) w))
    as (l & El & Hl).
  exists (Invoke model tried :: l), (invocations l). rewrite El.
  unfold emit. cbn [log]. rewrite <- app_assoc.
  split; [reflexivity|]. split; [reflexivity|].
  destruct Hl as [->|[_ Hl]]; [|exact Hl].
  split; [constructor | intros a []].
Qed.

(** [callGroq] is invoked at most once per alias in a call, and every
    invocation after the first is for an alias of the fallback order. *)
Theorem one_invocation_per_alias (model : option string) :
  let w := snd (complete endpoint prompt personality length model) in
  NoDup (invocations (log w))
  /\ exists rest,
       invocations (log w) = startAlias model :: rest
       /\ incl rest MODEL_FALLBACK_ORDER.
Proof.
  intros w. subst w. unfold complete, callGroq, maxDepth.
  destruct (callGroqAt_S_invocations (List.length MODEL_FALLBACK_ORDER)
              (startAlias model) [] start)
    as (l & rest & El & Er & Hnd & Hr).
  rewrite El. change (log start) with (@nil Event). cbn [app].
  rewrite Er. split.
  - constructor; [|exact Hnd].
    intros Hin. destruct (Hr _ Hin) as [_ Hf].
    rewrite Set_has_add, String.eqb_refl, orb_true_r in Hf. discriminate.
  - exists rest. split; [reflexivity|].
    intros a Ha. apply Hr, Ha.
Qed.

End Invocations.

(** * Further properties of [callGroq] *)

Lemma unreachable_gives_up_witness :
  exists e,
    fst (callGroq unreachable "Debate Topic: tea" AGENT_PERSONALITIES_pro "short"
           "gemma2" ["llama33"] start) = Throws e
    /\ isNetworkError e = true.
Proof.
  destruct (unreachable_gives_up unreachable "Debate Topic: tea"
              AGENT_PERSONALITIES_pro "short" "gemma2" ["llama33"] start)
    as (e & E & Hn).
  - intros i _. reflexivity.
  - exists e. rewrite E. split; [reflexivity | exact Hn].
Defined.

Lemma unknown_alias_no_fallback_witness :
  fst (complete rateLimited "Debate Topic: tea" AGENT_PERSONALITIES_pro "short"
         (Some "gpt4"))
  = Throws (Js.new_Error "Groq API error: 429 - Rate limit reached").
Proof.
  rewrite (unknown_alias_no_fallback rateLimited "Debate Topic: tea"
             AGENT_PERSONALITIES_pro "short" "gpt4"
             {| status := 429; text := Got "Rate limit reached"; json := Got None |}
             "Rate limit reached" eq_refl eq_refl).
  reflexivity.
Defined.

(** A rejection whose status is none of 404, 429 and 503 ends the call at
    once, whatever the alias: one request, no wait, no fallback, and the
    error names the status and carries the body. *)
Theorem other_status_terminal
    (endpoint : nat -> Request -> FetchOutcome)
    (prompt : string) (personality : Personality) (length : string)
    (model : option string) (response : Response) (errorData : string) :
  rejection (endpoint 0%nat (buildRequest prompt personality length (startAlias model)))
  = Some (response, errorData) ->
  status response <> 404 -> status response <> 429 -> status response <> 503 ->
  complete endpoint prompt personality length model
  = (Throws (Js.new_Error ("Groq API error: "
                           ++ Js.number_to_string (status response)
                           ++ " - " ++ errorData)%string),
     {| calls := 1;
        log := [ Invoke (startAlias model) [];
                 Fetch (buildRequest prompt personality length (startAlias model)) ] |}).
Proof.
  intros Hrej H404 H429 H503.
  unfold complete, callGroq, maxDepth. simpl Datatypes.length.
  rewrite (frame_rejected endpoint prompt personality length _ (startAlias model) []
             start response errorData Hrej).
  - reflexivity.
  - assert (Hs : fallbackStatus response = false).
    { destruct (fallbackStatus response) eqn:E; [|reflexivity].
      apply fallbackStatus_codes in E. tauto. }
    rewrite Hs. reflexivity.
Qed.

Lemma other_status_terminal_witness :
  fst (complete unauthorized "Debate Topic: tea" AGENT_PERSONALITIES_pro "short"
         (Some "llama33"))
  = Throws (Js.new_Error "Groq API error: 401 - Invalid API Key").
Proof.
  rewrite (other_status_terminal unauthorized "Debate Topic: tea"
             AGENT_PERSONALITIES_pro "short" (Some "llama33")
             {| status := 401; text := Got "Invalid API Key"; json := Got None |}
             "Invalid API Key" eq_refl);
    [reflexivity | discriminate | discriminate | discriminate].
Defined.

(** Whatever the endpoint does and whatever the arguments are, [callGroq]
    ends by returning or by throwing, and seven nested invocations are
    always enough.  It never returns [undefined] by running off the end of
    its loop: what it returns is the content of the successful response to
    the last request it sent, and that content is not the empty string.
    (The responses described are those whose content, where there is one,
    is a string.) *)
Theorem callGroq_text_or_error
    (endpoint : nat -> Request -> FetchOutcome)
    (prompt : string) (personality : Personality) (length : string)
    (model : string) (tried : list string) (w : World) :
  let run := callGroq endpoint prompt personality length model tried w in
  match fst run with
  | Returns (Some generated) =>
      generated <> ""
      /\ exists n alias response,
           calls (snd run) = S n
           /\ endpoint n (buildRequest prompt personality length alias)
              = Resolves response
           /\ ok response = true
           /\ json response = Got (Some generated)
  | Returns None => False
  | Throws _ => True
  | OutOfFuel => False
  end.
Proof.
  intros run.
  pose proof (callGroq_settled endpoint prompt personality length model tried w) as Hs.
  assert (Ht : forall generated,
             fst run = Returns (Some generated) ->
             Js.truthy generated = true
             /\ exists n alias response,
                  calls (snd run) = S n
                  /\ endpoint n (buildRequest prompt personality length alias)
                     = Resolves response
                  /\ ok response = true
                  /\ json response = Got (Some generated)).
  { subst run. unfold callGroq.
    apply (callGroqAt_run endpoint prompt personality length
             (fun _ r w' => forall generated,
                  r = Returns (Some generated) ->
                  Js.truthy generated = true
                  /\ exists n alias response,
                       calls w' = S n
                       /\ endpoint n (buildRequest prompt personality length alias)
                          = Resolves response
                       /\ ok response = true
                       /\ json response = Got (Some generated))).
    - intros w0 r [->| ->] generated H; discriminate.
    - intros m w0 generated. unfold settle.
      destruct (endpoint _ _) as [response| |] eqn:Eo; try discriminate.
      destruct (ok response) eqn:Hok.
      + destruct (json response) as [[g|]|] eqn:Hj; try discriminate.
        destruct (Js.truthy g) eqn:E; [|discriminate].
        intros H. inversion H. subst g. split; [exact E|].
        exists (calls w0), m, response. rewrite calls_sent. auto.
      + destruct (text response); discriminate.
    - intros m w0 r w' _ H. exact H.
    - intros m t w0 r w' H. exact H.
    - intros w0 e w1 ms r w2 _ _ H. exact H. }
  fold run in Hs.
  destruct (fst run) as [[generated|]|e|]; simpl in Hs; try contradiction;
    try exact I.
  destruct (Ht generated eq_refl) as (Htruthy & Hfrom).
  split; [|exact Hfrom]. intros ->. discriminate.
Qed.

(** ** Time spent waiting *)

Lemma waited_app (l1 l2 : list Event) : waited (l1 ++ l2) = waited l1 + waited l2.
Proof.
  unfold waited, waits. rewrite flat_map_app.
  induction (flat_map _ l1) as [|a l IH]; simpl; [reflexivity|]. rewrite IH. lia.
Qed.

Lemma waited_nil : waited [] = 0.
Proof. reflexivity. Qed.

Lemma invocations_nil : invocations [] = [].
Proof. reflexivity. Qed.

Lemma waited_Fetch (r : Request) (l : list Event) : waited (Fetch r :: l) = waited l.
Proof. reflexivity. Qed.

Lemma waited_Invoke (a : string) (t : list string) (l : list Event) :
  waited (Invoke a t :: l) = waited l.
Proof. reflexivity. Qed.

Lemma waited_Delay (ms : Z) (l : list Event) : waited (Delay ms :: l) = ms + waited l.
Proof. reflexivity. Qed.

Lemma invocations_Fetch (r : Request) (l : list Event) :
  invocations (Fetch r :: l) = invocations l.
Proof. reflexivity. Qed.

Lemma invocations_Delay (ms : Z) (l : list Event) :
  invocations (Delay ms :: l) = invocations l.
Proof. reflexivity. Qed.

Section Waiting.

Variable endpoint : nat -> Request -> FetchOutcome.
Variables (prompt : string) (personality : Personality) (length : string).

Lemma retryLoop_waited
    (self : string -> list string -> World -> Completion * World)
    (model : string) :
  (forall m t w, exists l,
      log (snd (self m t w)) = log w ++ l
      /\ waited l <= 7000 * Z.of_nat (List.length (invocations l))) ->
  forall fuel attempt set w,
    0 <= attempt ->
    exists l,
      log (snd (retryLoop endpoint self prompt personality length model
                  fuel attempt set w)) = log w ++ l
      /\ (attempt <= MAX_RETRIES ->
          waited l <= INITIAL_RETRY_DELAY_MS * (8 - 2 ^ attempt)
                      + 7000 * Z.of_nat (List.length (invocations l)))
      /\ (MAX_RETRIES < attempt -> l = []).
Proof.
  intros Hself. induction fuel as [|fuel IH]; intros attempt set w H0.
  - exists []. cbn [retryLoop snd]. rewrite app_nil_r.
    split; [reflexivity|]. split; [|reflexivity].
    intros Hle.
    assert (2 ^ attempt <= 8)
      by (change 8 with (2 ^ 3); apply Z.pow_le_mono_r;
          unfold MAX_RETRIES in Hle; lia).
    rewrite waited_nil, invocations_nil. cbn [List.length].
    unfold INITIAL_RETRY_DELAY_MS. lia.
  - destruct (Z.leb_spec attempt MAX_RETRIES) as [Hle|Hgt].
    + assert (Hpow : 2 ^ (attempt + 1) = 2 * 2 ^ attempt)
        by (rewrite Z.pow_add_r by lia; lia).
      assert (Hpos : 0 < 2 ^ attempt) by (apply Z.pow_pos_nonneg; lia).
      assert (Hmax : 2 ^ attempt <= 8)
        by (change 8 with (2 ^ 3); apply Z.pow_le_mono_r;
            unfold MAX_RETRIES in Hle; lia).
      rewrite retryLoop_S by assumption.
      destruct (tryBlock_cases endpoint self prompt personality length model set w)
        as [(set' & E & Hs) | (Hno & _ & _ & fb & Hfb & E)]; rewrite E.
      * destruct (retries attempt _) eqn:Hr.
        -- assert (Hlt : attempt < MAX_RETRIES).
           { destruct (settle _) as [v|e|]; simpl in Hr; try discriminate.
             apply andb_prop in Hr. destruct Hr as [_ Hl].
             apply negb_true_iff, Z.eqb_neq in Hl. lia. }
           destruct (IH (attempt + 1) set'
                        (delay (INITIAL_RETRY_DELAY_MS * 2 ^ attempt)
                           (sent (buildRequest prompt personality length model) w))
                        ltac:(lia))
             as (l & El & Hl & _).
           exists (Fetch (buildRequest prompt personality length model)
                     :: Delay (INITIAL_RETRY_DELAY_MS * 2 ^ attempt) :: l).
           rewrite El. unfold delay, emit, sent. cbn [log].
           rewrite <- !app_assoc. split; [reflexivity|]. split; [|lia].
           intros _. specialize (Hl ltac:(lia)).
           rewrite waited_Fetch, waited_Delay, invocations_Fetch, invocations_Delay.
           rewrite Hpow in Hl. unfold INITIAL_RETRY_DELAY_MS in *. lia.
        -- exists [Fetch (buildRequest prompt personality length model)].
           cbn [snd]. split; [reflexivity|]. split; [|lia].
           intros _. rewrite waited_Fetch, invocations_Fetch, waited_nil, invocations_nil.
           cbn [List.length]. unfold INITIAL_RETRY_DELAY_MS. lia.
      * destruct (Hself fb (Js.Set_add set model)
                    (sent (buildRequest prompt personality length model) w))
          as (lc & Ec & Hc).
        destruct (retries attempt _) eqn:Hr.
        -- assert (Hlt : attempt < MAX_RETRIES).
           { destruct (fst (self fb _ _)) as [v|e|]; simpl in Hr; try discriminate.
             apply andb_prop in Hr. destruct Hr as [_ Hl].
             apply negb_true_iff, Z.eqb_neq in Hl. lia. }
           destruct (IH (attempt + 1) (Js.Set_add set model)
                        (delay (INITIAL_RETRY_DELAY_MS * 2 ^ attempt)
                           (snd (self fb (Js.Set_add set model)
                                   (sent (buildRequest prompt personality length model) w))))
                        ltac:(lia))
             as (l & El & Hl & _).
           exists (Fetch (buildRequest prompt personality length model)
                     :: lc ++ Delay (INITIAL_RETRY_DELAY_MS * 2 ^ attempt) :: l).
           rewrite El. unfold delay, emit. cbn [log]. rewrite Ec.
           unfold sent. cbn [log]. rewrite <- !app_assoc.
           split; [reflexivity|]. split; [|lia].
           intros _. specialize (Hl ltac:(lia)).
           rewrite waited_Fetch, invocations_Fetch, waited_app, invocations_app,
             waited_Delay, invocations_Delay, length_app, Nat2Z.inj_add.
           rewrite Hpow in Hl. unfold INITIAL_RETRY_DELAY_MS in *. lia.
        -- exists (Fetch (buildRequest prompt personality length model) :: lc).
           cbn [snd]. rewrite Ec. unfold sent. cbn [log].
           rewrite <- app_assoc. split; [reflexivity|]. split; [|lia].
           intros _. rewrite waited_Fetch, invocations_Fetch.
           unfold INITIAL_RETRY_DELAY_MS. lia.
    + exists []. cbn [retryLoop]. pose proof Hgt as Hgt'.
      apply Z.leb_gt in Hgt'. rewrite Hgt'. cbn [snd].
      rewrite app_nil_r. split; [reflexivity|]. split; [lia | reflexivity].
Qed.

Lemma callGroqAt_waited (depth : nat) :
  forall model tried w, exists l,
    log (snd (callGroqAt endpoint depth prompt personality length model tried w))
    = log w ++ l
    /\ waited l <= 7000 * Z.of_nat (List.length (invocations l)).
Proof.
  induction depth as [|depth IH]; intros model tried w.
  - exists []. cbn [callGroqAt snd]. rewrite app_nil_r. split; [reflexivity|].
    rewrite waited_nil, invocations_nil. cbn [List.length]. lia.
  - rewrite callGroqAt_S.
    destruct (retryLoop_waited _ model IH loopFuel 0 (Js.new_Set tried)
                (emit (Invoke model tried) w) ltac:(lia)) as (l & El & Hl & _).
    exists (Invoke model tried :: l). rewrite El. unfold emit. cbn [log].
    rewrite <- app_assoc. split; [reflexivity|].
    specialize (Hl ltac:(unfold MAX_RETRIES; lia)).
    rewrite waited_Invoke. cbn [invocations flat_map app List.length].
    change (flat_map _ l) with (invocations l).
    unfold INITIAL_RETRY_DELAY_MS in Hl. change (2 ^ 0) with 1 in Hl. lia.
Qed.

(** A call spends at most 7 s in backoff waits per invocation of
    [callGroq], and at most 49 s in all. *)
Theorem complete_waited_bounded (model : option string) :
  let w := snd (complete endpoint prompt personality length model) in
  waited (log w) <= 7000 * Z.of_nat (List.length (invocations (log w)))
  /\ waited (log w) <= 49000.
Proof.
  intros w.
  assert (H1 : waited (log w) <= 7000 * Z.of_nat (List.length (invocations (log w)))).
  { subst w. unfold complete, callGroq.
    destruct (callGroqAt_waited maxDepth (startAlias model) [] start) as (l & El & Hl).
    rewrite El. exact Hl. }
  split; [exact H1|].
  destruct (callGroqAt_S_invocations endpoint prompt personality length
              (List.length MODEL_FALLBACK_ORDER) (startAlias model) [] start)
    as (l & rest & El & Er & Hnd & Hr).
  change (log start ++ l) with l in El.
  assert (Ew : log w = l) by (subst w; exact El).
  rewrite Ew, Er in H1.
  assert (Hincl : incl rest MODEL_FALLBACK_ORDER) by (intros a Ha; apply Hr, Ha).
  pose proof (NoDup_incl_length Hnd Hincl) as Hlen.
  rewrite Ew. simpl List.length in *. lia.
Qed.

End Waiting.

(** * The debate endpoint *)

(** ** The rate limiter *)

Lemma own_Map_set_same (m : RateLimiter) (key : string) (value : ClientData) :
  Js.own (Map_set m key value) key = Some value.
Proof.
  induction m as [|[k v] rest IH]; simpl.
  - now rewrite String.eqb_refl.
  - destruct (String.eqb key k) eqn:E; simpl; rewrite E; [reflexivity | exact IH].
Qed.

Lemma own_Map_set_other (m : RateLimiter) (key key' : string) (value : ClientData) :
  key' <> key -> Js.own (Map_set m key value) key' = Js.own m key'.
Proof.
  intros Hne. induction m as [|[k v] rest IH]; simpl.
  - apply String.eqb_neq in Hne. now rewrite Hne.
  - destruct (String.eqb_spec key k) as [->|Hk]; simpl.
    + apply String.eqb_neq in Hne. now rewrite Hne.
    + destruct (String.eqb key' k); [reflexivity | exact IH].
Qed.

Lemma own_cleanUp_kept (now : Z) (m : RateLimiter) (key : string) (data : ClientData) :
  Js.own m key = Some data ->
  now - timestamp data <= RATE_LIMIT_WINDOW_MS ->
  Js.own (cleanUp now m) key = Some data.
Proof.
  intros Hown Hage. induction m as [|[k v] rest IH]; simpl in *; [discriminate|].
  destruct (String.eqb key k) eqn:E.
  - inversion Hown; subst v.
    replace (now - timestamp data >? RATE_LIMIT_WINDOW_MS) with false
      by (rewrite Z.gtb_ltb; symmetry; apply Z.ltb_ge; lia).
    simpl. now rewrite E.
  - destruct (negb _); simpl; [rewrite E|]; apply IH, Hown.
Qed.

Lemma own_cleanUp_absent (now : Z) (m : RateLimiter) (key : string) :
  Js.own m key = None -> Js.own (cleanUp now m) key = None.
Proof.
  induction m as [|[k v] rest IH]; simpl; [reflexivity|].
  destruct (String.eqb key k) eqn:E; [discriminate|].
  intros H. destruct (negb _); simpl; [rewrite E|]; apply IH, H.
Qed.

(** After the clean-up no entry is older than the window. *)
Lemma cleanUp_recent (now : Z) (m : RateLimiter) (key : string) (data : ClientData) :
  In (key, data) (cleanUp now m) ->
  now - timestamp data <= RATE_LIMIT_WINDOW_MS.
Proof.
  unfold cleanUp. rewrite filter_In. intros [_ H]. simpl in H.
  apply negb_true_iff in H. rewrite Z.gtb_ltb in H. apply Z.ltb_ge in H. exact H.
Qed.

Section Limiter.

Variable limit : Z.
Variable keyMissing : string.
Variable call : string -> Personality -> string -> option string -> World
                -> Completion * World.
Variable blank : string -> bool.
Variable apiKey : option string.

(** A client that has used up its quota and comes back before the window
    of its record is over is answered 429: nothing is validated, the
    completion service is not called, and its record stays as it is. *)
Theorem quota_used_up
    (clientIp : string) (now : Z) (body : Body.t) (limiter : RateLimiter)
    (w : World) (data : ClientData) :
  Js.own limiter clientIp = Some data ->
  limit <= count data ->
  now - timestamp data < RATE_LIMIT_WINDOW_MS ->
  postDebate limit keyMissing call blank apiKey clientIp now body limiter w
  = (Replied 429 (ErrorPayload
       "Too many requests. Please wait a minute before starting another debate."
       None), cleanUp now limiter, w)
  /\ Js.own (cleanUp now limiter) clientIp = Some data.
Proof.
  intros Hown Hfull Hage.
  assert (Hkept : Js.own (cleanUp now limiter) clientIp = Some data)
    by (apply own_cleanUp_kept; [assumption | lia]).
  split; [|exact Hkept].
  unfold postDebate, rateLimit. rewrite Hkept.
  replace (count data >=? limit) with true by (symmetry; apply Z.geb_le; lia).
  replace (now - timestamp data <? RATE_LIMIT_WINDOW_MS) with true
    by (symmetry; apply Z.ltb_lt; lia).
  reflexivity.
Qed.

(** At the very millisecond at which the window of its record ends, a
    client is let through however often it has come: the counter goes up
    by one and the window is not restarted. *)
Theorem window_edge_passes
    (clientIp : string) (now : Z) (limiter : RateLimiter) (data : ClientData) :
  Js.own limiter clientIp = Some data ->
  now - timestamp data = RATE_LIMIT_WINDOW_MS ->
  fst (rateLimit limit clientIp now limiter) = true
  /\ Js.own (snd (rateLimit limit clientIp now limiter)) clientIp
     = Some {| count := count data + 1; timestamp := timestamp data |}.
Proof.
  intros Hown Hedge.
  assert (Hkept : Js.own (cleanUp now limiter) clientIp = Some data)
    by (apply own_cleanUp_kept; [assumption | lia]).
  unfold rateLimit. rewrite Hkept.
  replace (now - timestamp data <? RATE_LIMIT_WINDOW_MS) with false
    by (symmetry; apply Z.ltb_ge; lia).
  rewrite andb_false_r.
  replace (now - timestamp data >? RATE_LIMIT_WINDOW_MS) with false
    by (rewrite Z.gtb_ltb; symmetry; apply Z.ltb_ge; lia).
  simpl. split; [reflexivity | apply own_Map_set_same].
Qed.

End Limiter.

Lemma quota_used_up_witness :
  fst (fst (groqDebate numbered asciiBlank (Some "gsk_key") "203.0.113.7" 59999
              sampleBody
              [("203.0.113.7", {| count := 20; timestamp := 0 |})] start))
  = Replied 429 (ErrorPayload
      "Too many requests. Please wait a minute before starting another debate."
      None).
Proof.
  unfold groqDebate.
  rewrite (proj1 (quota_used_up MAX_DEBATES_PER_WINDOW _ _ asciiBlank (Some "gsk_key")
                    "203.0.113.7" 59999 sampleBody
                    [("203.0.113.7", {| count := 20; timestamp := 0 |})] start
                    {| count := 20; timestamp := 0 |} eq_refl
                    ltac:(unfold MAX_DEBATES_PER_WINDOW; simpl; lia)
                    ltac:(unfold RATE_LIMIT_WINDOW_MS; simpl; lia))).
  reflexivity.
Defined.

Lemma window_edge_passes_witness :
  fst (rateLimit MAX_DEBATES_PER_WINDOW "203.0.113.7" 60000
         [("203.0.113.7", {| count := 500; timestamp := 0 |})]) = true.
Proof.
  exact (proj1 (window_edge_passes MAX_DEBATES_PER_WINDOW "203.0.113.7" 60000
                  [("203.0.113.7", {| count := 500; timestamp := 0 |})]
                  {| count := 500; timestamp := 0 |} eq_refl eq_refl)).
Defined.

(** ** The quota over a run of requests *)

Section Quota.

Variable limit : Z.
Variable clientIp : string.
Variable windowStart : Z.

Lemma serve_within_window (arrivals : list (string * Z)) :
  forall limiter,
    (forall a, In a arrivals ->
       windowStart <= snd a < windowStart + RATE_LIMIT_WINDOW_MS) ->
    (forall data, Js.own limiter clientIp = Some data ->
       windowStart <= timestamp data) ->
    passedOf clientIp arrivals (serve limit limiter arrivals)
    <= Z.max 0 (limit - counted limiter clientIp).
Proof.
  induction arrivals as [|[ip now] arrivals IH]; intros limiter Htimes Hrec.
  - simpl. lia.
  - assert (Hnow : windowStart <= now < windowStart + RATE_LIMIT_WINDOW_MS)
      by (apply (Htimes (ip, now)); now left).
    assert (Hrest : forall a, In a arrivals ->
              windowStart <= snd a < windowStart + RATE_LIMIT_WINDOW_MS)
      by (intros a Ha; apply Htimes; now right).
    assert (Hclean : Js.own (cleanUp now limiter) clientIp = Js.own limiter clientIp).
    { destruct (Js.own limiter clientIp) as [data|] eqn:E.
      - apply own_cleanUp_kept; [exact E|]. specialize (Hrec data eq_refl). lia.
      - now apply own_cleanUp_absent. }
    cbn [serve]. destruct (rateLimit limit ip now limiter) as [passed limiter'] eqn:Ea.
    cbn [passedOf].
    destruct (String.eqb_spec ip clientIp) as [->|Hother].
    + unfold rateLimit in Ea. rewrite Hclean in Ea.
      unfold counted at 1.
      destruct (Js.own limiter clientIp) as [data|] eqn:E.
      * specialize (Hrec data eq_refl).
        replace (now - timestamp data <? RATE_LIMIT_WINDOW_MS) with true in Ea
          by (symmetry; apply Z.ltb_lt; lia).
        replace (now - timestamp data >? RATE_LIMIT_WINDOW_MS) with false in Ea
          by (rewrite Z.gtb_ltb; symmetry; apply Z.ltb_ge; lia).
        rewrite andb_true_r in Ea.
        destruct (Z.geb_spec (count data) limit) as [Hfull|Hroom];
          inversion Ea; subst passed limiter'; simpl andb; cbv iota.
        -- specialize (IH (cleanUp now limiter) Hrest).
           unfold counted in IH. rewrite Hclean in IH.
           specialize (IH ltac:(intros d Hd; inversion Hd; now subst)).
           lia.
        -- specialize (IH (Map_set (cleanUp now limiter) clientIp
                             {| count := count data + 1; timestamp := timestamp data |})
                          Hrest).
           unfold counted in IH. rewrite own_Map_set_same in IH.
           specialize (IH ltac:(intros d Hd; inversion Hd; now subst)).
           cbn [count] in IH. lia.
      * replace (now - timestamp {| count := 0; timestamp := now |}) with 0 in Ea
          by (simpl; lia).
        change (0 <? RATE_LIMIT_WINDOW_MS) with true in Ea.
        change (0 >? RATE_LIMIT_WINDOW_MS) with false in Ea.
        rewrite andb_true_r in Ea. simpl count in Ea.
        destruct (Z.geb_spec 0 limit) as [Hfull|Hroom];
          inversion Ea; subst passed limiter'; simpl andb; cbv iota.
        -- specialize (IH (cleanUp now limiter) Hrest).
           unfold counted in IH. rewrite Hclean in IH.
           specialize (IH ltac:(intros d Hd; discriminate)).
           lia.
        -- specialize (IH (Map_set (cleanUp now limiter) clientIp
                             {| count := 1; timestamp := now |})
                          Hrest).
           unfold counted in IH. rewrite own_Map_set_same in IH.
           specialize (IH ltac:(intros d Hd; inversion Hd; subst; simpl; lia)).
           cbn [count] in IH. lia.
    + assert (Hsame : Js.own limiter' clientIp = Js.own limiter clientIp).
      { unfold rateLimit in Ea.
        destruct (_ && _) in Ea; inversion Ea; subst limiter'.
        - exact Hclean.
        - rewrite own_Map_set_other by (intros Heq; apply Hother; now symmetry).
          exact Hclean. }
      specialize (IH limiter' Hrest).
      unfold counted in *. rewrite Hsame in IH.
      specialize (IH Hrec). simpl andb. cbv iota. lia.
Qed.

(** A client the limiter has no record of is let through at most [limit]
    times by any run of requests, its own and those of others, that
    spans less than one window. *)
Theorem quota_within_window (arrivals : list (string * Z)) (limiter : RateLimiter) :
  0 <= limit ->
  Js.own limiter clientIp = None ->
  (forall a, In a arrivals ->
     windowStart <= snd a < windowStart + RATE_LIMIT_WINDOW_MS) ->
  passedOf clientIp arrivals (serve limit limiter arrivals) <= limit.
Proof.
  intros Hlimit Hnone Htimes.
  pose proof (serve_within_window arrivals limiter Htimes) as H.
  unfold counted in H. rewrite Hnone in H.
  specialize (H ltac:(intros d Hd; discriminate)). lia.
Qed.

End Quota.

Lemma quota_within_window_witness :
  passedOf "203.0.113.7"
    [("203.0.113.7", 10); ("198.51.100.2", 11); ("203.0.113.7", 12);
     ("203.0.113.7", 59000)]
    (serve 2 [] [("203.0.113.7", 10); ("198.51.100.2", 11); ("203.0.113.7", 12);
                 ("203.0.113.7", 59000)])
  <= 2.
Proof.
  apply (quota_within_window 2 "203.0.113.7" 0).
  - lia.
  - reflexivity.
  - intros a Ha. simpl in Ha. unfold RATE_LIMIT_WINDOW_MS.
    destruct Ha as [<-|[<-|[<-|[<-|[]]]]]; simpl; lia.
Defined.

(** ** Validation *)

Lemma has_property_iff {A : Type} (obj : list (string * A)) (key : string) :
  Js.has_property key obj = true
  <-> In key (Js.keys obj) \/ In key Js.Object_prototype.
Proof.
  unfold Js.has_property, Js.get.
  destruct (Js.own obj key) as [v|] eqn:E.
  - split; [intros _; left; apply own_keys; now exists v | reflexivity].
  - destruct (Js.mem key Js.Object_prototype) eqn:M.
    + split; [intros _; right; now apply mem_In | reflexivity].
    + split; [discriminate|].
      intros [H|H].
      * apply own_keys in H. destruct H as [v Hv]. congruence.
      * apply mem_In in H. congruence.
Qed.

Lemma truthy_iff (s : string) : Js.truthy s = true <-> s <> "".
Proof.
  unfold Js.truthy. rewrite negb_true_iff. apply String.eqb_neq.
Qed.

(** For a body in which [rounds] is an integer or missing and [topic] and
    [responseLength] are strings or missing, the checks pass exactly when
    the topic is there and is neither empty nor blank, the number of
    rounds is there and lies between 1 and 10, the length tier is there
    and names a property of the table of lengths (one of its three keys,
    or a member it inherits), and the API key is set. *)
Theorem validate_accepts
    (keyMissing : string) (blank : string -> bool) (apiKey : option string)
    (body : Body.t) :
  validate keyMissing blank apiKey body = None
  <-> exists topic rounds responseLength key,
        Body.topic body = Some topic /\ topic <> "" /\ blank topic = false
        /\ Body.rounds body = Some rounds /\ 1 <= rounds <= 10
        /\ Body.responseLength body = Some responseLength
        /\ (In responseLength ["short"; "medium"; "long"]
            \/ In responseLength Js.Object_prototype)
        /\ apiKey = Some key /\ key <> "".
Proof.
  unfold validate. split.
  - destruct (Body.topic body) as [topic|]; [|discriminate].
    destruct (Js.truthy topic) eqn:Ht; [|discriminate].
    destruct (blank topic) eqn:Hb; [discriminate|]. simpl.
    destruct (Body.rounds body) as [rounds|]; [|discriminate].
    destruct (Z.eqb_spec rounds 0); [discriminate|].
    destruct (Z.ltb_spec rounds 1); [discriminate|].
    destruct (Z.gtb_spec rounds 10); [discriminate|]. simpl.
    destruct (Body.responseLength body) as [responseLength|]; [|discriminate].
    destruct (Js.truthy responseLength); [|discriminate].
    destruct (Js.has_property responseLength RESPONSE_LENGTHS) eqn:Hp; [|discriminate].
    simpl.
    destruct apiKey as [key|]; [|discriminate].
    destruct (Js.truthy key) eqn:Hk; [|discriminate].
    intros _. exists topic, rounds, responseLength, key.
    repeat split; try lia; try (now apply truthy_iff); try assumption.
    apply (has_property_iff RESPONSE_LENGTHS). exact Hp.
  - intros (topic & rounds & responseLength & key & -> & Ht & Hb & -> & Hr
            & -> & Hp & -> & Hk).
    apply truthy_iff in Ht, Hk. rewrite Ht, Hb, Hk. simpl.
    destruct (Z.eqb_spec rounds 0); [lia|].
    destruct (Z.ltb_spec rounds 1); [lia|].
    destruct (Z.gtb_spec rounds 10); [lia|]. simpl.
    apply (has_property_iff RESPONSE_LENGTHS) in Hp. rewrite Hp.
    assert (Hn : Js.truthy responseLength = true).
    { apply truthy_iff. intros ->. discriminate Hp. }
    rewrite Hn. reflexivity.
Qed.

Lemma validate_rounds
    (keyMissing : string) (blank : string -> bool) (apiKey : option string)
    (body : Body.t) (rounds : Z) :
  validate keyMissing blank apiKey body = None ->
  Body.rounds body = Some rounds ->
  1 <= rounds <= 10.
Proof.
  unfold validate. intros H Hr. rewrite Hr in H.
  destruct (match Body.topic body with Some _ => _ | None => _ end);
    [discriminate|].
  destruct (Z.eqb_spec rounds 0); [discriminate|].
  destruct (Z.ltb_spec rounds 1); [discriminate|].
  destruct (Z.gtb_spec rounds 10); [discriminate|]. lia.
Qed.

Lemma own_In {A : Type} (obj : list (string * A)) (key : string) (v : A) :
  Js.own obj key = Some v -> In (key, v) obj.
Proof.
  induction obj as [|[k a] rest IH]; simpl; [discriminate|].
  destruct (String.eqb_spec key k) as [->|_].
  - intros H. inversion H. now left.
  - intros H. right. now apply IH.
Qed.

(** A request that is let through raises the counter of its client by
    exactly one: the clean-up has already removed a record whose window is
    over, so the counter never restarts at one from an old record. *)
Lemma rateLimit_counts (limit : Z) (clientIp : string) (now : Z) (limiter : RateLimiter) :
  fst (rateLimit limit clientIp now limiter) = true ->
  counted (snd (rateLimit limit clientIp now limiter)) clientIp
  = counted (cleanUp now limiter) clientIp + 1.
Proof.
  unfold rateLimit, counted.
  destruct (Js.own (cleanUp now limiter) clientIp) as [data|] eqn:E.
  - pose proof (cleanUp_recent now limiter clientIp data (own_In _ _ _ E)) as Hage.
    destruct (_ && _); [discriminate|]. intros _. cbn [snd].
    rewrite own_Map_set_same.
    replace (now - timestamp data >? RATE_LIMIT_WINDOW_MS) with false
      by (rewrite Z.gtb_ltb; symmetry; apply Z.ltb_ge; lia).
    reflexivity.
  - destruct (_ && _); [discriminate|]. intros _. cbn [snd].
    rewrite own_Map_set_same. cbn [timestamp count].
    replace (now - now) with 0 by lia. reflexivity.
Qed.

(** A request that fails a check is answered with the status and message
    of that check and the completion service is not called; it has
    nevertheless been counted against the quota of its client. *)
Theorem invalid_request_counted
    (limit : Z) (keyMissing : string)
    (call : string -> Personality -> string -> option string -> World
            -> Completion * World)
    (blank : string -> bool) (apiKey : option string)
    (clientIp : string) (now : Z) (body : Body.t) (limiter : RateLimiter)
    (w : World) (statusCode : Z) (error : string) :
  fst (rateLimit limit clientIp now limiter) = true ->
  validate keyMissing blank apiKey body = Some (statusCode, error) ->
  postDebate limit keyMissing call blank apiKey clientIp now body limiter w
  = (Replied statusCode (ErrorPayload error None),
     snd (rateLimit limit clientIp now limiter), w)
  /\ counted (snd (rateLimit limit clientIp now limiter)) clientIp
     = counted (cleanUp now limiter) clientIp + 1.
Proof.
  intros Hpass Hinvalid. split; [|now apply rateLimit_counts].
  unfold postDebate.
  destruct (rateLimit limit clientIp now limiter) as [passed limiter'].
  simpl in Hpass. subst passed. rewrite Hinvalid. reflexivity.
Qed.

Lemma invalid_request_counted_witness :
  groqDebate numbered asciiBlank (Some "gsk_key") "203.0.113.7" 1000
             noTopicBody [] start
  = (Replied 400 (ErrorPayload "Topic is required" None),
     [("203.0.113.7", {| count := 1; timestamp := 1000 |})], start).
Proof.
  exact (proj1 (invalid_request_counted MAX_DEBATES_PER_WINDOW _ _ asciiBlank
                  (Some "gsk_key") "203.0.113.7" 1000 noTopicBody [] start
                  400 "Topic is required" eq_refl eq_refl)).
Defined.

(** ** The rounds of a debate *)

Lemma roundNumbers_S (first : Z) (n : nat) :
  roundNumbers first (S n) = first :: roundNumbers (first + 1) n.
Proof.
  unfold roundNumbers. cbn [seq map]. f_equal; [lia|].
  rewrite <- seq_shift, map_map. apply map_ext. intros k. lia.
Qed.

Lemma string_app_assoc (a b c : string) :
  ((a ++ b) ++ c)%string = (a ++ b ++ c)%string.
Proof. induction a as [|x a IH]; simpl; [reflexivity | now rewrite IH]. Qed.

Section Rounds.

Variable call : string -> Personality -> string -> option string -> World
                -> Completion * World.
Variable bound : nat.

Hypothesis call_ends : forall prompt personality length model w,
  fst (call prompt personality length model w) <> OutOfFuel.
Hypothesis call_bound : forall prompt personality length model w,
  (calls (snd (call prompt personality length model w)) <= calls w + bound)%nat.
Hypothesis call_requests : forall prompt personality length model w,
  exists l, log (snd (call prompt personality length model w)) = log w ++ l
            /\ Forall (wellFormed prompt personality length) (requests l).

Lemma wellFormed_debateRequest (topic responseLength rest : string)
    (personality : Personality) (r : Request) :
  personality = AGENT_PERSONALITIES_pro \/ personality = AGENT_PERSONALITIES_con ->
  wellFormed (initialContext topic ++ rest)%string personality responseLength r ->
  debateRequest topic responseLength r.
Proof.
  intros Hp (Hm & _ & Ht). exists personality, rest.
  split; [exact Hp|]. split; [exact Hm|].
  rewrite Ht. symmetry. apply maxTokens_budget.
Qed.

Lemma generateRounds_shape (rounds : Z) (topic responseLength : string)
    (model : option string) (fuel : nat) :
  forall i rest debateRounds w,
    (Z.to_nat (rounds - i + 1) < fuel)%nat ->
    let run := generateRounds call fuel i rounds topic responseLength model
                 (initialContext topic ++ rest)%string debateRounds w in
    (calls (snd run) <= calls w + 2 * bound * Z.to_nat (rounds - i + 1))%nat
    /\ (exists l, log (snd run) = log w ++ l
                  /\ Forall (debateRequest topic responseLength) (requests l))
    /\ match fst run with
       | Finished l =>
           exists l', l = debateRounds ++ l'
                      /\ map round l' = roundNumbers i (Z.to_nat (rounds - i + 1))
       | Aborted error =>
           exists prompt personality w0 l0,
             (personality = AGENT_PERSONALITIES_pro
              \/ personality = AGENT_PERSONALITIES_con)
             /\ log w0 = log w ++ l0
             /\ call prompt personality responseLength model w0
                = (Throws error, snd run)
       | Starved => False
       end.
Proof.
  induction fuel as [|fuel IH]; intros i rest debateRounds w Hfuel; [lia|].
  cbn [generateRounds].
  destruct (Z.leb_spec i rounds) as [Hle|Hgt].
  - assert (Hn : Z.to_nat (rounds - i + 1) = S (Z.to_nat (rounds - (i + 1) + 1))).
    { rewrite <- Z2Nat.inj_succ by lia. f_equal. lia. }
    rewrite Hn.
    pose proof (call_ends (proPrompt (initialContext topic ++ rest) i topic)
                  AGENT_PERSONALITIES_pro responseLength model w) as Hend1.
    pose proof (call_bound (proPrompt (initialContext topic ++ rest) i topic)
                  AGENT_PERSONALITIES_pro responseLength model w) as Hb1.
    destruct (call_requests (proPrompt (initialContext topic ++ rest) i topic)
                AGENT_PERSONALITIES_pro responseLength model w) as (l1 & El1 & Hl1).
    assert (Hd1 : Forall (debateRequest topic responseLength) (requests l1)).
    { eapply Forall_impl; [|exact Hl1]. intros r Hr.
      unfold proPrompt in Hr. rewrite string_app_assoc in Hr.
      eapply wellFormed_debateRequest; [left; reflexivity | exact Hr]. }
    destruct (call (proPrompt _ i topic) AGENT_PERSONALITIES_pro
                   responseLength model w) as [[proResponse|e|] w1] eqn:Epro;
      cbn [fst snd] in *.
    + pose proof (call_ends (conPrompt (initialContext topic ++ rest) i
                               (rendered proResponse) topic)
                    AGENT_PERSONALITIES_con responseLength model w1) as Hend2.
      pose proof (call_bound (conPrompt (initialContext topic ++ rest) i
                                (rendered proResponse) topic)
                    AGENT_PERSONALITIES_con responseLength model w1) as Hb2.
      destruct (call_requests (conPrompt (initialContext topic ++ rest) i
                                 (rendered proResponse) topic)
                  AGENT_PERSONALITIES_con responseLength model w1)
        as (l2 & El2 & Hl2).
      assert (Hd2 : Forall (debateRequest topic responseLength) (requests l2)).
      { eapply Forall_impl; [|exact Hl2]. intros r Hr.
        unfold conPrompt in Hr. rewrite string_app_assoc in Hr.
        eapply wellFormed_debateRequest; [right; reflexivity | exact Hr]. }
      destruct (call (conPrompt _ i (rendered proResponse) topic)
                     AGENT_PERSONALITIES_con responseLength model w1)
        as [[conResponse|e|] w2] eqn:Econ; cbn [fst snd] in *.
      * unfold nextContext. rewrite string_app_assoc.
        match goal with
        | |- context [generateRounds call fuel (i + 1) rounds topic responseLength
                        model (initialContext topic ++ ?r)%string ?acc w2] =>
            specialize (IH (i + 1) r acc w2 ltac:(lia))
        end.
        cbv zeta in IH. destruct IH as (Hc & (l3 & El3 & Hl3) & Hshape).
        split; [lia|]. split.
        -- exists (l1 ++ l2 ++ l3). rewrite El3, El2, El1, <- !app_assoc.
           split; [reflexivity|].
           rewrite !requests_app. rewrite !Forall_app. auto.
        -- destruct (fst (generateRounds _ _ _ _ _ _ _ _ _ _)) as [l|e|];
             try exact Hshape.
           ++ destruct Hshape as (l' & -> & Hnum).
              eexists. rewrite <- app_assoc. split; [reflexivity|].
              rewrite roundNumbers_S. cbn [map app round]. now rewrite Hnum.
           ++ destruct Hshape as (p & pers & w0 & l0 & Hp & El0 & Ecall).
              exists p, pers, w0, (l1 ++ l2 ++ l0).
              split; [exact Hp|]. split; [|exact Ecall].
              rewrite El0, El2, El1, <- !app_assoc. reflexivity.
      * split; [nia|]. split.
        -- exists (l1 ++ l2). rewrite El2, El1, <- app_assoc.
           split; [reflexivity|]. rewrite requests_app, Forall_app. auto.
        -- exists (conPrompt (initialContext topic ++ rest) i
                             (rendered proResponse) topic),
                  AGENT_PERSONALITIES_con, w1, l1.
           split; [right; reflexivity|]. split; [exact El1 | exact Econ].
      * contradiction.
    + split; [nia|]. split; [exists l1; auto|].
      exists (proPrompt (initialContext topic ++ rest) i topic),
             AGENT_PERSONALITIES_pro, w, [].
      split; [left; reflexivity|]. split; [|exact Epro].
      now rewrite app_nil_r.
    + contradiction.
  - replace (Z.to_nat (rounds - i + 1)) with 0%nat by lia.
    cbn [fst snd]. split; [lia|]. split.
    + exists []. rewrite app_nil_r. split; [reflexivity | constructor].
    + exists []. rewrite app_nil_r. split; reflexivity.
Qed.

End Rounds.

Section ValidRequest.

Variable limit : Z.
Variable keyMissing : string.
Variable call : string -> Personality -> string -> option string -> World
                -> Completion * World.
Variable blank : string -> bool.
Variable apiKey : option string.
Variable bound : nat.

Hypothesis call_ends : forall prompt personality length model w,
  fst (call prompt personality length model w) <> OutOfFuel.
Hypothesis call_bound : forall prompt personality length model w,
  (calls (snd (call prompt personality length model w)) <= calls w + bound)%nat.
Hypothesis call_requests : forall prompt personality length model w,
  exists l, log (snd (call prompt personality length model w)) = log w ++ l
            /\ Forall (wellFormed prompt personality length) (requests l).

Lemma postDebate_valid
    (clientIp : string) (now : Z) (body : Body.t) (limiter : RateLimiter) (w : World)
    (topic : string) (rounds : Z) (responseLength : string) :
  fst (rateLimit limit clientIp now limiter) = true ->
  validate keyMissing blank apiKey body = None ->
  Body.topic body = Some topic ->
  Body.rounds body = Some rounds ->
  Body.responseLength body = Some responseLength ->
  let result := postDebate limit keyMissing call blank apiKey clientIp now body
                           limiter w in
  (calls (snd result) <= calls w + 2 * bound * Z.to_nat rounds)%nat
  /\ (exists l, log (snd result) = log w ++ l
                /\ Forall (debateRequest topic responseLength) (requests l))
  /\ ((exists debateRounds,
         fst (fst result)
         = Replied 200 (Transcript topic debateRounds rounds responseLength
                          (Body.model body))
         /\ map round debateRounds = roundNumbers 1 (Z.to_nat rounds))
      \/ (exists error prompt personality w0 l0,
            fst (fst result)
            = Replied 500 (ErrorPayload "Failed to generate debate"
                             (Some (Js.message error)))
            /\ (personality = AGENT_PERSONALITIES_pro
                \/ personality = AGENT_PERSONALITIES_con)
            /\ log w0 = log w ++ l0
            /\ call prompt personality responseLength (Body.model body) w0
               = (Throws error, snd result))).
Proof.
  intros Hpass Hvalid Ht Hr Hl. unfold postDebate.
  destruct (rateLimit limit clientIp now limiter) as [passed limiter'].
  simpl in Hpass. subst passed. rewrite Hvalid, Ht, Hr, Hl. cbn [rendered].
  pose proof (generateRounds_shape call bound call_ends call_bound call_requests
                rounds topic responseLength (Body.model body)
                (S (Z.to_nat rounds)) 1 "" [] w) as H.
  replace (initialContext topic ++ "")%string with (initialContext topic) in H.
  2:{ clear. induction (initialContext topic) as [|c s IH]; simpl;
        [reflexivity | now rewrite <- IH]. }
  replace (rounds - 1 + 1) with rounds in H by lia.
  specialize (H ltac:(lia)). cbv zeta in H.
  destruct H as (Hc & Hlog & Hshape).
  destruct (generateRounds _ _ _ _ _ _ _ _ _ _) as [[l|e|] w']; cbn [fst snd] in *.
  - repeat split; try assumption. left.
    destruct Hshape as (l' & -> & Hnum). exists l'. split; [reflexivity | exact Hnum].
  - repeat split; try assumption. right.
    destruct Hshape as (p & pers & w0 & l0 & Hp & El0 & Ecall).
    exists e, p, pers, w0, l0. auto.
  - contradiction.
Qed.

End ValidRequest.

(** ** The debate endpoint of the Groq server *)

Lemma callGroq_calls_28
    (endpoint : nat -> Request -> FetchOutcome)
    (prompt : string) (personality : Personality) (length : string)
    (model : string) (tried : list string) (w : World) :
  (calls (snd (callGroq endpoint prompt personality length model tried w))
   <= calls w + 28)%nat.
Proof.
  unfold callGroq.
  pose proof (callGroqAt_calls endpoint prompt personality length maxDepth
                model tried w) as H.
  pose proof (untried_bound (Js.Set_add (Js.new_Set tried) model)) as Hu.
  simpl List.length in Hu.
  unfold requestBudget in H. destruct (canFallBack _ _); lia.
Qed.

Lemma callGroq_ends
    (endpoint : nat -> Request -> FetchOutcome)
    (prompt : string) (personality : Personality) (length : string)
    (model : string) (tried : list string) (w : World) :
  fst (callGroq endpoint prompt personality length model tried w) <> OutOfFuel.
Proof.
  intros H.
  pose proof (callGroq_settled endpoint prompt personality length model tried w) as S.
  rewrite H in S. exact S.
Qed.

Lemma callGroq_requests
    (endpoint : nat -> Request -> FetchOutcome)
    (prompt : string) (personality : Personality) (length : string)
    (model : string) (tried : list string) (w : World) :
  exists l,
    log (snd (callGroq endpoint prompt personality length model tried w)) = log w ++ l
    /\ Forall (wellFormed prompt personality length) (requests l).
Proof.
  destruct (run_extends endpoint prompt personality length maxDepth model tried w)
    as (l & El & Hl & _).
  exists l. split; assumption.
Qed.

Lemma groqDebate_valid
    (endpoint : nat -> Request -> FetchOutcome)
    (blank : string -> bool) (GROQ_API_KEY : option string)
    (clientIp : string) (now : Z) (body : Body.t) (limiter : RateLimiter) (w : World)
    (topic : string) (rounds : Z) (responseLength : string) :
  fst (rateLimit MAX_DEBATES_PER_WINDOW clientIp now limiter) = true ->
  validate "Groq API key not configured. Please set GROQ_API_KEY in .env file."
           blank GROQ_API_KEY body = None ->
  Body.topic body = Some topic ->
  Body.rounds body = Some rounds ->
  Body.responseLength body = Some responseLength ->
  let result := groqDebate endpoint blank GROQ_API_KEY clientIp now body limiter w in
  (calls (snd result) <= calls w + 2 * 28 * Z.to_nat rounds)%nat
  /\ (exists l, log (snd result) = log w ++ l
                /\ Forall (debateRequest topic responseLength) (requests l))
  /\ ((exists debateRounds,
         fst (fst result)
         = Replied 200 (Transcript topic debateRounds rounds responseLength
                          (Body.model body))
         /\ map round debateRounds = roundNumbers 1 (Z.to_nat rounds))
      \/ (exists error prompt personality w0 l0,
            fst (fst result)
            = Replied 500 (ErrorPayload "Failed to generate debate"
                             (Some (Js.message error)))
            /\ (personality = AGENT_PERSONALITIES_pro
                \/ personality = AGENT_PERSONALITIES_con)
            /\ log w0 = log w ++ l0
            /\ callGroq endpoint prompt personality responseLength
                 (startAlias (Body.model body)) [] w0
               = (Throws error, snd result))).
Proof.
  intros Hpass Hvalid Ht Hr Hl.
  apply (postDebate_valid MAX_DEBATES_PER_WINDOW _
           (fun prompt personality length model =>
              callGroq endpoint prompt personality length (startAlias model) [])
           blank GROQ_API_KEY 28); try assumption.
  - intros p pers len m w0. apply callGroq_ends.
  - intros p pers len m w0. apply callGroq_calls_28.
  - intros p pers len m w0. apply callGroq_requests.
Qed.

(** A request that has passed the limiter and the checks, with an integer
    for [rounds], is always answered: with status 200 and a transcript of
    exactly [rounds] rounds, numbered from 1, or with status 500 and, as
    details, the message of the error thrown by the call of [callGroq],
    for the Pro or the Con agent, with which the run of the handler ends;
    never with part of a transcript.  At most 56 requests per round go out
    to the completion service, 560 in all. *)
Theorem groqDebate_outcome
    (endpoint : nat -> Request -> FetchOutcome)
    (blank : string -> bool) (GROQ_API_KEY : option string)
    (clientIp : string) (now : Z) (body : Body.t) (limiter : RateLimiter) (w : World)
    (topic : string) (rounds : Z) (responseLength : string) :
  fst (rateLimit MAX_DEBATES_PER_WINDOW clientIp now limiter) = true ->
  validate "Groq API key not configured. Please set GROQ_API_KEY in .env file."
           blank GROQ_API_KEY body = None ->
  Body.topic body = Some topic ->
  Body.rounds body = Some rounds ->
  Body.responseLength body = Some responseLength ->
  let result := groqDebate endpoint blank GROQ_API_KEY clientIp now body limiter w in
  ((exists debateRounds,
      fst (fst result)
      = Replied 200 (Transcript topic debateRounds rounds responseLength
                       (Body.model body))
      /\ map round debateRounds = roundNumbers 1 (Z.to_nat rounds))
   \/ (exists error prompt personality w0 l0,
         fst (fst result)
         = Replied 500 (ErrorPayload "Failed to generate debate"
                          (Some (Js.message error)))
         /\ (personality = AGENT_PERSONALITIES_pro
             \/ personality = AGENT_PERSONALITIES_con)
         /\ log w0 = log w ++ l0
         /\ callGroq endpoint prompt personality responseLength
              (startAlias (Body.model body)) [] w0
            = (Throws error, snd result)))
  /\ (calls (snd result) <= calls w + 56 * Z.to_nat rounds)%nat
  /\ (calls (snd result) <= calls w + 560)%nat.
Proof.
  intros Hpass Hvalid Ht Hr Hl result.
  destruct (groqDebate_valid endpoint blank GROQ_API_KEY clientIp now body limiter w
              topic rounds responseLength Hpass Hvalid Ht Hr Hl)
    as (Hc & _ & Hshape).
  fold result in Hc, Hshape.
  split; [exact Hshape|]. split; [lia|].
  pose proof (validate_rounds _ _ _ _ _ Hvalid Hr) as Hten.
  lia.
Qed.

Lemma groqDebate_outcome_witness :
  exists error prompt personality w0,
    fst (fst (groqDebate limitedThenUnreachable asciiBlank (Some "gsk_key")
                "203.0.113.7" 1000 sampleBody [] start))
    = Replied 500 (ErrorPayload "Failed to generate debate" (Some "fetch failed"))
    /\ Js.message error = "fetch failed"
    /\ callGroq limitedThenUnreachable prompt personality "short" "llama33" [] w0
       = (Throws error,
          snd (groqDebate limitedThenUnreachable asciiBlank (Some "gsk_key")
                 "203.0.113.7" 1000 sampleBody [] start)).
Proof.
  destruct (groqDebate_outcome limitedThenUnreachable asciiBlank
              (Some "gsk_key") "203.0.113.7" 1000 sampleBody [] start
              "Tea is better than coffee" 2 "short"
              eq_refl eq_refl eq_refl eq_refl eq_refl)
    as [[(debateRounds & E & _) | (e & p & pers & w0 & l0 & E & _ & _ & Ecall)] _].
  - vm_compute in E. discriminate E.
  - exists e, p, pers, w0. split; [vm_compute; reflexivity|].
    split; [|exact Ecall].
    vm_compute in E. injection E as Em. symmetry. exact Em.
Defined.

(** Every request that goes out for a debate carries, as system message,
    the style of the Pro or of the Con agent and, as user message, a
    prompt that begins with the header naming the topic; its token budget
    is the one of the length tier. *)
Theorem groqDebate_requests
    (endpoint : nat -> Request -> FetchOutcome)
    (blank : string -> bool) (GROQ_API_KEY : option string)
    (clientIp : string) (now : Z) (body : Body.t) (limiter : RateLimiter)
    (topic : string) (rounds : Z) (responseLength : string) :
  fst (rateLimit MAX_DEBATES_PER_WINDOW clientIp now limiter) = true ->
  validate "Groq API key not configured. Please set GROQ_API_KEY in .env file."
           blank GROQ_API_KEY body = None ->
  Body.topic body = Some topic ->
  Body.rounds body = Some rounds ->
  Body.responseLength body = Some responseLength ->
  Forall (debateRequest topic responseLength)
         (requests (log (snd (groqDebate endpoint blank GROQ_API_KEY clientIp now
                                body limiter start)))).
Proof.
  intros Hpass Hvalid Ht Hr Hl.
  destruct (groqDebate_valid endpoint blank GROQ_API_KEY clientIp now body limiter
              start topic rounds responseLength Hpass Hvalid Ht Hr Hl)
    as (_ & (l & El & Hreq) & _).
  rewrite El. exact Hreq.
Qed.

Lemma groqDebate_requests_witness :
  Forall (debateRequest "Tea is better than coffee" "short")
         (requests (log (snd (groqDebate twoOverloaded asciiBlank (Some "gsk_key")
                                "203.0.113.7" 1000 sampleBody [] start)))).
Proof.
  exact (groqDebate_requests twoOverloaded asciiBlank (Some "gsk_key")
           "203.0.113.7" 1000 sampleBody [] "Tea is better than coffee" 2 "short"
           eq_refl eq_refl eq_refl eq_refl eq_refl).
Defined.

Lemma answeredRounds_S (reply : nat -> option string) (first : Z) (base n : nat) :
  answeredRounds reply first base (S n)
  = {| round := first; pro := reply base; con := reply (S base) |}
      :: answeredRounds reply (first + 1) (S (S base)) n.
Proof.
  unfold answeredRounds. cbn [seq map]. f_equal.
  - f_equal; [lia | f_equal; lia | f_equal; lia].
  - rewrite <- seq_shift, map_map. apply map_ext. intros k.
    f_equal; [lia | f_equal; lia | f_equal; lia].
Qed.

Lemma callGroq_answered
    (endpoint : nat -> Request -> FetchOutcome)
    (prompt : string) (personality : Personality) (length : string)
    (model : string) (tried : list string) (w : World) (generated : string) :
  (forall r, generatedText (endpoint (calls w) r) = Some generated) ->
  callGroq endpoint prompt personality length model tried w
  = (Returns (Some generated),
     sent (buildRequest prompt personality length model) (emit (Invoke model tried) w)).
Proof.
  intros H. unfold callGroq, maxDepth. simpl List.length.
  apply frame_generated. apply H.
Qed.

Section Answered.

Variable call : string -> Personality -> string -> option string -> World
                -> Completion * World.
Variable reply : nat -> option string.

Hypothesis call_answered : forall prompt personality length model w,
  fst (call prompt personality length model w) = Returns (reply (calls w))
  /\ calls (snd (call prompt personality length model w)) = S (calls w)
  /\ waited (log (snd (call prompt personality length model w))) = waited (log w).

Lemma generateRounds_answered
    (rounds : Z) (topic responseLength : string) (model : option string) :
  forall fuel i context debateRounds w,
    (Z.to_nat (rounds - i + 1) < fuel)%nat ->
    let run := generateRounds call fuel i rounds topic responseLength model
                 context debateRounds w in
    fst run = Finished (debateRounds
                          ++ answeredRounds reply i (calls w)
                               (Z.to_nat (rounds - i + 1)))
    /\ calls (snd run) = (calls w + 2 * Z.to_nat (rounds - i + 1))%nat
    /\ waited (log (snd run)) = waited (log w).
Proof.
  induction fuel as [|fuel IH]; intros i context debateRounds w Hfuel; [lia|].
  cbn [generateRounds].
  destruct (Z.leb_spec i rounds) as [Hle|Hgt].
  - assert (Hn : Z.to_nat (rounds - i + 1) = S (Z.to_nat (rounds - (i + 1) + 1))).
    { rewrite <- Z2Nat.inj_succ by lia. f_equal. lia. }
    rewrite Hn.
    destruct (call_answered (proPrompt context i topic) AGENT_PERSONALITIES_pro
                responseLength model w) as (E1 & C1 & W1).
    destruct (call (proPrompt context i topic) AGENT_PERSONALITIES_pro
                   responseLength model w) as [r1 w1].
    cbn [fst snd] in E1, C1, W1. subst r1.
    destruct (call_answered (conPrompt context i (rendered (reply (calls w))) topic)
                AGENT_PERSONALITIES_con responseLength model w1) as (E2 & C2 & W2).
    destruct (call (conPrompt context i (rendered (reply (calls w))) topic)
                   AGENT_PERSONALITIES_con responseLength model w1) as [r2 w2].
    cbn [fst snd] in E2, C2, W2. subst r2.
    match goal with
    | |- context [generateRounds call fuel (i + 1) rounds topic responseLength model
                    ?c ?acc w2] =>
        specialize (IH (i + 1) c acc w2 ltac:(lia))
    end.
    cbv zeta in IH. destruct IH as (E & Hc & Hw).
    cbv beta iota zeta.
    rewrite E, Hc, Hw, C2, C1, W2, W1. rewrite answeredRounds_S, <- app_assoc.
    split; [reflexivity|]. split; [lia | reflexivity].
  - replace (Z.to_nat (rounds - i + 1)) with 0%nat by lia.
    cbn [fst snd]. unfold answeredRounds. cbn [seq map]. rewrite app_nil_r.
    split; [reflexivity|]. split; [lia | reflexivity].
Qed.

Lemma postDebate_answered
    (limit : Z) (keyMissing : string) (blank : string -> bool)
    (apiKey : option string)
    (clientIp : string) (now : Z) (body : Body.t) (limiter : RateLimiter) (w : World)
    (topic : string) (rounds : Z) (responseLength : string) :
  fst (rateLimit limit clientIp now limiter) = true ->
  validate keyMissing blank apiKey body = None ->
  Body.topic body = Some topic ->
  Body.rounds body = Some rounds ->
  Body.responseLength body = Some responseLength ->
  let result := postDebate limit keyMissing call blank apiKey clientIp now body
                           limiter w in
  fst (fst result)
  = Replied 200 (Transcript topic
                   (answeredRounds reply 1 (calls w)
                      (Z.to_nat rounds))
                   rounds responseLength (Body.model body))
  /\ calls (snd result) = (calls w + 2 * Z.to_nat rounds)%nat
  /\ waited (log (snd result)) = waited (log w).
Proof.
  intros Hpass Hvalid Ht Hr Hl. unfold postDebate.
  destruct (rateLimit limit clientIp now limiter) as [passed limiter'].
  simpl in Hpass. subst passed. rewrite Hvalid, Ht, Hr, Hl. cbn [rendered].
  pose proof (generateRounds_answered rounds topic responseLength
                (Body.model body) (S (Z.to_nat rounds)) 1
                (initialContext topic) [] w) as H.
  replace (rounds - 1 + 1) with rounds in H by lia.
  specialize (H ltac:(lia)). cbv zeta in H. destruct H as (E & Hc & Hw).
  destruct (generateRounds _ _ _ _ _ _ _ _ _ _) as [g w'].
  cbn [fst snd] in *. subst g. cbn [app]. auto.
Qed.

End Answered.

(** When every request to the completion service is answered with text,
    the debate is answered with status 200, and its transcript pairs the
    answers off in the order in which they came: round [k] holds the
    answers to the calls numbered [2(k-1)] and [2(k-1)+1] of the debate.
    Exactly two requests per round go out, and none is waited for. *)
Theorem groqDebate_transcript
    (endpoint : nat -> Request -> FetchOutcome) (reply : nat -> string)
    (blank : string -> bool) (GROQ_API_KEY : option string)
    (clientIp : string) (now : Z) (body : Body.t) (limiter : RateLimiter) (w : World)
    (topic : string) (rounds : Z) (responseLength : string) :
  (forall n r, generatedText (endpoint n r) = Some (reply n)) ->
  fst (rateLimit MAX_DEBATES_PER_WINDOW clientIp now limiter) = true ->
  validate "Groq API key not configured. Please set GROQ_API_KEY in .env file."
           blank GROQ_API_KEY body = None ->
  Body.topic body = Some topic ->
  Body.rounds body = Some rounds ->
  Body.responseLength body = Some responseLength ->
  let result := groqDebate endpoint blank GROQ_API_KEY clientIp now body limiter w in
  fst (fst result)
  = Replied 200 (Transcript topic
                   (answeredRounds (fun n => Some (reply n)) 1 (calls w)
                      (Z.to_nat rounds))
                   rounds responseLength (Body.model body))
  /\ calls (snd result) = (calls w + 2 * Z.to_nat rounds)%nat
  /\ waited (log (snd result)) = waited (log w).
Proof.
  intros Hreply Hpass Hvalid Ht Hr Hl.
  apply (postDebate_answered
           (fun prompt personality length model =>
              callGroq endpoint prompt personality length (startAlias model) [])
           (fun n => Some (reply n))); try assumption.
  intros p pers len m w0.
  rewrite (callGroq_answered endpoint p pers len (startAlias m) [] w0
             (reply (calls w0))) by (intros r; apply Hreply).
  cbn [fst snd]. split; [reflexivity|]. split; [reflexivity|].
  unfold sent, emit. cbn [log]. rewrite !waited_app.
  rewrite waited_Invoke, waited_Fetch, waited_nil. lia.
Qed.

Lemma groqDebate_transcript_witness :
  fst (fst (groqDebate numbered asciiBlank (Some "gsk_key") "203.0.113.7" 1000
              sampleBody [] start))
  = Replied 200 (Transcript "Tea is better than coffee"
                   [ {| round := 1; pro := Some "Argument 0";
                        con := Some "Argument 1" |};
                     {| round := 2; pro := Some "Argument 2";
                        con := Some "Argument 3" |} ]
                   2 "short" (Some "llama33")).
Proof.
  exact (proj1 (groqDebate_transcript numbered
                  (fun n => ("Argument " ++ Js.number_to_string (Z.of_nat n))%string)
                  asciiBlank (Some "gsk_key") "203.0.113.7" 1000 sampleBody [] start
                  "Tea is better than coffee" 2 "short"
                  (fun n r => eq_refl) eq_refl eq_refl eq_refl eq_refl eq_refl)).
Defined.

(** * The OpenRouter server *)

Section OpenRouterCall.

Variable endpoint : nat -> Request -> OpenRouter.FetchOutcome.
Variables (prompt : string) (personality : Personality) (length : string).
Variable model : string.

Local Abbreviation req := (OpenRouter.buildRequest prompt personality length model).

Lemma openRouter_tryBlock (w : World) :
  OpenRouter.tryBlock endpoint prompt personality length model w
  = (OpenRouter.settle (endpoint (calls w) req), sent req w).
Proof.
  unfold OpenRouter.tryBlock, OpenRouter.fetchWithTimeout, OpenRouter.settle, sent.
  destruct (endpoint (calls w) req) as [response| |]; try reflexivity.
  destruct (OpenRouter.ok response); simpl.
  - destruct (OpenRouter.json response) as [[message|content]|e]; reflexivity.
  - destruct (OpenRouter.text response); reflexivity.
Qed.

Lemma openRouter_retried (o : OpenRouter.FetchOutcome) :
  OpenRouter.retried o
  = match OpenRouter.settle o with
    | Throws e => isNetworkError e
    | _ => false
    end.
Proof.
  unfold OpenRouter.retried, OpenRouter.settle.
  destruct o as [response| |]; try reflexivity.
  destruct (OpenRouter.ok response).
  - destruct (OpenRouter.json response) as [[message|content]|e]; reflexivity.
  - destruct (OpenRouter.text response); reflexivity.
Qed.

Lemma openRouter_settle_ends (o : OpenRouter.FetchOutcome) :
  OpenRouter.settle o <> OutOfFuel.
Proof.
  unfold OpenRouter.settle. destruct o as [response| |]; try discriminate.
  destruct (OpenRouter.ok response).
  - destruct (OpenRouter.json response) as [[message|content]|e]; discriminate.
  - destruct (OpenRouter.text response); discriminate.
Qed.

Lemma callOpenRouterAt_trace (depth : nat) :
  forall retryCount w,
    0 <= retryCount <= MAX_RETRIES ->
    (Z.to_nat (MAX_RETRIES - retryCount) < depth)%nat ->
    exists k,
      Z.of_nat k <= MAX_RETRIES - retryCount
      /\ OpenRouter.callOpenRouterAt endpoint depth prompt personality length model
           retryCount w
         = (OpenRouter.settle (endpoint (calls w + k)%nat req),
            {| calls := calls w + S k;
               log := log w ++ backoffLog req retryCount k |})
      /\ (forall i, (i < k)%nat ->
            OpenRouter.retried (endpoint (calls w + i)%nat req) = true)
      /\ (Z.of_nat k < MAX_RETRIES - retryCount ->
          OpenRouter.retried (endpoint (calls w + k)%nat req) = false).
Proof.
  induction depth as [|depth IH]; intros retryCount w Hr Hd; [lia|].
  cbn [OpenRouter.callOpenRouterAt]. rewrite openRouter_tryBlock.
  destruct (OpenRouter.retried (endpoint (calls w) req)) eqn:Hret.
  - destruct (Z.ltb_spec retryCount MAX_RETRIES) as [Hlt|Hge].
    + pose proof Hret as Hret'. rewrite openRouter_retried in Hret'.
      destruct (OpenRouter.settle (endpoint (calls w) req)) as [v|e|];
        try discriminate.
      rewrite Hret'. cbn [andb].
      destruct (IH (retryCount + 1)
                   (emit (Delay (INITIAL_RETRY_DELAY_MS * 2 ^ retryCount)) (sent req w)))
        as (k & Hk & E & Hbefore & Hlast).
      { lia. }
      { replace (MAX_RETRIES - retryCount) with (Z.succ (MAX_RETRIES - (retryCount + 1)))
          in Hd by lia.
        rewrite Z2Nat.inj_succ in Hd by lia. lia. }
      exists (S k). split; [lia|]. rewrite calls_emit, calls_sent in *.
      split; [|split].
      * rewrite E. replace (S (calls w) + k)%nat with (calls w + S k)%nat by lia.
        f_equal. unfold emit, sent. cbn [log calls backoffLog].
        f_equal; [lia|]. rewrite <- !app_assoc. reflexivity.
      * intros i Hi. destruct i as [|i].
        -- rewrite Nat.add_0_r. exact Hret.
        -- replace (calls w + S i)%nat with (S (calls w) + i)%nat by lia.
           apply Hbefore. lia.
      * intros Hk'. replace (calls w + S k)%nat with (S (calls w) + k)%nat by lia.
        apply Hlast. lia.
    + exists 0%nat. rewrite Nat.add_0_r. split; [lia|]. split; [|split].
      * destruct (OpenRouter.settle (endpoint (calls w) req)) as [v|e|];
          try (unfold sent; rewrite Nat.add_1_r; reflexivity).
        rewrite andb_false_r. unfold sent. rewrite Nat.add_1_r. reflexivity.
      * intros i Hi. lia.
      * intros Hk. lia.
  - exists 0%nat. rewrite Nat.add_0_r. split; [lia|]. split; [|split].
    + rewrite openRouter_retried in Hret.
      destruct (OpenRouter.settle (endpoint (calls w) req)) as [v|e|];
        try (unfold sent; rewrite Nat.add_1_r; reflexivity).
      rewrite Hret. cbn [andb]. unfold sent. rewrite Nat.add_1_r. reflexivity.
    + intros i Hi. lia.
    + intros _. exact Hret.
Qed.

End OpenRouterCall.

Lemma callOpenRouter_run
    (endpoint : nat -> Request -> OpenRouter.FetchOutcome)
    (prompt : string) (personality : Personality) (length : string)
    (model : option string) (w : World) :
  let req := OpenRouter.buildRequest prompt personality length
               (match model with Some m => m | None => "llama" end) in
  exists k,
    (k <= 3)%nat
    /\ OpenRouter.callOpenRouter endpoint prompt personality length model w
       = (OpenRouter.settle (endpoint (calls w + k)%nat req),
          {| calls := calls w + S k; log := log w ++ backoffLog req 0 k |})
    /\ (forall i, (i < k)%nat ->
          OpenRouter.retried (endpoint (calls w + i)%nat req) = true)
    /\ ((k < 3)%nat -> OpenRouter.retried (endpoint (calls w + k)%nat req) = false).
Proof.
  intros req. unfold OpenRouter.callOpenRouter.
  destruct (callOpenRouterAt_trace endpoint prompt personality length
              (match model with Some m => m | None => "llama" end)
              (S (Z.to_nat MAX_RETRIES)) 0 w)
    as (k & Hk & E & Hbefore & Hlast).
  - unfold MAX_RETRIES. lia.
  - unfold MAX_RETRIES. simpl. lia.
  - unfold MAX_RETRIES in Hk, Hlast.
    exists k. split; [lia|]. split; [exact E|]. split; [exact Hbefore|].
    intros Hk'. apply Hlast. lia.
Qed.

(** [callOpenRouter] sends the same request up to four times, waiting
    1000, 2000 and 4000 ms in between, and ends with what the first
    response that it does not retry settles to, or with what the fourth
    response settles to. *)
Theorem callOpenRouter_trace
    (endpoint : nat -> Request -> OpenRouter.FetchOutcome)
    (prompt : string) (personality : Personality) (length : string)
    (model : option string) (w : World) :
  let req := OpenRouter.buildRequest prompt personality length
               (match model with Some m => m | None => "llama" end) in
  exists k,
    (k <= 3)%nat
    /\ OpenRouter.callOpenRouter endpoint prompt personality length model w
       = (OpenRouter.settle (endpoint (calls w + k)%nat req),
          {| calls := calls w + S k; log := log w ++ backoffLog req 0 k |})
    /\ (forall i, (i < k)%nat ->
          OpenRouter.retried (endpoint (calls w + i)%nat req) = true)
    /\ ((k < 3)%nat -> OpenRouter.retried (endpoint (calls w + k)%nat req) = false).
Proof. exact (callOpenRouter_run endpoint prompt personality length model w). Qed.

Lemma waited_backoffLog_3 (r : Request) :
  waited (backoffLog r 0 3) = 7000.
Proof. reflexivity. Qed.

(** A success whose body has no [choices[0].message] makes
    [callOpenRouter] try again, as a transport failure does: when every
    response is such a one, four requests go out, 7000 ms are spent
    waiting, and the [TypeError] of the last property read is thrown. *)
Theorem callOpenRouter_retries_malformed
    (endpoint : nat -> Request -> OpenRouter.FetchOutcome)
    (prompt : string) (personality : Personality) (length : string)
    (model : option string) (w : World) :
  (forall n r, exists response message,
      endpoint n r = OpenRouter.Resolves response
      /\ OpenRouter.ok response = true
      /\ OpenRouter.json response = Got (OpenRouter.Broken message)) ->
  let run := OpenRouter.callOpenRouter endpoint prompt personality length model w in
  (exists message, fst run = Throws (OpenRouter.accessError message))
  /\ calls (snd run) = (calls w + 4)%nat
  /\ waited (log (snd run)) = waited (log w) + 7000.
Proof.
  intros Hbad run. subst run.
  assert (Hret : forall n r, OpenRouter.retried (endpoint n r) = true).
  { intros n r. destruct (Hbad n r) as (response & message & -> & Hok & Hjson).
    unfold OpenRouter.retried. now rewrite Hok, Hjson. }
  destruct (callOpenRouter_run endpoint prompt personality length model w)
    as (k & Hk & E & _ & Hlast).
  assert (k = 3)%nat as ->.
  { destruct (Nat.eq_dec k 3) as [|Hne]; [assumption|].
    specialize (Hlast ltac:(lia)). rewrite Hret in Hlast. discriminate. }
  rewrite E. cbn [fst snd calls log]. split; [|split].
  - match goal with
    | |- context [endpoint ?n ?r] =>
        destruct (Hbad n r) as (response & message & -> & Hok & Hjson)
    end.
    exists message. unfold OpenRouter.settle. now rewrite Hok, Hjson.
  - lia.
  - rewrite waited_app, waited_backoffLog_3. reflexivity.
Qed.

Lemma callOpenRouter_retries_malformed_witness :
  calls (snd (OpenRouter.callOpenRouter OpenRouter.noChoices "Debate Topic: tea"
                AGENT_PERSONALITIES_pro "short" (Some "gemma") start)) = 4%nat.
Proof.
  refine (proj1 (proj2 (callOpenRouter_retries_malformed OpenRouter.noChoices
                          "Debate Topic: tea" AGENT_PERSONALITIES_pro "short"
                          (Some "gemma") start _))).
  intros n r. eexists. eexists. repeat split.
Defined.

(** [callOpenRouter] has no fallback: a rejection, whatever its status,
    is thrown after the one request that received it. *)
Theorem callOpenRouter_rejection_terminal
    (endpoint : nat -> Request -> OpenRouter.FetchOutcome)
    (prompt : string) (personality : Personality) (length : string)
    (model : option string) (w : World)
    (response : OpenRouter.Response) (errorData : string) :
  let req := OpenRouter.buildRequest prompt personality length
               (match model with Some m => m | None => "llama" end) in
  endpoint (calls w) req = OpenRouter.Resolves response ->
  OpenRouter.ok response = false ->
  OpenRouter.text response = Got errorData ->
  OpenRouter.callOpenRouter endpoint prompt personality length model w
  = (Throws (Js.new_Error ("OpenRouter API error: "
                           ++ Js.number_to_string (OpenRouter.status response)
                           ++ " - " ++ errorData)%string),
     sent req w).
Proof.
  intros req Hres Hok Htext.
  destruct (callOpenRouter_run endpoint prompt personality length model w)
    as (k & Hk & E & Hbefore & _).
  fold req in E, Hbefore.
  assert (Hnot : OpenRouter.retried (endpoint (calls w) req) = false).
  { rewrite Hres. unfold OpenRouter.retried. now rewrite Hok, Htext. }
  assert (k = 0)%nat as ->.
  { destruct k as [|k]; [reflexivity|].
    specialize (Hbefore 0%nat ltac:(lia)). rewrite Nat.add_0_r in Hbefore.
    congruence. }
  rewrite E, Nat.add_0_r, Hres. unfold OpenRouter.settle. rewrite Hok, Htext.
  unfold sent. cbn [backoffLog]. rewrite Nat.add_1_r. reflexivity.
Qed.

Lemma callOpenRouter_rejection_terminal_witness :
  fst (OpenRouter.callOpenRouter OpenRouter.rateLimited "Debate Topic: tea"
         AGENT_PERSONALITIES_pro "short" (Some "llama") start)
  = Throws (Js.new_Error "OpenRouter API error: 429 - Rate limit exceeded").
Proof.
  rewrite (callOpenRouter_rejection_terminal OpenRouter.rateLimited
             "Debate Topic: tea" AGENT_PERSONALITIES_pro "short" (Some "llama") start
             {| OpenRouter.status := 429;
                OpenRouter.text := Got "Rate limit exceeded";
                OpenRouter.json := Got (OpenRouter.Broken "") |}
             "Rate limit exceeded" eq_refl eq_refl eq_refl).
  reflexivity.
Defined.

(** ** The debate endpoint of the OpenRouter server *)

Lemma openRouter_buildRequest_wellFormed (prompt : string)
    (personality : Personality) (length model : string) :
  wellFormed prompt personality length
             (OpenRouter.buildRequest prompt personality length model).
Proof.
  unfold wellFormed, OpenRouter.buildRequest. simpl.
  repeat split. apply maxTokens_budget.
Qed.

Lemma callOpenRouter_ends
    (endpoint : nat -> Request -> OpenRouter.FetchOutcome)
    (prompt : string) (personality : Personality) (length : string)
    (model : option string) (w : World) :
  fst (OpenRouter.callOpenRouter endpoint prompt personality length model w)
  <> OutOfFuel.
Proof.
  destruct (callOpenRouter_run endpoint prompt personality length model w)
    as (k & _ & E & _). rewrite E. apply openRouter_settle_ends.
Qed.

Lemma callOpenRouter_calls
    (endpoint : nat -> Request -> OpenRouter.FetchOutcome)
    (prompt : string) (personality : Personality) (length : string)
    (model : option string) (w : World) :
  (calls (snd (OpenRouter.callOpenRouter endpoint prompt personality length model w))
   <= calls w + 4)%nat.
Proof.
  destruct (callOpenRouter_run endpoint prompt personality length model w)
    as (k & Hk & E & _). rewrite E. cbn [snd calls]. lia.
Qed.

Lemma callOpenRouter_requests
    (endpoint : nat -> Request -> OpenRouter.FetchOutcome)
    (prompt : string) (personality : Personality) (length : string)
    (model : option string) (w : World) :
  exists l,
    log (snd (OpenRouter.callOpenRouter endpoint prompt personality length model w))
    = log w ++ l
    /\ Forall (wellFormed prompt personality length) (requests l).
Proof.
  destruct (callOpenRouter_run endpoint prompt personality length model w)
    as (k & Hk & E & _). rewrite E. cbn [snd log].
  eexists. split; [reflexivity|].
  rewrite backoffLog_requests. apply Forall_forall. intros r Hr.
  apply repeat_spec in Hr. subst r. apply openRouter_buildRequest_wellFormed.
Qed.

(** On the OpenRouter server too a request that has passed the limiter and
    the checks, with an integer for [rounds], is answered with a
    transcript of exactly [rounds] rounds, numbered from 1, or with status
    500 and, as details, the message of the error thrown by the call of
    [callOpenRouter], for the Pro or the Con agent, with which the run of
    the handler ends; at most 8 requests per round go out to the
    completion service, 80 in all, and each carries the style of one of
    the two agents and a prompt that begins with the topic header. *)
Theorem openRouterDebate_outcome
    (endpoint : nat -> Request -> OpenRouter.FetchOutcome)
    (blank : string -> bool) (OPENROUTER_API_KEY : option string)
    (clientIp : string) (now : Z) (body : Body.t) (limiter : RateLimiter)
    (topic : string) (rounds : Z) (responseLength : string) :
  fst (rateLimit OpenRouter.MAX_DEBATES_PER_WINDOW clientIp now limiter) = true ->
  validate "OpenRouter API key not configured. Please set OPENROUTER_API_KEY in .env file."
           blank OPENROUTER_API_KEY body = None ->
  Body.topic body = Some topic ->
  Body.rounds body = Some rounds ->
  Body.responseLength body = Some responseLength ->
  let result := OpenRouter.debate endpoint blank OPENROUTER_API_KEY clientIp now body
                                  limiter start in
  ((exists debateRounds,
      fst (fst result)
      = Replied 200 (Transcript topic debateRounds rounds responseLength
                       (Body.model body))
      /\ map round debateRounds = roundNumbers 1 (Z.to_nat rounds))
   \/ (exists error prompt personality w0,
         fst (fst result)
         = Replied 500 (ErrorPayload "Failed to generate debate"
                          (Some (Js.message error)))
         /\ (personality = AGENT_PERSONALITIES_pro
             \/ personality = AGENT_PERSONALITIES_con)
         /\ OpenRouter.callOpenRouter endpoint prompt personality responseLength
              (Body.model body) w0
            = (Throws error, snd result)))
  /\ (calls (snd result) <= 8 * Z.to_nat rounds)%nat
  /\ (calls (snd result) <= 80)%nat
  /\ Forall (debateRequest topic responseLength) (requests (log (snd result))).
Proof.
  intros Hpass Hvalid Ht Hr Hl result.
  destruct (postDebate_valid OpenRouter.MAX_DEBATES_PER_WINDOW _
              (OpenRouter.callOpenRouter endpoint) blank OPENROUTER_API_KEY 4
              (callOpenRouter_ends endpoint) (callOpenRouter_calls endpoint)
              (callOpenRouter_requests endpoint)
              clientIp now body limiter start topic rounds responseLength
              Hpass Hvalid Ht Hr Hl) as (Hc & (l & El & Hreq) & Hshape).
  fold (OpenRouter.debate endpoint blank OPENROUTER_API_KEY clientIp now body
          limiter start) in Hc, El, Hshape.
  fold result in Hc, El, Hshape. simpl in Hc, El.
  pose proof (validate_rounds _ _ _ _ _ Hvalid Hr) as Hten.
  split; [|split; [lia|]; split; [lia|]; rewrite El; exact Hreq].
  destruct Hshape as [Hdone | (e & p & pers & w0 & l0 & E & Hp & _ & Ecall)];
    [left; exact Hdone | right].
  exists e, p, pers, w0. auto.
Qed.

Lemma openRouterDebate_outcome_witness :
  exists error prompt personality w0,
    fst (fst (OpenRouter.debate OpenRouter.rateLimited asciiBlank (Some "sk-or-key")
                "203.0.113.7" 1000 sampleBody [] start))
    = Replied 500 (ErrorPayload "Failed to generate debate"
                     (Some "OpenRouter API error: 429 - Rate limit exceeded"))
    /\ Js.message error = "OpenRouter API error: 429 - Rate limit exceeded"
    /\ OpenRouter.callOpenRouter OpenRouter.rateLimited prompt personality "short"
         (Some "llama33") w0
       = (Throws error,
          snd (OpenRouter.debate OpenRouter.rateLimited asciiBlank (Some "sk-or-key")
                 "203.0.113.7" 1000 sampleBody [] start)).
Proof.
  destruct (openRouterDebate_outcome OpenRouter.rateLimited asciiBlank
              (Some "sk-or-key") "203.0.113.7" 1000 sampleBody []
              "Tea is better than coffee" 2 "short"
              eq_refl eq_refl eq_refl eq_refl eq_refl)
    as [[(debateRounds & E & _) | (e & p & pers & w0 & E & _ & Ecall)] _].
  - vm_compute in E. discriminate E.
  - exists e, p, pers, w0. split; [vm_compute; reflexivity|].
    split; [|exact Ecall].
    vm_compute in E. injection E as Em. symmetry. exact Em.
Defined.

Lemma callOpenRouter_answered
    (endpoint : nat -> Request -> OpenRouter.FetchOutcome)
    (reply : nat -> option string)
    (prompt : string) (personality : Personality) (length : string)
    (model : option string) (w : World) :
  (forall n r, exists response,
      endpoint n r = OpenRouter.Resolves response
      /\ OpenRouter.ok response = true
      /\ OpenRouter.json response = Got (OpenRouter.Content (reply n))) ->
  OpenRouter.callOpenRouter endpoint prompt personality length model w
  = (Returns (reply (calls w)),
     sent (OpenRouter.buildRequest prompt personality length
             (match model with Some m => m | None => "llama" end)) w).
Proof.
  intros Hreply.
  destruct (callOpenRouter_run endpoint prompt personality length model w)
    as (k & Hk & E & Hbefore & _).
  assert (k = 0)%nat as ->.
  { destruct k as [|k]; [reflexivity|].
    specialize (Hbefore 0%nat ltac:(lia)). rewrite Nat.add_0_r in Hbefore.
    match type of Hbefore with
    | OpenRouter.retried (endpoint ?n ?r) = true =>
        destruct (Hreply n r) as (response & Eo & Hok & Hjson)
    end.
    rewrite Eo in Hbefore. unfold OpenRouter.retried in Hbefore.
    rewrite Hok, Hjson in Hbefore. discriminate. }
  rewrite E, Nat.add_0_r. cbn [backoffLog].
  match goal with
  | |- context [endpoint ?n ?r] =>
      destruct (Hreply n r) as (response & Eo & Hok & Hjson)
  end.
  rewrite Eo. unfold OpenRouter.settle. rewrite Hok, Hjson.
  unfold sent. rewrite Nat.add_1_r. reflexivity.
Qed.

Section FirstRound.

Variable call : string -> Personality -> string -> option string -> World
                -> Completion * World.
Variable build : string -> Personality -> string -> option string -> Request.
Variable reply : nat -> option string.

Hypothesis call_sends : forall prompt personality length model w,
  call prompt personality length model w
  = (Returns (reply (calls w)), sent (build prompt personality length model) w).

Lemma generateRounds_extends
    (rounds : Z) (topic responseLength : string) (model : option string) :
  forall fuel i context debateRounds w,
    exists l,
      log (snd (generateRounds call fuel i rounds topic responseLength model
                  context debateRounds w))
      = log w ++ l.
Proof.
  induction fuel as [|fuel IH]; intros i context debateRounds w.
  - exists []. cbn [generateRounds snd]. now rewrite app_nil_r.
  - cbn [generateRounds]. destruct (i <=? rounds).
    + rewrite !call_sends.
      match goal with
      | |- context [generateRounds call fuel ?j rounds topic responseLength model
                      ?c ?acc ?w2] =>
          destruct (IH j c acc w2) as (l & El)
      end.
      rewrite El. unfold sent. cbn [log]. rewrite <- !app_assoc.
      eexists. reflexivity.
    + exists []. cbn [snd]. now rewrite app_nil_r.
Qed.

Lemma generateRounds_first_round
    (rounds : Z) (topic responseLength : string) (model : option string)
    (fuel : nat) (i : Z) (context : string) (debateRounds : list Round) (w : World) :
  i <= rounds ->
  exists rest,
    log (snd (generateRounds call (S fuel) i rounds topic responseLength model
                context debateRounds w))
    = log w
      ++ Fetch (build (proPrompt context i topic) AGENT_PERSONALITIES_pro
                  responseLength model)
      :: Fetch (build (conPrompt context i (rendered (reply (calls w))) topic)
                  AGENT_PERSONALITIES_con responseLength model)
      :: rest.
Proof.
  intros Hle. cbn [generateRounds].
  apply Z.leb_le in Hle. rewrite Hle. rewrite !call_sends.
  match goal with
  | |- context [generateRounds call fuel ?j rounds topic responseLength model
                  ?c ?acc ?w2] =>
      destruct (generateRounds_extends rounds topic responseLength model
                  fuel j c acc w2) as (l & El)
  end.
  rewrite El. unfold sent. cbn [log]. rewrite <- !app_assoc.
  exists l. reflexivity.
Qed.

End FirstRound.

(** [callOpenRouter] returns whatever [content] holds without a check, and
    the endpoint stores what it got in the transcript as it is, while the
    prompts quote it as a template literal renders it.  When every
    response is a success with content [reply n] (a string, or nothing at
    all), the debate is answered with status 200; round [k] of the
    transcript holds the contents of the responses numbered [2(k-1)] and
    [2(k-1)+1], [undefined] where a message had no content; two requests
    per round go out; and the second request of the debate asks the Con
    agent to counter the first content as rendered, the text [undefined]
    where there was none. *)
Theorem openRouterDebate_transcript
    (endpoint : nat -> Request -> OpenRouter.FetchOutcome)
    (reply : nat -> option string)
    (blank : string -> bool) (OPENROUTER_API_KEY : option string)
    (clientIp : string) (now : Z) (body : Body.t) (limiter : RateLimiter) (w : World)
    (topic : string) (rounds : Z) (responseLength : string) :
  (forall n r, exists response,
      endpoint n r = OpenRouter.Resolves response
      /\ OpenRouter.ok response = true
      /\ OpenRouter.json response = Got (OpenRouter.Content (reply n))) ->
  fst (rateLimit OpenRouter.MAX_DEBATES_PER_WINDOW clientIp now limiter) = true ->
  validate "OpenRouter API key not configured. Please set OPENROUTER_API_KEY in .env file."
           blank OPENROUTER_API_KEY body = None ->
  Body.topic body = Some topic ->
  Body.rounds body = Some rounds ->
  Body.responseLength body = Some responseLength ->
  let result := OpenRouter.debate endpoint blank OPENROUTER_API_KEY clientIp now body
                                  limiter w in
  let alias := match Body.model body with Some m => m | None => "llama" end in
  fst (fst result)
  = Replied 200 (Transcript topic
                   (answeredRounds reply 1 (calls w)
                      (Z.to_nat rounds))
                   rounds responseLength (Body.model body))
  /\ calls (snd result) = (calls w + 2 * Z.to_nat rounds)%nat
  /\ exists rest,
       log (snd result)
       = log w
         ++ Fetch (OpenRouter.buildRequest
                     (proPrompt (initialContext topic) 1 topic)
                     AGENT_PERSONALITIES_pro responseLength alias)
         :: Fetch (OpenRouter.buildRequest
                     (conPrompt (initialContext topic) 1
                        (rendered (reply (calls w))) topic)
                     AGENT_PERSONALITIES_con responseLength alias)
         :: rest.
Proof.
  intros Hreply Hpass Hvalid Ht Hr Hl result alias.
  destruct (postDebate_answered (OpenRouter.callOpenRouter endpoint) reply)
    with (limit := OpenRouter.MAX_DEBATES_PER_WINDOW)
         (keyMissing := "OpenRouter API key not configured. Please set OPENROUTER_API_KEY in .env file.")
         (blank := blank) (apiKey := OPENROUTER_API_KEY) (clientIp := clientIp)
         (now := now) (body := body) (limiter := limiter) (w := w)
         (topic := topic) (rounds := rounds) (responseLength := responseLength)
    as (E & Hc & _); try assumption.
  - intros p pers len m w0.
    rewrite (callOpenRouter_answered endpoint reply p pers len m w0 Hreply).
    cbn [fst snd]. rewrite calls_sent. split; [reflexivity|]. split; [reflexivity|].
    unfold sent. cbn [log]. rewrite waited_app, waited_Fetch, waited_nil. lia.
  - split; [exact E|]. split; [exact Hc|].
    pose proof (validate_rounds _ _ _ _ _ Hvalid Hr) as Hten.
    subst result. unfold OpenRouter.debate, postDebate.
    destruct (rateLimit OpenRouter.MAX_DEBATES_PER_WINDOW clientIp now limiter)
      as [passed limiter'].
    simpl in Hpass. subst passed. rewrite Hvalid, Ht, Hr, Hl. cbn [rendered].
    destruct (generateRounds_first_round (OpenRouter.callOpenRouter endpoint)
                (fun p pers len m =>
                   OpenRouter.buildRequest p pers len
                     (match m with Some m' => m' | None => "llama" end))
                reply
                (fun p pers len m w0 =>
                   callOpenRouter_answered endpoint reply p pers len m w0 Hreply)
                rounds topic responseLength (Body.model body)
                (Z.to_nat rounds) 1 (initialContext topic) [] w ltac:(lia))
      as (rest & Erest).
    exists rest.
    destruct (generateRounds _ _ _ _ _ _ _ _ _ _) as [[l|e|] w'];
      cbn [fst snd] in *; exact Erest.
Qed.

Lemma openRouterDebate_transcript_witness :
  fst (fst (OpenRouter.debate OpenRouter.noContent asciiBlank (Some "sk-or-key")
              "203.0.113.7" 1000 sampleBody [] start))
  = Replied 200 (Transcript "Tea is better than coffee"
                   [ {| round := 1; pro := None; con := None |};
                     {| round := 2; pro := None; con := None |} ]
                   2 "short" (Some "llama33"))
  /\ calls (snd (OpenRouter.debate OpenRouter.noContent asciiBlank (Some "sk-or-key")
                   "203.0.113.7" 1000 sampleBody [] start)) = 4%nat
  /\ exists rest,
       log (snd (OpenRouter.debate OpenRouter.noContent asciiBlank (Some "sk-or-key")
                   "203.0.113.7" 1000 sampleBody [] start))
       = Fetch (OpenRouter.buildRequest
                  (proPrompt (initialContext "Tea is better than coffee") 1
                     "Tea is better than coffee")
                  AGENT_PERSONALITIES_pro "short" "llama33")
         :: Fetch (OpenRouter.buildRequest
                     (conPrompt (initialContext "Tea is better than coffee") 1
                        "undefined" "Tea is better than coffee")
                     AGENT_PERSONALITIES_con "short" "llama33")
         :: rest.
Proof.
  refine (openRouterDebate_transcript OpenRouter.noContent (fun _ => None)
            asciiBlank (Some "sk-or-key") "203.0.113.7" 1000 sampleBody []
            start "Tea is better than coffee" 2 "short"
            _ eq_refl eq_refl eq_refl eq_refl eq_refl).
  intros n r. eexists. repeat split.
Defined.
